(** * Lightning Terminal: configuration resolution ([config.go])

    A shallow embedding of the bootstrap layer of [litd]: the layered
    configuration loader, the lnd-mode validator, the UI password reader,
    the TLS provisioning switch, the dial-address rewrite of
    [lndConnectParams] and the on-demand listener.

    Go strings are byte strings and are modelled by [string] (a list of
    8-bit characters); [len] is therefore [String.length].  Paths use the
    Unix separator. *)

From stdpp Require Import gmap strings list.
From Stdlib Require Import Ascii String ZArith Lia.

Local Open Scope string_scope.
Local Open Scope list_scope.

(** ** Go standard library: package [strings] *)

Module strings.

(** [strings.HasPrefix(s, prefix)]. *)
Fixpoint HasPrefix (s pre : string) {struct pre} : bool :=
  match pre, s with
  | EmptyString, _ => true
  | String a pre', String b s' => Ascii.eqb a b && HasPrefix s' pre'
  | String _ _, EmptyString => false
  end.

(** [s[n:]], for [n <= len(s)]. *)
Fixpoint drop (n : nat) (s : string) : string :=
  match n, s with
  | S k, String _ s' => drop k s'
  | _, _ => s
  end.

(** [strings.Contains(s, substr)]. *)
Fixpoint Contains (s substr : string) : bool :=
  HasPrefix s substr ||
  match s with
  | EmptyString => false
  | String _ s' => Contains s' substr
  end.

(** [strings.Replace(s, old, new, 1)]: only the first occurrence of [old]
    is replaced. *)
Fixpoint Replace1 (s old new : string) : string :=
  if HasPrefix s old then new +:+ drop (String.length old) s
  else match s with
       | EmptyString => s
       | String c s' => String c (Replace1 s' old new)
       end.

(** The UTF-8 encodings of the code points for which [unicode.IsSpace]
    holds: the six ASCII ones, U+0085, U+00A0, U+1680, U+2000..U+200A,
    U+2028, U+2029, U+202F, U+205F and U+3000. *)
Definition spaceRunes : list (list ascii) :=
  map (map ascii_of_nat)
    [ [9]; [10]; [11]; [12]; [13]; [32];
      [194; 133]; [194; 160]; [225; 154; 128];
      [226; 128; 128]; [226; 128; 129]; [226; 128; 130]; [226; 128; 131];
      [226; 128; 132]; [226; 128; 133]; [226; 128; 134]; [226; 128; 135];
      [226; 128; 136]; [226; 128; 137]; [226; 128; 138];
      [226; 128; 168]; [226; 128; 169]; [226; 128; 175];
      [226; 129; 159]; [227; 128; 128] ]%nat.

Fixpoint isPrefixOf (p l : list ascii) : bool :=
  match p, l with
  | [], _ => true
  | a :: p', b :: l' => Ascii.eqb a b && isPrefixOf p' l'
  | _ :: _, [] => false
  end.

(** Width in bytes of the white-space rune that starts [l], [0%nat] when
    there is none. *)
Definition spaceWidth (runes : list (list ascii)) (l : list ascii) : nat :=
  match List.find (fun p => isPrefixOf p l) runes with
  | Some p => List.length p
  | None => 0%nat
  end.

(** Drops leading white-space runes; [skip] counts the bytes of the rune
    being dropped that are still to be consumed. *)
Fixpoint trimLeft (runes : list (list ascii)) (skip : nat)
    (l : list ascii) : list ascii :=
  match l with
  | [] => []
  | _ :: l' =>
      match skip with
      | S k => trimLeft runes k l'
      | O =>
          match spaceWidth runes l with
          | O => l
          | S k => trimLeft runes k l'
          end
      end
  end.

(** [strings.TrimSpace(s)]: leading and trailing Unicode white space
    removed.  The trailing side is trimmed on the reversed bytes. *)
Definition TrimSpace (s : string) : string :=
  let l := trimLeft spaceRunes 0 (list_ascii_of_string s) in
  string_of_list_ascii
    (rev (trimLeft (map (@rev ascii) spaceRunes) 0 (rev l))).

(** [strings.Join(elems, sep)]. *)
Fixpoint Join (elems : list string) (sep : string) : string :=
  match elems with
  | [] => ""
  | [e] => e
  | e :: rest => e +:+ sep +:+ Join rest sep
  end.

End strings.

(** ** Go standard library: package [path/filepath] (Unix) *)

Module filepath.

Definition Separator : ascii := "/"%char.

(** The elements of a path between separators; a path without separator
    is its only element. *)
Fixpoint elements (p : string) : list string :=
  match p with
  | EmptyString => [""]
  | String c p' =>
      if Ascii.eqb c Separator then "" :: elements p'
      else match elements p' with
           | [] => [String c ""]
           | e :: es => String c e :: es
           end
  end.

(** One step of [Clean] over the elements kept so far (last kept element
    first): empty and [.] elements are dropped, [..] removes the element
    before it, is dropped at the root, and is kept when nothing but [..]
    precedes it in a relative path. *)
Definition cleanStep (rooted : bool) (kept : list string) (e : string)
    : list string :=
  if decide (e = "") then kept
  else if decide (e = ".") then kept
  else if decide (e = "..") then
    match kept with
    | top :: below => if decide (top = "..") then e :: kept else below
    | [] => if rooted then [] else [e]
    end
  else e :: kept.

(** [filepath.Clean(path)]. *)
Definition Clean (p : string) : string :=
  if decide (p = "") then "."
  else
    let rooted := strings.HasPrefix p "/" in
    let kept := fold_left (cleanStep rooted) (elements p) [] in
    if rooted then "/" +:+ strings.Join (rev kept) "/"
    else match kept with
         | [] => "."
         | _ => strings.Join (rev kept) "/"
         end.

(** [filepath.Join(elem...)]: the elements from the first non-empty one on
    are joined with the separator and cleaned. *)
Fixpoint Join (elem : list string) : string :=
  match elem with
  | [] => ""
  | e :: rest =>
      if decide (e = "") then Join rest
      else Clean (strings.Join elem "/")
  end.

(** [filepath.Dir(path)]: all but the last element, cleaned. *)
Fixpoint dirPart (p : string) : string :=
  match p with
  | EmptyString => ""
  | String c p' =>
      if strings.Contains p' "/" then String c (dirPart p')
      else if Ascii.eqb c Separator then "/" else ""
  end.

Definition Dir (p : string) : string := Clean (dirPart p).

(** The last element of a path. *)
Definition lastElement (p : string) : string := List.last (elements p) "".

End filepath.

(** ** Errors and outcomes *)

(** The errors of [config.go], one constructor per [fmt.Errorf] or
    [errors.New] site (or per external call whose error is passed on). *)
Inductive error : Type :=
  | ErrParsingFlags (msg : string)      (* "error parsing flags: %w" *)
  | FlagsError (msg : string)           (* second flags.Parse, passed on *)
  | RequestedExit                       (* os.Exit(0) on the version flag *)
  | ConfigSyntaxError (msg : string)    (* *flags.IniError, passed on *)
  | DirectoryCreateFailed (dir cause : string)
                                        (* "failed to create directory %v: %v" *)
  | LndValidateError (msg : string)     (* lnd.ValidateConfig, passed on *)
  | NoNetworkSelected                   (* "no network selected" *)
  | InvalidMode (mode : string)         (* "invalid lnd mode %v" *)
  | InvalidNetwork (msg : string)       (* "error validating lnd remote network: %v" *)
  | ConflictingMacaroonConfig           (* "cannot set both macaroon dir and macaroon path" *)
  | LogRotationFailed (msg : string)    (* "log rotation setup failed: %v" *)
  | DebugLevelError (msg : string)      (* build.ParseAndSetDebugLevels, passed on *)
  | LetsEncryptHostUnset                (* "host must be set when using let's encrypt" *)
  | MissingACMEHost                     (* "let's encrypt host name option is required ..." *)
  | CouldNotReadUIPassword (e : error)  (* "could not read UI password: %v" *)
  | FileUnreadable (file : string)      (* "could not read file %s: %v" *)
  | EnvVarEmpty (name : string)         (* "environment variable %s is empty" *)
  | NoCredentialConfigured              (* "mandatory password for UI not configured. ..." *)
  | CredentialTooWeak                   (* "please set a strong password for the UI, ..." *)
  | TooManyListeners                    (* "litd only supports one RPC listener at a time" *)
  | LoopValidateError (msg : string)    (* loopd.Validate, passed on *)
  | PoolValidateError (msg : string)    (* pool.Validate, passed on *)
  | FaradayValidateError (msg : string) (* faraday.ValidateConfig, passed on *)
  | BitcoinClientError (msg : string)   (* chain.NewBitcoinClient, passed on *)
  | CertGenerationFailed (msg : string) (* "failed creating self-signed cert: %v" *)
  | CertLoadFailed (msg : string)       (* "failed reading TLS server keys: %v" *)
  | H2SetupFailed (msg : string)        (* "can't configure h2 handling: %v" *)
  | ListenError (msg : string)          (* net.Listen, passed on *)
  | AcceptError (msg : string)          (* inner Accept, passed on *)
  | CloseError (msg : string).          (* inner Close, passed on *)

(** Run-time panics of the Go runtime. *)
Inductive panic : Type :=
  | IndexOutOfRange
  | NilDereference.

Inductive result (A : Type) : Type :=
  | Ok (a : A)
  | Err (e : error)
  | Panic (p : panic).
Arguments Ok {A} a.
Arguments Err {A} e.
Arguments Panic {A} p.

(** ** Constants of [config.go] *)

Definition defaultHTTPSListen := "127.0.0.1:8443".
Definition uiPasswordMinLength : nat := 8.
Definition ModeIntegrated := "integrated".
Definition ModeRemote := "remote".
Definition defaultLndMode := ModeRemote.
Definition defaultConfigFilename := "lit.conf".
Definition defaultLogLevel := "info".
Definition defaultMaxLogFiles : Z := 3.
Definition defaultMaxLogFileSize : Z := 10.
Definition defaultLetsEncryptSubDir := "letsencrypt".
Definition defaultLetsEncryptListen := ":80".
Definition defaultSelfSignedCertOrganization := "litd autogenerated cert".
Definition defaultLogDirname := "logs".
Definition defaultLogFilename := "litd.log".
Definition defaultTLSCertFilename := "tls.cert".
Definition defaultTLSKeyFilename := "tls.key".
Definition defaultNetwork := "mainnet".
Definition defaultRemoteLndRpcServer := "localhost:10009".
Definition defaultLndChainSubDir := "chain".
Definition defaultLndChain := "bitcoin".
Definition defaultLndMacaroon := "admin.macaroon".

(** ** Types of the packages [config.go] builds on *)

Module net.
(** A [net.Addr] interface value, by what [config.go] observes of it: a
    [*net.TCPAddr] (with whether [IP.To4()] is non-nil and the text
    [String()] renders) or any other implementation (with its
    [Network()] and [String()]). *)
Inductive Addr : Type :=
  | TCPAddr (isV4 : bool) (text : string)
  | OtherAddr (network text : string).

Definition Addr_String (a : Addr) : string :=
  match a with
  | TCPAddr _ text => text
  | OtherAddr _ text => text
  end.

Definition Addr_Network (a : Addr) : string :=
  match a with
  | TCPAddr _ _ => "tcp"
  | OtherAddr network _ => network
  end.

(** An open or closed socket returned by [net.Listen]. *)
Record Listener : Type :=
  { boundNetwork : string; boundAddress : string; closed : bool }.

Record Conn : Type := { peer : string }.
End net.

Module lncfg.
Record Chain : Type :=
  { MainNet : bool; TestNet3 : bool; RegTest : bool; SimNet : bool }.
End lncfg.

Module build.
(** A [*build.RotatingLogWriter]: the log file of its rotator once
    initialised, and the debug levels set on it. *)
Record RotatingLogWriter : Type :=
  { logFile : option string; debugLevel : option string }.

Definition NewRotatingLogWriter : RotatingLogWriter :=
  {| logFile := None; debugLevel := None |}.
End build.

Module lnd.
(** The fields of [lnd.Config] that [config.go] reads or writes. *)
Record Config : Type :=
  { ShowVersion : bool;
    DataDir : string;
    TLSCertPath : string;
    TLSKeyPath : string;
    AdminMacPath : string;
    RPCListeners : list net.Addr;
    Bitcoin : lncfg.Chain;
    LogWriter : build.RotatingLogWriter }.

Definition with_LogWriter (w : build.RotatingLogWriter) (c : Config) :=
  {| ShowVersion := ShowVersion c; DataDir := DataDir c;
     TLSCertPath := TLSCertPath c; TLSKeyPath := TLSKeyPath c;
     AdminMacPath := AdminMacPath c; RPCListeners := RPCListeners c;
     Bitcoin := Bitcoin c; LogWriter := w |}.
End lnd.

Module loopd.
Record Config : Type := { Network : string }.

Definition with_Network (n : string) (c : Config) : Config :=
  {| Network := n |}.
End loopd.

Module pool.
Record Config : Type := { Network : string }.

Definition with_Network (n : string) (c : Config) : Config :=
  {| Network := n |}.
End pool.

Module faraday.
Record Config : Type :=
  { Network : string;
    FaradayDir : string;
    MacaroonPath : string;
    ChainConn : bool;
    Bitcoin : string }.

Definition with_Network (n : string) (c : Config) :=
  {| Network := n; FaradayDir := FaradayDir c;
     MacaroonPath := MacaroonPath c; ChainConn := ChainConn c;
     Bitcoin := Bitcoin c |}.
End faraday.

Module frdrpc.
Record Config : Type :=
  { FaradayDir : string;
    MacaroonPath : string;
    BitcoinClient : option string }.
End frdrpc.

Module lndclient.
Definition Network := string.

(** [Network.ChainParams()]: the chain parameters exist for the four
    networks lndclient knows, anything else is "unknown network". *)
Definition ChainParams (n : Network) : option string :=
  if decide (n = "mainnet") then None
  else if decide (n = "testnet") then None
  else if decide (n = "regtest") then None
  else if decide (n = "simnet") then None
  else Some "unknown network".
End lndclient.

(** ** The configuration structs of [config.go] *)

Module RemoteDaemonConfig.
Record t : Type :=
  { Network : string;
    RPCServer : string;
    MacaroonDir : string;
    MacaroonPath : string;
    TLSCertPath : string }.

Definition with_MacaroonDir (d : string) (c : t) : t :=
  {| Network := Network c; RPCServer := RPCServer c; MacaroonDir := d;
     MacaroonPath := MacaroonPath c; TLSCertPath := TLSCertPath c |}.

Definition with_Network (v : string) (c : t) : t :=
  {| Network := v; RPCServer := RPCServer c; MacaroonDir := MacaroonDir c;
     MacaroonPath := MacaroonPath c; TLSCertPath := TLSCertPath c |}.

Definition with_MacaroonPath (v : string) (c : t) : t :=
  {| Network := Network c; RPCServer := RPCServer c; MacaroonDir :=
     MacaroonDir c; MacaroonPath := v; TLSCertPath := TLSCertPath c |}.
End RemoteDaemonConfig.

Module RemoteConfig.
Record t : Type :=
  { LitTLSCertPath : string;
    LitTLSKeyPath : string;
    LitLogDir : string;
    LitMaxLogFiles : Z;
    LitMaxLogFileSize : Z;
    LitDebugLevel : string;
    Lnd : RemoteDaemonConfig.t }.

Definition with_Lnd (l : RemoteDaemonConfig.t) (c : t) : t :=
  {| LitTLSCertPath := LitTLSCertPath c; LitTLSKeyPath := LitTLSKeyPath c;
     LitLogDir := LitLogDir c; LitMaxLogFiles := LitMaxLogFiles c;
     LitMaxLogFileSize := LitMaxLogFileSize c;
     LitDebugLevel := LitDebugLevel c; Lnd := l |}.

Definition with_LitTLSCertPath (p : string) (c : t) : t :=
  {| LitTLSCertPath := p; LitTLSKeyPath := LitTLSKeyPath c;
     LitLogDir := LitLogDir c; LitMaxLogFiles := LitMaxLogFiles c;
     LitMaxLogFileSize := LitMaxLogFileSize c;
     LitDebugLevel := LitDebugLevel c; Lnd := Lnd c |}.

Definition with_LitTLSKeyPath (p : string) (c : t) : t :=
  {| LitTLSCertPath := LitTLSCertPath c; LitTLSKeyPath := p;
     LitLogDir := LitLogDir c; LitMaxLogFiles := LitMaxLogFiles c;
     LitMaxLogFileSize := LitMaxLogFileSize c;
     LitDebugLevel := LitDebugLevel c; Lnd := Lnd c |}.

Definition with_LitLogDir (p : string) (c : t) : t :=
  {| LitTLSCertPath := LitTLSCertPath c; LitTLSKeyPath := LitTLSKeyPath c;
     LitLogDir := p; LitMaxLogFiles := LitMaxLogFiles c;
     LitMaxLogFileSize := LitMaxLogFileSize c;
     LitDebugLevel := LitDebugLevel c; Lnd := Lnd c |}.
End RemoteConfig.

Module Config.
(** [Remote], [Faraday], [Loop], [Pool], [Lnd] and [faradayRpcConfig] are
    pointers in the source; the pointees are stored in place.  [Lnd],
    [Faraday], [Loop] and [Pool] point at the package variables that hold
    the defaults, which resolution reaches through the one [Config] of the
    run, but for [lndDefaultConfig.DataDir] in [validateRemoteModeConfig]
    (see there). *)
Record t : Type :=
  { HTTPSListen : string;
    HTTPListen : string;
    UIPassword : string;
    UIPasswordFile : string;
    UIPasswordEnv : string;
    LetsEncrypt : bool;
    LetsEncryptHost : string;
    LetsEncryptDir : string;
    LetsEncryptListen : string;
    LndMode : string;
    LitDir : string;
    ConfigFile : string;
    Remote : RemoteConfig.t;
    Faraday : faraday.Config;
    Loop : loopd.Config;
    Pool : pool.Config;
    Lnd : lnd.Config;
    faradayRpcConfig : frdrpc.Config;
    network : string }.

Definition with_UIPassword (v : string) (c : t) : t :=
  {| HTTPSListen := HTTPSListen c; HTTPListen := HTTPListen c;
     UIPassword := v; UIPasswordFile := UIPasswordFile c;
     UIPasswordEnv := UIPasswordEnv c; LetsEncrypt := LetsEncrypt c;
     LetsEncryptHost := LetsEncryptHost c;
     LetsEncryptDir := LetsEncryptDir c;
     LetsEncryptListen := LetsEncryptListen c; LndMode := LndMode c;
     LitDir := LitDir c; ConfigFile := ConfigFile c; Remote := Remote c;
     Faraday := Faraday c; Loop := Loop c; Pool := Pool c; Lnd := Lnd c;
     faradayRpcConfig := faradayRpcConfig c; network := network c |}.

Definition with_LetsEncryptDir (v : string) (c : t) : t :=
  {| HTTPSListen := HTTPSListen c; HTTPListen := HTTPListen c;
     UIPassword := UIPassword c; UIPasswordFile := UIPasswordFile c;
     UIPasswordEnv := UIPasswordEnv c; LetsEncrypt := LetsEncrypt c;
     LetsEncryptHost := LetsEncryptHost c; LetsEncryptDir := v;
     LetsEncryptListen := LetsEncryptListen c; LndMode := LndMode c;
     LitDir := LitDir c; ConfigFile := ConfigFile c; Remote := Remote c;
     Faraday := Faraday c; Loop := Loop c; Pool := Pool c; Lnd := Lnd c;
     faradayRpcConfig := faradayRpcConfig c; network := network c |}.

Definition with_Remote (v : RemoteConfig.t) (c : t) : t :=
  {| HTTPSListen := HTTPSListen c; HTTPListen := HTTPListen c;
     UIPassword := UIPassword c; UIPasswordFile := UIPasswordFile c;
     UIPasswordEnv := UIPasswordEnv c; LetsEncrypt := LetsEncrypt c;
     LetsEncryptHost := LetsEncryptHost c;
     LetsEncryptDir := LetsEncryptDir c;
     LetsEncryptListen := LetsEncryptListen c; LndMode := LndMode c;
     LitDir := LitDir c; ConfigFile := ConfigFile c; Remote := v;
     Faraday := Faraday c; Loop := Loop c; Pool := Pool c; Lnd := Lnd c;
     faradayRpcConfig := faradayRpcConfig c; network := network c |}.

Definition with_Faraday (v : faraday.Config) (c : t) : t :=
  {| HTTPSListen := HTTPSListen c; HTTPListen := HTTPListen c;
     UIPassword := UIPassword c; UIPasswordFile := UIPasswordFile c;
     UIPasswordEnv := UIPasswordEnv c; LetsEncrypt := LetsEncrypt c;
     LetsEncryptHost := LetsEncryptHost c;
     LetsEncryptDir := LetsEncryptDir c;
     LetsEncryptListen := LetsEncryptListen c; LndMode := LndMode c;
     LitDir := LitDir c; ConfigFile := ConfigFile c; Remote := Remote c;
     Faraday := v; Loop := Loop c; Pool := Pool c; Lnd := Lnd c;
     faradayRpcConfig := faradayRpcConfig c; network := network c |}.

Definition with_Loop (v : loopd.Config) (c : t) : t :=
  {| HTTPSListen := HTTPSListen c; HTTPListen := HTTPListen c;
     UIPassword := UIPassword c; UIPasswordFile := UIPasswordFile c;
     UIPasswordEnv := UIPasswordEnv c; LetsEncrypt := LetsEncrypt c;
     LetsEncryptHost := LetsEncryptHost c;
     LetsEncryptDir := LetsEncryptDir c;
     LetsEncryptListen := LetsEncryptListen c; LndMode := LndMode c;
     LitDir := LitDir c; ConfigFile := ConfigFile c; Remote := Remote c;
     Faraday := Faraday c; Loop := v; Pool := Pool c; Lnd := Lnd c;
     faradayRpcConfig := faradayRpcConfig c; network := network c |}.

Definition with_Pool (v : pool.Config) (c : t) : t :=
  {| HTTPSListen := HTTPSListen c; HTTPListen := HTTPListen c;
     UIPassword := UIPassword c; UIPasswordFile := UIPasswordFile c;
     UIPasswordEnv := UIPasswordEnv c; LetsEncrypt := LetsEncrypt c;
     LetsEncryptHost := LetsEncryptHost c;
     LetsEncryptDir := LetsEncryptDir c;
     LetsEncryptListen := LetsEncryptListen c; LndMode := LndMode c;
     LitDir := LitDir c; ConfigFile := ConfigFile c; Remote := Remote c;
     Faraday := Faraday c; Loop := Loop c; Pool := v; Lnd := Lnd c;
     faradayRpcConfig := faradayRpcConfig c; network := network c |}.

Definition with_Lnd (v : lnd.Config) (c : t) : t :=
  {| HTTPSListen := HTTPSListen c; HTTPListen := HTTPListen c;
     UIPassword := UIPassword c; UIPasswordFile := UIPasswordFile c;
     UIPasswordEnv := UIPasswordEnv c; LetsEncrypt := LetsEncrypt c;
     LetsEncryptHost := LetsEncryptHost c;
     LetsEncryptDir := LetsEncryptDir c;
     LetsEncryptListen := LetsEncryptListen c; LndMode := LndMode c;
     LitDir := LitDir c; ConfigFile := ConfigFile c; Remote := Remote c;
     Faraday := Faraday c; Loop := Loop c; Pool := Pool c; Lnd := v;
     faradayRpcConfig := faradayRpcConfig c; network := network c |}.

Definition with_faradayRpcConfig (v : frdrpc.Config) (c : t) : t :=
  {| HTTPSListen := HTTPSListen c; HTTPListen := HTTPListen c;
     UIPassword := UIPassword c; UIPasswordFile := UIPasswordFile c;
     UIPasswordEnv := UIPasswordEnv c; LetsEncrypt := LetsEncrypt c;
     LetsEncryptHost := LetsEncryptHost c;
     LetsEncryptDir := LetsEncryptDir c;
     LetsEncryptListen := LetsEncryptListen c; LndMode := LndMode c;
     LitDir := LitDir c; ConfigFile := ConfigFile c; Remote := Remote c;
     Faraday := Faraday c; Loop := Loop c; Pool := Pool c; Lnd := Lnd c;
     faradayRpcConfig := v; network := network c |}.

Definition with_network (v : string) (c : t) : t :=
  {| HTTPSListen := HTTPSListen c; HTTPListen := HTTPListen c;
     UIPassword := UIPassword c; UIPasswordFile := UIPasswordFile c;
     UIPasswordEnv := UIPasswordEnv c; LetsEncrypt := LetsEncrypt c;
     LetsEncryptHost := LetsEncryptHost c;
     LetsEncryptDir := LetsEncryptDir c;
     LetsEncryptListen := LetsEncryptListen c; LndMode := LndMode c;
     LitDir := LitDir c; ConfigFile := ConfigFile c; Remote := Remote c;
     Faraday := Faraday c; Loop := Loop c; Pool := Pool c; Lnd := Lnd c;
     faradayRpcConfig := faradayRpcConfig c; network := v |}.

Definition with_UIPasswordFile (v : string) (c : t) : t :=
  {| HTTPSListen := HTTPSListen c; HTTPListen := HTTPListen c; UIPassword
     := UIPassword c; UIPasswordFile := v; UIPasswordEnv := UIPasswordEnv
     c; LetsEncrypt := LetsEncrypt c; LetsEncryptHost := LetsEncryptHost c;
     LetsEncryptDir := LetsEncryptDir c; LetsEncryptListen :=
     LetsEncryptListen c; LndMode := LndMode c; LitDir := LitDir c;
     ConfigFile := ConfigFile c; Remote := Remote c; Faraday := Faraday c;
     Loop := Loop c; Pool := Pool c; Lnd := Lnd c; faradayRpcConfig :=
     faradayRpcConfig c; network := network c |}.

Definition with_UIPasswordEnv (v : string) (c : t) : t :=
  {| HTTPSListen := HTTPSListen c; HTTPListen := HTTPListen c; UIPassword
     := UIPassword c; UIPasswordFile := UIPasswordFile c; UIPasswordEnv :=
     v; LetsEncrypt := LetsEncrypt c; LetsEncryptHost := LetsEncryptHost c;
     LetsEncryptDir := LetsEncryptDir c; LetsEncryptListen :=
     LetsEncryptListen c; LndMode := LndMode c; LitDir := LitDir c;
     ConfigFile := ConfigFile c; Remote := Remote c; Faraday := Faraday c;
     Loop := Loop c; Pool := Pool c; Lnd := Lnd c; faradayRpcConfig :=
     faradayRpcConfig c; network := network c |}.

Definition with_LndMode (v : string) (c : t) : t :=
  {| HTTPSListen := HTTPSListen c; HTTPListen := HTTPListen c; UIPassword
     := UIPassword c; UIPasswordFile := UIPasswordFile c; UIPasswordEnv :=
     UIPasswordEnv c; LetsEncrypt := LetsEncrypt c; LetsEncryptHost :=
     LetsEncryptHost c; LetsEncryptDir := LetsEncryptDir c;
     LetsEncryptListen := LetsEncryptListen c; LndMode := v; LitDir :=
     LitDir c; ConfigFile := ConfigFile c; Remote := Remote c; Faraday :=
     Faraday c; Loop := Loop c; Pool := Pool c; Lnd := Lnd c;
     faradayRpcConfig := faradayRpcConfig c; network := network c |}.

Definition with_LetsEncrypt (v : bool) (c : t) : t :=
  {| HTTPSListen := HTTPSListen c; HTTPListen := HTTPListen c; UIPassword
     := UIPassword c; UIPasswordFile := UIPasswordFile c; UIPasswordEnv :=
     UIPasswordEnv c; LetsEncrypt := v; LetsEncryptHost := LetsEncryptHost
     c; LetsEncryptDir := LetsEncryptDir c; LetsEncryptListen :=
     LetsEncryptListen c; LndMode := LndMode c; LitDir := LitDir c;
     ConfigFile := ConfigFile c; Remote := Remote c; Faraday := Faraday c;
     Loop := Loop c; Pool := Pool c; Lnd := Lnd c; faradayRpcConfig :=
     faradayRpcConfig c; network := network c |}.

Definition with_LitDir (v : string) (c : t) : t :=
  {| HTTPSListen := HTTPSListen c; HTTPListen := HTTPListen c; UIPassword
     := UIPassword c; UIPasswordFile := UIPasswordFile c; UIPasswordEnv :=
     UIPasswordEnv c; LetsEncrypt := LetsEncrypt c; LetsEncryptHost :=
     LetsEncryptHost c; LetsEncryptDir := LetsEncryptDir c;
     LetsEncryptListen := LetsEncryptListen c; LndMode := LndMode c; LitDir
     := v; ConfigFile := ConfigFile c; Remote := Remote c; Faraday :=
     Faraday c; Loop := Loop c; Pool := Pool c; Lnd := Lnd c;
     faradayRpcConfig := faradayRpcConfig c; network := network c |}.

Definition with_LetsEncryptHost (v : string) (c : t) : t :=
  {| HTTPSListen := HTTPSListen c; HTTPListen := HTTPListen c; UIPassword
     := UIPassword c; UIPasswordFile := UIPasswordFile c; UIPasswordEnv :=
     UIPasswordEnv c; LetsEncrypt := LetsEncrypt c; LetsEncryptHost := v;
     LetsEncryptDir := LetsEncryptDir c; LetsEncryptListen :=
     LetsEncryptListen c; LndMode := LndMode c; LitDir := LitDir c;
     ConfigFile := ConfigFile c; Remote := Remote c; Faraday := Faraday c;
     Loop := Loop c; Pool := Pool c; Lnd := Lnd c; faradayRpcConfig :=
     faradayRpcConfig c; network := network c |}.

(** [c.Remote.Lnd]. *)
Definition RemoteLnd (c : t) : RemoteDaemonConfig.t :=
  RemoteConfig.Lnd (Remote c).
End Config.

(** ** The world around the resolver *)

(** What a path names on disk: a regular file with its content, or something
    [os.Stat] finds but that cannot be read. *)
Inductive FileNode : Type :=
  | Regular (content : string)
  | Inaccessible.

(** What the resolver does to the outside, in the order it does it.  A
    call into another package that acts on the outside itself (the log
    rotator creates the log directory and opens the log file,
    [lnd.ValidateConfig] sets up lnd's main logger, the validators of the
    sub-daemons and the bitcoin client do as they see fit, [cert.GenCertPair]
    writes the pair) is recorded as the call it is, whatever it returns. *)
Inductive Event : Type :=
  | LogInfo (msg : string)
  | LogWarn (msg : string)
  | Stdout (msg : string)
  | Stderr (msg : string)
  | MkdirAll (dir : string)
  | SetupLoggers (w : build.RotatingLogWriter)
  | GoListenAndServe (addr host cacheDir : string)
  | InitLogRotatorCalled (logFile : string) (maxSize maxFiles : Z)
  | LndValidateCalled (usageMessage : string)
  | LoopValidateCalled (network : string)
  | PoolValidateCalled (network : string)
  | FaradayValidateCalled (network : string)
  | NewBitcoinClientCalled (bitcoin : string)
  | GenCertPairCalled (org certFile keyFile : string).

Record State : Type :=
  { files : gmap string FileNode;
    events : list Event }.

(** The error of [flags.IniParse]: a [*flags.IniError] or any other one
    (a missing file among them). *)
Inductive IniErr : Type :=
  | IniError (msg : string)
  | IniOther (msg : string).

(** The error of [os.MkdirAll]: a [*os.PathError] (with whether
    [os.IsExist] holds of it) or any other one. *)
Inductive MkdirErr : Type :=
  | PathError (isExist : bool) (path msg : string)
  | MkdirOther (msg : string).

Module tls.
Record Certificate : Type := { certPEM : string; keyPEM : string }.

Record Config : Type :=
  { Certificates : list Certificate;
    CipherSuites : list Z;
    NextProtos : list string;
    GetCertificate : option (string * string) }.

Definition TLS_ECDHE_RSA_WITH_AES_128_GCM_SHA256 : Z := 49199.

Definition with_CipherSuites (cs : list Z) (c : Config) : Config :=
  {| Certificates := Certificates c; CipherSuites := cs;
     NextProtos := NextProtos c; GetCertificate := GetCertificate c |}.
End tls.

(** The platform, the process and the packages the resolver calls into.
    Every field is the outcome of a call that leaves [config.go]. *)
Record Env : Type :=
  { (* package-level defaults, computed once at start *)
    defaultLitDir : string;               (* btcutil.AppDataDir("lit", false) *)
    lndDefaultConfig : lnd.Config;        (* lnd.DefaultConfig() *)
    faradayDefaultConfig : faraday.Config;
    loopDefaultConfig : loopd.Config;
    poolDefaultConfig : pool.Config;
    (* the process *)
    Args0 : string;                       (* os.Args[0] *)
    environ : gmap string string;         (* the environment variables *)
    homeDir : string;
    ExpandEnv : string -> string;         (* os.ExpandEnv *)
    Version : string;                     (* build.Version() *)
    Commit : string;                      (* build.Commit *)
    (* go-flags, on the process arguments *)
    flagsParse : Config.t -> Config.t * option string;
    flagsIniParse : string -> Config.t -> Config.t * option IniErr;
    (* the file system and the network *)
    osMkdirAll : string -> option MkdirErr;
    osReadlink : string -> option string;
    netListen : string -> string -> option string;
    lisAccept : net.Listener -> net.Conn + string;
    (* the sub-daemons *)
    lndValidateConfig : lnd.Config -> string -> lnd.Config + string;
    loopdValidate : loopd.Config -> loopd.Config * option string;
    poolValidate : pool.Config -> pool.Config * option string;
    faradayValidateConfig : faraday.Config -> faraday.Config * option string;
    chainNewBitcoinClient : string -> string + string;
    InitLogRotator : string -> Z -> Z -> option string;
    ParseAndSetDebugLevels : string -> option string;
    (* certificates *)
    certGenerate : string -> (string * string) + string;
    X509KeyPair : string -> string -> option string;
    lndCipherSuites : list Z;
    TlsConfigWithHttp2Enabled : tls.Config -> tls.Config + string }.

(** ** A state and error monad for the resolver *)

Definition M (A : Type) : Type := State -> State * result A.

Definition ret {A} (a : A) : M A := fun s => (s, Ok a).

Definition bind {A B} (m : M A) (f : A -> M B) : M B :=
  fun s =>
    match m s with
    | (s', Ok a) => f a s'
    | (s', Err e) => (s', Err e)
    | (s', Panic p) => (s', Panic p)
    end.

Definition fail {A} (e : error) : M A := fun s => (s, Err e).

Definition emit (ev : Event) : M unit :=
  fun s => ({| files := files s; events := events s ++ [ev] |}, Ok tt).

(** [fmt.Errorf("...: %v", err)] around a failing call. *)
Definition wrapErr {A} (w : error -> error) (m : M A) : M A :=
  fun s =>
    match m s with
    | (s', Err e) => (s', Err (w e))
    | r => r
    end.

Notation "x <- c1 ;; c2" := (bind c1 (fun x => c2))
  (at level 20, c1 at level 99, c2 at level 200, only parsing).
Notation "c1 ;; c2" := (bind c1 (fun _ => c2))
  (at level 100, c2 at level 200, only parsing, right associativity).

(** [ioutil.ReadFile] on the files of a state. *)
Definition ReadFile (name : string) (s : State) : option string :=
  match files s !! name with
  | Some (Regular content) => Some content
  | _ => None
  end.

(** [lnrpc.FileExists]: false only when [os.Stat] reports that the file does
    not exist. *)
Definition FileExists (name : string) (s : State) : bool :=
  match files s !! name with
  | Some _ => true
  | None => false
  end.

(** [ioutil.WriteFile]. *)
Definition WriteFile (name content : string) (s : State) : State :=
  {| files := <[name := Regular content]> (files s); events := events s |}.

(** More of [path/filepath] and [strings], for the application name. *)
Module pathname.
Fixpoint dropSlashes (l : list ascii) : list ascii :=
  match l with
  | c :: l' => if Ascii.eqb c filepath.Separator then dropSlashes l' else l
  | [] => []
  end.

(** [filepath.Base(path)]. *)
Definition Base (p : string) : string :=
  if decide (p = "") then "."
  else
    let q := string_of_list_ascii
               (rev (dropSlashes (rev (list_ascii_of_string p)))) in
    if decide (q = "") then "/" else filepath.lastElement q.

(** [filepath.Ext(path)]: from the last dot of the last element on. *)
Fixpoint Ext (p : string) : string :=
  match p with
  | EmptyString => ""
  | String c p' =>
      let e := Ext p' in
      if negb (String.eqb e "") then e
      else if Ascii.eqb c "."%char && negb (strings.Contains p' "/")
      then p else ""
  end.

(** [strings.TrimSuffix(s, suffix)]. *)
Fixpoint TrimSuffix (s suffix : string) : string :=
  if String.eqb s suffix then ""
  else match s with
       | EmptyString => s
       | String c s' => String c (TrimSuffix s' suffix)
       end.
End pathname.

(** ** The resolver *)

(** [onDemandListener]: [lis] is [nil] until the first [Accept] has bound
    the address. *)
Record onDemandListener : Type :=
  { addr : net.Addr;
    lis : option net.Listener }.

Section Resolver.

Variable env : Env.

(** [os.Getenv]: the empty string for an unset variable. *)
Definition Getenv (key : string) : string :=
  default "" (environ env !! key).

(** [lnd.CleanAndExpandPath] and [lncfg.CleanAndExpandPath]: a leading [~]
    becomes the home directory, environment variables are expanded and the
    path is cleaned; the empty path stays empty. *)
Definition CleanAndExpandPath (p : string) : string :=
  if decide (p = "") then ""
  else
    let p := if strings.HasPrefix p "~"
             then strings.Replace1 p "~" (homeDir env) else p in
    filepath.Clean (ExpandEnv env p).

Definition defaultTLSCertPath : string :=
  filepath.Join [defaultLitDir env; defaultTLSCertFilename].
Definition defaultTLSKeyPath : string :=
  filepath.Join [defaultLitDir env; defaultTLSKeyFilename].
Definition defaultConfigFile : string :=
  filepath.Join [defaultLitDir env; defaultConfigFilename].
Definition defaultLogDir : string :=
  filepath.Join [defaultLitDir env; defaultLogDirname].
Definition defaultLetsEncryptDir : string :=
  filepath.Join [defaultLitDir env; defaultLetsEncryptSubDir].
Definition defaultRemoteLndMacDir : string :=
  filepath.Join [lnd.DataDir (lndDefaultConfig env); defaultLndChainSubDir;
                 defaultLndChain; defaultNetwork].

(** The in-process dial address of [lndConnectParams]: a wild-card listen
    address is rewritten to the loop-back one. *)
Definition rewriteDialAddr (lndDialAddr : string) : string :=
  if strings.Contains lndDialAddr "0.0.0.0" then
    strings.Replace1 lndDialAddr "0.0.0.0" "127.0.0.1"
  else if strings.Contains lndDialAddr "[::]" then
    strings.Replace1 lndDialAddr "[::]" "[::1]"
  else lndDialAddr.

(** [Config.lndConnectParams]: dial address, network, TLS certificate
    path and macaroon path of the lnd connection.  [path.Join] is
    [filepath.Join] on Unix. *)
Definition lndConnectParams (c : Config.t)
    : result (string * lndclient.Network * string * string) :=
  if decide (Config.LndMode c = ModeRemote) then
    let macPath :=
      filepath.Join
        [CleanAndExpandPath (RemoteDaemonConfig.MacaroonDir (Config.RemoteLnd c));
         defaultLndMacaroon] in
    let macPath :=
      if decide (RemoteDaemonConfig.MacaroonPath (Config.RemoteLnd c) <> "")
      then CleanAndExpandPath
             (RemoteDaemonConfig.MacaroonPath (Config.RemoteLnd c))
      else macPath in
    Ok (RemoteDaemonConfig.RPCServer (Config.RemoteLnd c),
        Config.network c,
        CleanAndExpandPath (RemoteDaemonConfig.TLSCertPath (Config.RemoteLnd c)),
        macPath)
  else
    match lnd.RPCListeners (Config.Lnd c) with
    | [] => Panic IndexOutOfRange
    | first :: _ =>
        Ok (rewriteDialAddr (net.Addr_String first),
            Config.network c,
            lnd.TLSCertPath (Config.Lnd c),
            lnd.AdminMacPath (Config.Lnd c))
    end.

(** [defaultConfig]. *)
Definition defaultConfig : Config.t :=
  {| Config.HTTPSListen := defaultHTTPSListen;
     Config.HTTPListen := "";
     Config.UIPassword := "";
     Config.UIPasswordFile := "";
     Config.UIPasswordEnv := "";
     Config.LetsEncrypt := false;
     Config.LetsEncryptHost := "";
     Config.LetsEncryptDir := defaultLetsEncryptDir;
     Config.LetsEncryptListen := defaultLetsEncryptListen;
     Config.LndMode := defaultLndMode;
     Config.LitDir := defaultLitDir env;
     Config.ConfigFile := defaultConfigFile;
     Config.Remote :=
       {| RemoteConfig.LitTLSCertPath := defaultTLSCertPath;
          RemoteConfig.LitTLSKeyPath := defaultTLSKeyPath;
          RemoteConfig.LitLogDir := defaultLogDir;
          RemoteConfig.LitMaxLogFiles := defaultMaxLogFiles;
          RemoteConfig.LitMaxLogFileSize := defaultMaxLogFileSize;
          RemoteConfig.LitDebugLevel := defaultLogLevel;
          RemoteConfig.Lnd :=
            {| RemoteDaemonConfig.Network := defaultNetwork;
               RemoteDaemonConfig.RPCServer := defaultRemoteLndRpcServer;
               RemoteDaemonConfig.MacaroonDir := defaultRemoteLndMacDir;
               RemoteDaemonConfig.MacaroonPath := "";
               RemoteDaemonConfig.TLSCertPath :=
                 lnd.TLSCertPath (lndDefaultConfig env) |} |};
     Config.Faraday := faradayDefaultConfig env;
     Config.Loop := loopDefaultConfig env;
     Config.Pool := poolDefaultConfig env;
     Config.Lnd := lndDefaultConfig env;
     Config.faradayRpcConfig :=
       {| frdrpc.FaradayDir := ""; frdrpc.MacaroonPath := "";
          frdrpc.BitcoinClient := None |};
     Config.network := "" |}.

(** [makeDirectories]: [os.MkdirAll] with a nicer message when a symlink
    in the way points nowhere. *)
Definition makeDirectories (fullDir : string) : M unit :=
  match osMkdirAll env fullDir with
  | Some err =>
      let cause :=
        match err with
        | PathError true path msg =>
            match osReadlink env path with
            | Some link =>
                "is symlink " +:+ path +:+ " -> " +:+ link +:+ " mounted?"
            | None => msg
            end
        | PathError false _ msg => msg
        | MkdirOther msg => msg
        end in
      emit (Stderr ("failed to create directory " +:+ fullDir +:+ ": "
                    +:+ cause)) ;;
      fail (DirectoryCreateFailed fullDir cause)
  | None => emit (MkdirAll fullDir)
  end.

(** [getNetwork]. *)
Definition getNetwork (cfg : lncfg.Chain) : result string :=
  if lncfg.MainNet cfg then Ok "mainnet"
  else if lncfg.TestNet3 cfg then Ok "testnet"
  else if lncfg.RegTest cfg then Ok "regtest"
  else if lncfg.SimNet cfg then Ok "simnet"
  else Err NoNetworkSelected.

(** [readUIPassword]: the password from the flag, from a file or from an
    environment variable. *)
Definition readUIPassword (config : Config.t) : M Config.t :=
  if (0 <? String.length (strings.TrimSpace (Config.UIPassword config)))%nat
  then
    ret (Config.with_UIPassword
           (strings.TrimSpace (Config.UIPassword config)) config)
  else if (0 <? String.length
                  (strings.TrimSpace (Config.UIPasswordFile config)))%nat
  then
    fun s =>
      match ReadFile (strings.TrimSpace (Config.UIPasswordFile config)) s with
      | None => (s, Err (FileUnreadable (Config.UIPasswordFile config)))
      | Some content =>
          (s, Ok (Config.with_UIPassword (strings.TrimSpace content) config))
      end
  else if (0 <? String.length
                  (strings.TrimSpace (Config.UIPasswordEnv config)))%nat
  then
    let content := Getenv (strings.TrimSpace (Config.UIPasswordEnv config)) in
    if (String.length content =? 0)%nat then
      fail (EnvVarEmpty (Config.UIPasswordEnv config))
    else
      ret (Config.with_UIPassword (strings.TrimSpace content) config)
  else fail NoCredentialConfigured.

(** A result that needs no state. *)
Definition lift {A} (r : result A) : M A := fun s => (s, r).

(** [validateRemoteModeConfig]: the checks and defaults of the remote lnd
    mode.  [cfg.Lnd] still points at the package variable
    [lndDefaultConfig] here (only [lnd.ValidateConfig] replaces it, in the
    integrated mode), so [lndDefaultConfig.DataDir] is read through
    [cfg.Lnd].  The new log writer is stored in [cfg.Lnd] in the state the
    rotator and the debug levels leave it in; when either fails the caller
    drops [cfg]. *)
Definition validateRemoteModeConfig (cfg : Config.t) : M Config.t :=
  let r := Config.Remote cfg in
  let l := RemoteConfig.Lnd r in
  match lndclient.ChainParams (RemoteDaemonConfig.Network l) with
  | Some err => fail (InvalidNetwork err)
  | None =>
    let cfg := Config.with_network (RemoteDaemonConfig.Network l) cfg in
    if decide (RemoteDaemonConfig.MacaroonDir l <> defaultRemoteLndMacDir
               /\ RemoteDaemonConfig.MacaroonPath l <> "")
    then fail ConflictingMacaroonConfig
    else
      let l :=
        if decide (RemoteDaemonConfig.Network l <> defaultNetwork
                   /\ RemoteDaemonConfig.MacaroonDir l = defaultRemoteLndMacDir)
        then RemoteDaemonConfig.with_MacaroonDir
               (filepath.Join [lnd.DataDir (Config.Lnd cfg);
                               defaultLndChainSubDir; defaultLndChain;
                               RemoteDaemonConfig.Network l]) l
        else l in
      let r := RemoteConfig.with_Lnd l r in
      let litDir := CleanAndExpandPath (Config.LitDir cfg) in
      let r :=
        if decide (litDir <> defaultLitDir env) then
          RemoteConfig.with_LitLogDir
            (filepath.Join [litDir; defaultLogDirname])
            (RemoteConfig.with_LitTLSKeyPath
               (filepath.Join [litDir; defaultTLSKeyFilename])
               (RemoteConfig.with_LitTLSCertPath
                  (filepath.Join [litDir; defaultTLSCertFilename]) r))
        else r in
      let r := RemoteConfig.with_LitTLSCertPath
                 (CleanAndExpandPath (RemoteConfig.LitTLSCertPath r)) r in
      let r := RemoteConfig.with_LitTLSKeyPath
                 (CleanAndExpandPath (RemoteConfig.LitTLSKeyPath r)) r in
      let r := RemoteConfig.with_LitLogDir
                 (CleanAndExpandPath (RemoteConfig.LitLogDir r)) r in
      let cfg := Config.with_Remote r cfg in
      makeDirectories (filepath.Dir (RemoteConfig.LitTLSCertPath r)) ;;
      makeDirectories (filepath.Dir (RemoteConfig.LitTLSKeyPath r)) ;;
      let logPath :=
        filepath.Join [RemoteConfig.LitLogDir r; Config.network cfg;
                       defaultLogFilename] in
      emit (InitLogRotatorCalled logPath (RemoteConfig.LitMaxLogFileSize r)
              (RemoteConfig.LitMaxLogFiles r)) ;;
      match InitLogRotator env logPath (RemoteConfig.LitMaxLogFileSize r)
              (RemoteConfig.LitMaxLogFiles r) with
      | Some err => fail (LogRotationFailed err)
      | None =>
          match ParseAndSetDebugLevels env (RemoteConfig.LitDebugLevel r) with
          | Some err => fail (DebugLevelError err)
          | None =>
              let logWriter :=
                {| build.logFile := Some logPath;
                   build.debugLevel := Some (RemoteConfig.LitDebugLevel r) |} in
              ret (Config.with_Lnd
                     (lnd.with_LogWriter logWriter (Config.Lnd cfg)) cfg)
          end
      end
  end.

(** The [switch cfg.LndMode] of [loadConfigFile]: the integrated lnd
    validates its own configuration and tells the network; the remote mode
    has its own checks; anything else is no mode. *)
Definition validateLndMode (cfg : Config.t) (usageMessage : string)
    : M Config.t :=
  if decide (Config.LndMode cfg = ModeIntegrated) then
    emit (LndValidateCalled usageMessage) ;;
    match lndValidateConfig env (Config.Lnd cfg) usageMessage with
    | inr msg => fail (LndValidateError msg)
    | inl lndCfg =>
        let cfg := Config.with_Lnd lndCfg cfg in
        network <- lift (getNetwork (lnd.Bitcoin lndCfg)) ;;
        ret (Config.with_network network cfg)
    end
  else if decide (Config.LndMode cfg = ModeRemote) then
    validateRemoteModeConfig cfg
  else fail (InvalidMode (Config.LndMode cfg)).

(** The config file [loadConfigFile] reads (its first lines): the one
    given, or the one in a lit directory that is not the default. *)
Definition resolveConfigFilePath (preCfg : Config.t) : string :=
  let litDir := CleanAndExpandPath (Config.LitDir preCfg) in
  let configFilePath := CleanAndExpandPath (Config.ConfigFile preCfg) in
  if decide (litDir <> defaultLitDir env /\ configFilePath = defaultConfigFile)
  then filepath.Join [litDir; defaultConfigFilename]
  else configFilePath.

(** [loadConfigFile]: the configuration from the config file and the
    command line.  [cfg] and [preCfg] are one struct in the source. *)
Definition loadConfigFile (preCfg : Config.t) (usageMessage : string)
    : M Config.t :=
  let litDir := CleanAndExpandPath (Config.LitDir preCfg) in
  let configFilePath := resolveConfigFilePath preCfg in
  let '(cfg, iniErr) := flagsIniParse env configFilePath preCfg in
  match iniErr with
  | Some (IniError msg) => fail (ConfigSyntaxError msg)
  | _ =>
    let configFileError :=
      match iniErr with Some (IniOther msg) => Some msg | _ => None end in
    let '(cfg, flagErr) := flagsParse env cfg in
    match flagErr with
    | Some msg => fail (FlagsError msg)
    | None =>
      makeDirectories litDir ;;
      cfg <- validateLndMode cfg usageMessage ;;
      match configFileError with
      | Some msg => emit (LogWarn msg)
      | None => ret tt
      end ;;
      ret cfg
    end
  end.

(** [loadAndValidateConfig], after [loadConfigFile] and up to the UI
    password: the loggers and the Let's Encrypt directory.  [preCfg] and
    [cfg] are one struct, so [preCfg.LitDir] is read from [cfg]. *)
Definition prepareLetsEncrypt (cfg : Config.t) : M Config.t :=
  emit (SetupLoggers (lnd.LogWriter (Config.Lnd cfg))) ;;
  let litDir := CleanAndExpandPath (Config.LitDir cfg) in
  let cfg := Config.with_LetsEncryptDir
               (CleanAndExpandPath (Config.LetsEncryptDir cfg)) cfg in
  let cfg :=
    if decide (litDir <> defaultLitDir env
               /\ Config.LetsEncryptDir cfg = defaultLetsEncryptDir)
    then Config.with_LetsEncryptDir
           (filepath.Join [litDir; defaultLetsEncryptSubDir]) cfg
    else cfg in
  (if Config.LetsEncrypt cfg then
     if decide (Config.LetsEncryptHost cfg = "") then fail LetsEncryptHostUnset
     else makeDirectories (Config.LetsEncryptDir cfg)
   else ret tt) ;;
  ret cfg.

(** [loadAndValidateConfig], after the UI password: the listener count and
    the validation of loop, pool and faraday. *)
Definition validateSubservers (cfg : Config.t) : M Config.t :=
  if (1 <? List.length (lnd.RPCListeners (Config.Lnd cfg)))%nat
  then fail TooManyListeners
  else
    emit (LoopValidateCalled (Config.network cfg)) ;;
    let '(loopCfg, loopErr) :=
      loopdValidate env
        (loopd.with_Network (Config.network cfg) (Config.Loop cfg)) in
    let cfg := Config.with_Loop loopCfg cfg in
    match loopErr with
    | Some msg => fail (LoopValidateError msg)
    | None =>
      emit (PoolValidateCalled (Config.network cfg)) ;;
      let '(poolCfg, poolErr) :=
        poolValidate env
          (pool.with_Network (Config.network cfg) (Config.Pool cfg)) in
      let cfg := Config.with_Pool poolCfg cfg in
      match poolErr with
      | Some msg => fail (PoolValidateError msg)
      | None =>
        emit (FaradayValidateCalled (Config.network cfg)) ;;
        let '(frdCfg, frdErr) :=
          faradayValidateConfig env
            (faraday.with_Network (Config.network cfg) (Config.Faraday cfg)) in
        let cfg := Config.with_Faraday frdCfg cfg in
        match frdErr with
        | Some msg => fail (FaradayValidateError msg)
        | None =>
          let rpcCfg :=
            {| frdrpc.FaradayDir := faraday.FaradayDir frdCfg;
               frdrpc.MacaroonPath := faraday.MacaroonPath frdCfg;
               frdrpc.BitcoinClient :=
                 frdrpc.BitcoinClient (Config.faradayRpcConfig cfg) |} in
          if faraday.ChainConn frdCfg then
            emit (NewBitcoinClientCalled (faraday.Bitcoin frdCfg)) ;;
            match chainNewBitcoinClient env (faraday.Bitcoin frdCfg) with
            | inr msg => fail (BitcoinClientError msg)
            | inl client =>
                ret (Config.with_faradayRpcConfig
                       {| frdrpc.FaradayDir := frdrpc.FaradayDir rpcCfg;
                          frdrpc.MacaroonPath := frdrpc.MacaroonPath rpcCfg;
                          frdrpc.BitcoinClient := Some client |} cfg)
            end
          else ret (Config.with_faradayRpcConfig rpcCfg cfg)
        end
      end
    end.

(** The usage message [loadAndValidateConfig] hands to lnd. *)
Definition appName : string :=
  let appName := pathname.Base (Args0 env) in
  pathname.TrimSuffix appName (pathname.Ext appName).

Definition usageMessage : string :=
  "Use " +:+ appName +:+ " -h to show usage".

(** [loadAndValidateConfig]: defaults, then the command line, then the
    config file and the command line again, then validation. *)
Definition loadAndValidateConfig : M Config.t :=
  let '(preCfg, err) := flagsParse env defaultConfig in
  match err with
  | Some msg => fail (ErrParsingFlags msg)
  | None =>
    if lnd.ShowVersion (Config.Lnd preCfg) then
      emit (Stdout (appName +:+ " version " +:+ Version env +:+ " commit="
                    +:+ Commit env)) ;;
      fail RequestedExit
    else
      cfg <- loadConfigFile preCfg usageMessage ;;
      cfg <- prepareLetsEncrypt cfg ;;
      cfg <- wrapErr CouldNotReadUIPassword (readUIPassword cfg) ;;
      if (String.length (Config.UIPassword cfg) <? uiPasswordMinLength)%nat
      then fail CredentialTooWeak
      else validateSubservers cfg
  end.

(** [cert.GenCertPair] of lnd: a fresh certificate and key, written to the
    two paths. *)
Definition GenCertPair (org certFile keyFile : string) (s : State)
    : State * option string :=
  let s := {| files := files s;
              events := events s ++ [GenCertPairCalled org certFile keyFile] |} in
  match certGenerate env org with
  | inr msg => (s, Some msg)
  | inl (certBytes, keyBytes) =>
      (WriteFile keyFile keyBytes (WriteFile certFile certBytes s), None)
  end.

(** [cert.LoadCert] of lnd: both files are read and parsed as a pair. *)
Definition LoadCert (certPath keyPath : string) (s : State)
    : tls.Certificate + string :=
  match ReadFile certPath s, ReadFile keyPath s with
  | Some certBytes, Some keyBytes =>
      match X509KeyPair env certBytes keyBytes with
      | Some msg => inr msg
      | None => inl {| tls.certPEM := certBytes; tls.keyPEM := keyBytes |}
      end
  | None, _ => inr ("open " +:+ certPath)
  | _, None => inr ("open " +:+ keyPath)
  end.

(** [cert.TLSConfFromCert] of lnd. *)
Definition TLSConfFromCert (c : tls.Certificate) : tls.Config :=
  {| tls.Certificates := [c];
     tls.CipherSuites := lndCipherSuites env;
     tls.NextProtos := [];
     tls.GetCertificate := None |}.

(** [cert.LoadCert] and then [cert.TLSConfFromCert], as both arms of
    [buildTLSConfigForHttp2] that load a pair do. *)
Definition loadTLSConfig (certPath keyPath : string) : M tls.Config :=
  fun s =>
    match LoadCert certPath keyPath s with
    | inr msg => (s, Err (CertLoadFailed msg))
    | inl tlsCert => (s, Ok (TLSConfFromCert tlsCert))
    end.

(** [buildTLSConfigForHttp2]: Let's Encrypt, or the self-signed pair of the
    remote mode, or the pair of the integrated lnd; then the cipher suite
    and the protocols HTTP/2 needs. *)
Definition buildTLSConfigForHttp2 (config : Config.t) : M tls.Config :=
  tlsConfig <-
    (if Config.LetsEncrypt config then
       let serverName := Config.LetsEncryptHost config in
       if decide (serverName = "") then fail MissingACMEHost
       else
         emit (LogInfo ("Setting up Let's Encrypt for server "
                        +:+ serverName)) ;;
         let certDir := Config.LetsEncryptDir config in
         emit (LogInfo ("Setting up Let's Encrypt with cache dir "
                        +:+ certDir)) ;;
         emit (GoListenAndServe (Config.LetsEncryptListen config)
                 serverName certDir) ;;
         ret {| tls.Certificates := []; tls.CipherSuites := [];
                tls.NextProtos := [];
                tls.GetCertificate := Some (serverName, certDir) |}
     else if decide (Config.LndMode config = ModeRemote) then
       let tlsCertPath := RemoteConfig.LitTLSCertPath (Config.Remote config) in
       let tlsKeyPath := RemoteConfig.LitTLSKeyPath (Config.Remote config) in
       (fun s =>
          if negb (FileExists tlsCertPath s) && negb (FileExists tlsKeyPath s)
          then
            match GenCertPair defaultSelfSignedCertOrganization
                    tlsCertPath tlsKeyPath s with
            | (s', Some msg) => (s', Err (CertGenerationFailed msg))
            | (s', None) => (s', Ok tt)
            end
          else (s, Ok tt)) ;;
       loadTLSConfig tlsCertPath tlsKeyPath
     else
       loadTLSConfig (lnd.TLSCertPath (Config.Lnd config))
         (lnd.TLSKeyPath (Config.Lnd config))) ;;
  let tlsConfig :=
    tls.with_CipherSuites
      (tls.CipherSuites tlsConfig
         ++ [tls.TLS_ECDHE_RSA_WITH_AES_128_GCM_SHA256]) tlsConfig in
  match TlsConfigWithHttp2Enabled env tlsConfig with
  | inr msg => fail (H2SetupFailed msg)
  | inl tlsConfig => ret tlsConfig
  end.

(** ** The on-demand listener *)

(** [parseNetwork]. *)
Definition parseNetwork (a : net.Addr) : string :=
  match a with
  | net.TCPAddr true _ => "tcp4"
  | net.TCPAddr false _ => "tcp6"
  | net.OtherAddr _ _ => net.Addr_Network a
  end.

(** [Accept] of a bound socket. *)
Definition Listener_Accept (li : net.Listener) : result net.Conn :=
  if net.closed li then Err (AcceptError "use of closed network connection")
  else match lisAccept env li with
       | inl conn => Ok conn
       | inr msg => Err (AcceptError msg)
       end.

(** [Close] of a bound socket. *)
Definition Listener_Close (li : net.Listener) : net.Listener * result unit :=
  if net.closed li
  then (li, Err (CloseError "use of closed network connection"))
  else ({| net.boundNetwork := net.boundNetwork li;
           net.boundAddress := net.boundAddress li;
           net.closed := true |}, Ok tt).

(** [onDemandListener.Accept]: binds on the first call. *)
Definition Accept (l : onDemandListener)
    : onDemandListener * result net.Conn :=
  match lis l with
  | None =>
      match netListen env (parseNetwork (addr l))
              (net.Addr_String (addr l)) with
      | Some msg => ({| addr := addr l; lis := None |}, Err (ListenError msg))
      | None =>
          let li := {| net.boundNetwork := parseNetwork (addr l);
                       net.boundAddress := net.Addr_String (addr l);
                       net.closed := false |} in
          ({| addr := addr l; lis := Some li |}, Listener_Accept li)
      end
  | Some li => (l, Listener_Accept li)
  end.

(** [onDemandListener.Close]: calls [Close] on [l.lis], whatever it is. *)
Definition Close (l : onDemandListener) : onDemandListener * result unit :=
  match lis l with
  | None => (l, Panic NilDereference)
  | Some li =>
      let '(li', r) := Listener_Close li in
      ({| addr := addr l; lis := Some li' |}, r)
  end.

(** [onDemandListener.Addr]. *)
Definition Addr (l : onDemandListener) : net.Addr := addr l.

End Resolver.

(** ** The store of the web application ([Store] and its [init]) *)

Module AppStore.

(** What a promise comes to. *)
Inductive Outcome : Type :=
  | Fulfilled
  | Rejected (reason : string).

(** What a call that is not awaited comes to: it returns (what it returns,
    a promise included, is dropped) or it throws. *)
Inductive Completion : Type :=
  | Returns
  | Throws (reason : string).

(** The calls [init] makes on the child stores. *)
Inductive Call : Type :=
  | SettingsInit
  | FetchChannels
  | FetchSwaps
  | FetchBalances.

(** The child stores, by what their calls come to. *)
Record Children : Type :=
  { settingsStore_init : Completion;
    channelStore_fetchChannels : Outcome;
    swapStore_fetchSwaps : Outcome;
    nodeStore_fetchBalances : Outcome }.

(** A [Store]: what the constructor is given, the flag [initialized], and
    the calls made on the child stores so far. *)
Record Store : Type :=
  { api : string * string;
    log : string;
    storage : string;
    initialized : bool;
    called : list Call }.

(** [constructor(lnd, loop, storage, log)]. *)
Definition constructor (lnd loop storage log : string) : Store :=
  {| api := (lnd, loop); log := log; storage := storage;
     initialized := false; called := [] |}.

Definition afterCall (c : Call) (s : Store) : Store :=
  {| api := api s; log := log s; storage := storage s;
     initialized := initialized s; called := called s ++ [c] |}.

Definition setInitialized (s : Store) : Store :=
  {| api := api s; log := log s; storage := storage s;
     initialized := true; called := called s |}.

(** [async init()]: the settings, not awaited, then the channels, the swaps
    and the balances, each awaited before the next; a call that throws, or
    an awaited promise that is rejected, rejects the promise of [init]
    there and then. *)
Definition init (children : Children) (s : Store) : Store * Outcome :=
  let s := afterCall SettingsInit s in
  match settingsStore_init children with
  | Throws reason => (s, Rejected reason)
  | Returns =>
    let s := afterCall FetchChannels s in
    match channelStore_fetchChannels children with
    | Rejected reason => (s, Rejected reason)
    | Fulfilled =>
      let s := afterCall FetchSwaps s in
      match swapStore_fetchSwaps children with
      | Rejected reason => (s, Rejected reason)
      | Fulfilled =>
        let s := afterCall FetchBalances s in
        match nodeStore_fetchBalances children with
        | Rejected reason => (s, Rejected reason)
        | Fulfilled => (setInitialized s, Fulfilled)
        end
      end
    end
  end.

(** What a call comes to, as [init] sees it. *)
Definition outcome (children : Children) (c : Call) : Outcome :=
  match c with
  | SettingsInit =>
      match settingsStore_init children with
      | Returns => Fulfilled
      | Throws reason => Rejected reason
      end
  | FetchChannels => channelStore_fetchChannels children
  | FetchSwaps => swapStore_fetchSwaps children
  | FetchBalances => nodeStore_fetchBalances children
  end.

(** The calls of [init], in the order of the source. *)
Definition initCalls : list Call :=
  [SettingsInit; FetchChannels; FetchSwaps; FetchBalances].

End AppStore.

(** ** Notions the statements use *)

(** A path element that [Clean] keeps as it is. *)
Definition plain (n : string) : Prop :=
  filepath.elements n = [n] /\ n <> "" /\ n <> "." /\ n <> "..".

(** The characters of a string, as a reader counts them: the code points
    of its UTF-8 encoding, that is the bytes that are no continuation bytes
    ([10xxxxxx]).  Go's [len] counts the bytes. *)
Definition isContinuationByte (c : ascii) : bool :=
  (128 <=? nat_of_ascii c)%nat && (nat_of_ascii c <? 192)%nat.

Fixpoint characters (s : string) : nat :=
  match s with
  | EmptyString => 0
  | String c s' => (if isContinuationByte c then 0 else 1) + characters s'
  end.

(** The first component of [lndConnectParams]. *)
Definition lndDialAddr (env : Env) (c : Config.t) : result string :=
  match lndConnectParams env c with
  | Ok (dialAddr, _, _, _) => Ok dialAddr
  | Err e => Err e
  | Panic p => Panic p
  end.

(** The credential as the specification words the resolution: the values of
    the three sources in priority order (the direct value, the content of
    the named file, the value of the named variable), of which the first
    that is not blank once trimmed wins. *)
Definition sourceValues (env : Env) (st : State) (cfg : Config.t)
    : list (option string) :=
  [ Some (Config.UIPassword cfg);
    ReadFile (strings.TrimSpace (Config.UIPasswordFile cfg)) st;
    environ env !! strings.TrimSpace (Config.UIPasswordEnv cfg) ].

Fixpoint firstNonBlank (values : list (option string)) : option string :=
  match values with
  | [] => None
  | Some v :: rest =>
      if decide (strings.TrimSpace v = "") then firstNonBlank rest
      else Some (strings.TrimSpace v)
  | None :: rest => firstNonBlank rest
  end.

(** What [buildTLSConfigForHttp2] makes of a loaded pair: the configuration
    of lnd with one more cipher suite, made fit for HTTP/2. *)
Definition tlsConfigOfLoaded (env : Env) (loaded : tls.Certificate + string)
    : result tls.Config :=
  match loaded with
  | inr msg => Err (CertLoadFailed msg)
  | inl tlsCert =>
      match TlsConfigWithHttp2Enabled env
              (tls.with_CipherSuites
                 (lndCipherSuites env
                    ++ [tls.TLS_ECDHE_RSA_WITH_AES_128_GCM_SHA256])
                 (TLSConfFromCert env tlsCert)) with
      | inr msg => Err (H2SetupFailed msg)
      | inl tlsConfig => Ok tlsConfig
      end
  end.

(** A trace without the warning of [loadConfigFile]. *)
Definition noWarn (evs : list Event) : Prop :=
  forall msg, ~ In (LogWarn msg) evs.

(** A computation that logs no warning, whatever else it does. *)
Definition quiet {A} (m : M A) : Prop :=
  forall st st' r, m st = (st', r) ->
    exists evs : list Event, events st' = events st ++ evs /\ noWarn evs.

(** A call on an on-demand listener, and the listener a run of calls
    leaves behind (a [Close] that panics leaves it as it was). *)
Inductive ListenerCall : Type :=
  | CallAccept
  | CallClose.

Definition afterCall (env : Env) (l : onDemandListener) (c : ListenerCall)
    : onDemandListener :=
  match c with
  | CallAccept => fst (Accept env l)
  | CallClose => fst (Close l)
  end.

Definition afterCalls (env : Env) (cs : list ListenerCall)
    (l : onDemandListener) : onDemandListener :=
  fold_left (afterCall env) cs l.

(** The socket of a listener, if any, is the one its address asks for. *)
Definition boundAsRequested (l : onDemandListener) : Prop :=
  match lis l with
  | None => True
  | Some li =>
      net.boundNetwork li = parseNetwork (addr l) /\
      net.boundAddress li = net.Addr_String (addr l)
  end.

(** ** A concrete world, for examples *)

Module Scenario.

Definition lndDefaults : lnd.Config :=
  {| lnd.ShowVersion := false;
     lnd.DataDir := "/home/lit/.lnd/data";
     lnd.TLSCertPath := "/home/lit/.lnd/tls.cert";
     lnd.TLSKeyPath := "/home/lit/.lnd/tls.key";
     lnd.AdminMacPath :=
       "/home/lit/.lnd/data/chain/bitcoin/mainnet/admin.macaroon";
     lnd.RPCListeners := [];
     lnd.Bitcoin := {| lncfg.MainNet := false; lncfg.TestNet3 := false;
                       lncfg.RegTest := false; lncfg.SimNet := false |};
     lnd.LogWriter := build.NewRotatingLogWriter |}.

(** What [lnd.ValidateConfig] makes of a configuration here: mainnet, and
    the listener given. *)
Definition lndValidated (listener : net.Addr) (c : lnd.Config) : lnd.Config :=
  {| lnd.ShowVersion := lnd.ShowVersion c;
     lnd.DataDir := lnd.DataDir c;
     lnd.TLSCertPath := lnd.TLSCertPath c;
     lnd.TLSKeyPath := lnd.TLSKeyPath c;
     lnd.AdminMacPath := lnd.AdminMacPath c;
     lnd.RPCListeners := [listener];
     lnd.Bitcoin := {| lncfg.MainNet := true; lncfg.TestNet3 := false;
                       lncfg.RegTest := false; lncfg.SimNet := false |};
     lnd.LogWriter := lnd.LogWriter c |}.

(** A Linux host where every directory can be created and every sub-daemon
    accepts its configuration.  [flags] is what the command line sets,
    [ini] the error of reading the config file, [vars] the environment and
    [listener] the RPC listener lnd reports in the integrated mode. *)
Definition world (flags : Config.t -> Config.t) (ini : option IniErr)
    (vars : gmap string string) (listener : net.Addr) : Env :=
  {| defaultLitDir := "/home/lit/.lit";
     lndDefaultConfig := lndDefaults;
     faradayDefaultConfig :=
       {| faraday.Network := "mainnet";
          faraday.FaradayDir := "/home/lit/.faraday";
          faraday.MacaroonPath := "/home/lit/.faraday/mainnet/faraday.macaroon";
          faraday.ChainConn := false;
          faraday.Bitcoin := "localhost:8332" |};
     loopDefaultConfig := {| loopd.Network := "mainnet" |};
     poolDefaultConfig := {| pool.Network := "mainnet" |};
     Args0 := "/usr/local/bin/litd";
     environ := vars;
     homeDir := "/home/lit";
     ExpandEnv := fun p => p;
     Version := "0.3.0-alpha";
     Commit := "v0.3.0-alpha";
     flagsParse := fun c => (flags c, None);
     flagsIniParse := fun _ c => (c, ini);
     osMkdirAll := fun _ => None;
     osReadlink := fun _ => None;
     netListen := fun _ _ => None;
     lisAccept := fun _ => inl {| net.peer := "127.0.0.1:50000" |};
     lndValidateConfig := fun c _ => inl (lndValidated listener c);
     loopdValidate := fun c => (c, None);
     poolValidate := fun c => (c, None);
     faradayValidateConfig := fun c => (c, None);
     chainNewBitcoinClient := fun _ => inr "connection refused";
     InitLogRotator := fun _ _ _ => None;
     ParseAndSetDebugLevels := fun _ => None;
     certGenerate := fun _ => inl ("CERTIFICATE", "PRIVATE KEY");
     X509KeyPair := fun _ _ => None;
     lndCipherSuites := [49195; 49196; 52393]%Z;
     TlsConfigWithHttp2Enabled := fun c => inl c |}.

(** Seven times the letter e with an acute accent, two bytes each. *)
Definition sevenAccents : string :=
  let accent := String "195" (String "169" EmptyString) in
  accent +:+ accent +:+ accent +:+ accent +:+ accent +:+ accent +:+ accent.

Definition noFile : option IniErr :=
  Some (IniOther "open /home/lit/.lit/lit.conf: no such file or directory").

Definition emptyState : State := {| files := ∅; events := [] |}.

Definition loopback : net.Addr := net.TCPAddr true "127.0.0.1:10009".

(** [--remote.lnd.macaroonpath] and [--remote.lnd.macaroondir] together. *)
Definition bothMacaroons (c : Config.t) : Config.t :=
  Config.with_Remote
    (RemoteConfig.with_Lnd
       (RemoteDaemonConfig.with_MacaroonPath "/srv/lit/custom.macaroon"
          (RemoteDaemonConfig.with_MacaroonDir "/srv/lnd/macaroons"
             (Config.RemoteLnd c)))
       (Config.Remote c))
    c.

(** [--lnd-mode=integrated --uipassword=...] and the two macaroon flags. *)
Definition integratedFlags (c : Config.t) : Config.t :=
  Config.with_LndMode ModeIntegrated
    (Config.with_UIPassword "correct horse" (bothMacaroons c)).

(** [--remote.lnd.network=testnet --uipassword=...]. *)
Definition testnetFlags (c : Config.t) : Config.t :=
  Config.with_UIPassword "correct horse"
    (Config.with_Remote
       (RemoteConfig.with_Lnd
          (RemoteDaemonConfig.with_Network "testnet" (Config.RemoteLnd c))
          (Config.Remote c))
       c).

(** [--uipassword_file=/run/secrets/ui --uipassword_env=LIT_PW]. *)
Definition fileAndEnvFlags (c : Config.t) : Config.t :=
  Config.with_UIPasswordEnv "LIT_PW"
    (Config.with_UIPasswordFile "/run/secrets/ui" c).

(** A password file that holds a blank and a line feed. *)
Definition blankFileState : State :=
  {| files := {[ "/run/secrets/ui" := Regular (String " " (String "010" "")) ]};
     events := [] |}.

(** Both files of the self-signed pair on disk. *)
Definition certState : State :=
  {| files := {[ "/home/lit/.lit/tls.cert" := Regular "OPERATOR CERTIFICATE";
                 "/home/lit/.lit/tls.key" := Regular "OPERATOR KEY" ]};
     events := [] |}.

(** The host [base] with other outcomes for the flags, for the creation of
    directories and for the reading of symlinks. *)
Definition rehost (base : Env)
    (flags : Config.t -> Config.t * option string)
    (mkdir : string -> option MkdirErr)
    (readlink : string -> option string) : Env :=
  {| defaultLitDir := defaultLitDir base;
     lndDefaultConfig := lndDefaultConfig base;
     faradayDefaultConfig := faradayDefaultConfig base;
     loopDefaultConfig := loopDefaultConfig base;
     poolDefaultConfig := poolDefaultConfig base;
     Args0 := Args0 base;
     environ := environ base;
     homeDir := homeDir base;
     ExpandEnv := ExpandEnv base;
     Version := Version base;
     Commit := Commit base;
     flagsParse := flags;
     flagsIniParse := flagsIniParse base;
     osMkdirAll := mkdir;
     osReadlink := readlink;
     netListen := netListen base;
     lisAccept := lisAccept base;
     lndValidateConfig := lndValidateConfig base;
     loopdValidate := loopdValidate base;
     poolValidate := poolValidate base;
     faradayValidateConfig := faradayValidateConfig base;
     chainNewBitcoinClient := chainNewBitcoinClient base;
     InitLogRotator := InitLogRotator base;
     ParseAndSetDebugLevels := ParseAndSetDebugLevels base;
     certGenerate := certGenerate base;
     X509KeyPair := X509KeyPair base;
     lndCipherSuites := lndCipherSuites base;
     TlsConfigWithHttp2Enabled := TlsConfigWithHttp2Enabled base |}.

(** The plain host: no flag, no config file, nothing in the environment. *)
Definition plainHost : Env := world (fun c => c) noFile ∅ loopback.

(** The lit directory is a symlink to a volume that is not mounted. *)
Definition unmounted : Env :=
  rehost plainHost (fun c => (c, None))
    (fun _ => Some (PathError true "/home/lit/.lit"
                      "mkdir /home/lit/.lit: file exists"))
    (fun _ => Some "/mnt/lit").

(** A flag go-flags does not know. *)
Definition unknownFlag : Env :=
  rehost plainHost (fun c => (c, Some "unknown flag `colour'"))
    (fun _ => None) (fun _ => None).

(** [--lit-dir=/srv/lit --uipassword=...]. *)
Definition litDirFlags (c : Config.t) : Config.t :=
  Config.with_UIPassword "correct horse" (Config.with_LitDir "/srv/lit" c).

(** [--remote.lnd.network=signet]. *)
Definition signetFlags (c : Config.t) : Config.t :=
  Config.with_Remote
    (RemoteConfig.with_Lnd
       (RemoteDaemonConfig.with_Network "signet" (Config.RemoteLnd c))
       (Config.Remote c))
    c.

(** [--lnd-mode=hybrid]. *)
Definition hybridFlags (c : Config.t) : Config.t :=
  Config.with_LndMode "hybrid" c.

(** [--letsencrypt --letsencrypthost=lit.example.org --uipassword=...]. *)
Definition letsEncryptFlags (c : Config.t) : Config.t :=
  Config.with_LetsEncryptHost "lit.example.org"
    (Config.with_LetsEncrypt true (Config.with_UIPassword "correct horse" c)).

(** The certificate and the key of lnd on disk. *)
Definition lndCertState : State :=
  {| files := {[ "/home/lit/.lnd/tls.cert" := Regular "LND CERTIFICATE";
                 "/home/lit/.lnd/tls.key" := Regular "LND KEY" ]};
     events := [] |}.

(** The certificate of the self-signed pair without its key. *)
Definition halfPairState : State :=
  {| files := {[ "/home/lit/.lit/tls.cert" := Regular "OPERATOR CERTIFICATE" ]};
     events := [] |}.

End Scenario.

(** ** Facts about paths *)

Lemma append_assoc (a b c : string) : (a +:+ b) +:+ c = a +:+ (b +:+ c).
Proof.
  induction a as [| x a IH]; [reflexivity |].
  change (String x ((a +:+ b) +:+ c) = String x (a +:+ b +:+ c)).
  now rewrite IH.
Qed.

Lemma elements_nonempty (p : string) : filepath.elements p <> [].
Proof.
  induction p as [| c p IH]; cbn; [discriminate |].
  destruct (Ascii.eqb c filepath.Separator); [discriminate |].
  destruct (filepath.elements p); [contradiction | discriminate].
Qed.

Lemma elements_append (x y : string) :
  filepath.elements (x +:+ "/" +:+ y)
    = filepath.elements x ++ filepath.elements y.
Proof.
  induction x as [| c x IH]; [reflexivity |].
  change (String c x +:+ "/" +:+ y) with (String c (x +:+ "/" +:+ y)).
  cbn [filepath.elements]. rewrite IH.
  destruct (Ascii.eqb c filepath.Separator); [reflexivity |].
  pose proof (elements_nonempty x) as Hne.
  destruct (filepath.elements x); [contradiction | reflexivity].
Qed.

Lemma cleanStep_plain rooted kept n :
  plain n -> filepath.cleanStep rooted kept n = n :: kept.
Proof.
  intros (_ & H1 & H2 & H3). unfold filepath.cleanStep.
  repeat (destruct (decide _); [contradiction |]). reflexivity.
Qed.

Lemma Join_snoc (l : list string) (x sep : string) :
  l <> [] -> strings.Join (l ++ [x]) sep = strings.Join l sep +:+ sep +:+ x.
Proof.
  induction l as [| a l IH]; [contradiction |]. intros _.
  destruct l as [| b l]; [reflexivity |].
  change (strings.Join ((a :: b :: l) ++ [x]) sep)
    with (a +:+ sep +:+ strings.Join ((b :: l) ++ [x]) sep).
  rewrite IH by discriminate.
  change (strings.Join (a :: b :: l) sep)
    with (a +:+ sep +:+ strings.Join (b :: l) sep).
  now rewrite !append_assoc.
Qed.

Lemma lastElement_append (q n : string) :
  filepath.elements n = [n] -> filepath.lastElement (q +:+ "/" +:+ n) = n.
Proof.
  intros Hn. unfold filepath.lastElement.
  rewrite elements_append, Hn. apply last_last.
Qed.

Lemma HasPrefix_append (p q : string) :
  p <> "" -> strings.HasPrefix (p +:+ q) "/" = strings.HasPrefix p "/".
Proof.
  destruct p as [| c p]; [contradiction |]. intros _.
  reflexivity.
Qed.

(** Cleaning a path that ends in a plain element keeps that element last,
    after a separator, when there is anything before it. *)
Lemma Clean_append_plain (p n : string) :
  p <> "" -> plain n ->
  fold_left (filepath.cleanStep (strings.HasPrefix p "/"))
    (filepath.elements p) [] <> [] ->
  exists q, filepath.Clean (p +:+ "/" +:+ n) = q +:+ "/" +:+ n.
Proof.
  intros Hp Hn Hkept. unfold filepath.Clean.
  destruct (decide (p +:+ "/" +:+ n = "")) as [Hempty | _].
  { destruct p; [contradiction | discriminate]. }
  rewrite HasPrefix_append by assumption.
  rewrite elements_append, fold_left_app.
  destruct Hn as (Hel & Hn). rewrite Hel. cbn [fold_left].
  rewrite cleanStep_plain by (split; assumption).
  set (kept := fold_left _ (filepath.elements p) []) in *.
  cbn [rev]. rewrite Join_snoc by (destruct kept; [contradiction |];
    cbn; intros Heq; apply app_eq_nil in Heq as [_ Heq]; discriminate).
  destruct (strings.HasPrefix p "/").
  - exists ("/" +:+ strings.Join (rev kept) "/"). now rewrite append_assoc.
  - eauto.
Qed.

(** ** The dial address of the integrated mode *)

Lemma lndDialAddr_integrated env c a rest :
  Config.LndMode c <> ModeRemote ->
  lnd.RPCListeners (Config.Lnd c) = a :: rest ->
  lndDialAddr env c = Ok (rewriteDialAddr (net.Addr_String a)).
Proof.
  intros Hmode Hlis. unfold lndDialAddr, lndConnectParams.
  destruct (decide (Config.LndMode c = ModeRemote)) as [Heq | _];
    [contradiction |].
  now rewrite Hlis.
Qed.

(** C6: in the integrated mode the dial address [0.0.0.0:10009] becomes
    [127.0.0.1:10009], [[::]:10009] becomes [[::1]:10009], and
    [192.168.1.5:10009] is returned as it is. *)
Theorem dial_address_loopback_rewrite env c a rest :
  Config.LndMode c <> ModeRemote ->
  lnd.RPCListeners (Config.Lnd c) = a :: rest ->
  (net.Addr_String a = "0.0.0.0:10009" ->
     lndDialAddr env c = Ok "127.0.0.1:10009") /\
  (net.Addr_String a = "[::]:10009" ->
     lndDialAddr env c = Ok "[::1]:10009") /\
  (net.Addr_String a = "192.168.1.5:10009" ->
     lndDialAddr env c = Ok "192.168.1.5:10009").
Proof.
  intros Hmode Hlis.
  rewrite (lndDialAddr_integrated env c a rest Hmode Hlis).
  repeat split; intros ->; reflexivity.
Qed.

(** C9: the rewrite looks for the substring [0.0.0.0], not for the host: the
    listen address [10.0.0.0:10009] is no wild card, and yet it is dialled
    as [1127.0.0.1:10009], which is another address and not an IP at all. *)
Theorem dial_address_substring_rewrite env c a rest :
  Config.LndMode c <> ModeRemote ->
  lnd.RPCListeners (Config.Lnd c) = a :: rest ->
  net.Addr_String a = "10.0.0.0:10009" ->
  strings.Contains (net.Addr_String a) "0.0.0.0" = true /\
  lndDialAddr env c = Ok "1127.0.0.1:10009" /\
  lndDialAddr env c <> Ok (net.Addr_String a).
Proof.
  intros Hmode Hlis Ha.
  rewrite (lndDialAddr_integrated env c a rest Hmode Hlis), Ha.
  repeat split; try reflexivity. discriminate.
Qed.

(** ** The on-demand listener *)

(** C10: [Close] on a listener whose [Accept] has not bound the address yet
    panics on the nil [lis]; a failed bind leaves [lis] nil; once [Accept]
    has bound the address [lis] is set, and [Close] on a set [lis] does not
    panic. *)
Theorem Close_before_bind_panics env (l : onDemandListener) :
  (lis l = None -> Close l = (l, Panic NilDereference)) /\
  (forall li, lis l = Some li -> forall p, snd (Close l) <> Panic p) /\
  (lis l = None ->
   forall msg,
     netListen env (parseNetwork (addr l)) (net.Addr_String (addr l))
       = Some msg ->
     lis (fst (Accept env l)) = None) /\
  (lis l = None ->
   netListen env (parseNetwork (addr l)) (net.Addr_String (addr l)) = None ->
   exists li, lis (fst (Accept env l)) = Some li /\ net.closed li = false).
Proof.
  unfold Close, Accept. repeat split.
  - intros ->. reflexivity.
  - intros li -> p. unfold Listener_Close.
    destruct (net.closed li); discriminate.
  - intros -> msg ->. reflexivity.
  - intros -> ->. cbn. eexists. split; reflexivity.
Qed.

(** ** The UI password *)

Lemma length_pos_nonempty (s : string) :
  (0 <? String.length s)%nat = true <-> s <> "".
Proof.
  destruct s; cbn; split; intros H; try discriminate; try reflexivity.
  now contradiction H.
Qed.

Lemma length_zero_empty (s : string) :
  (String.length s =? 0)%nat = true <-> s = "".
Proof. destruct s; cbn; split; intros H; try discriminate; reflexivity. Qed.

Lemma length_pos_false (s : string) :
  (0 <? String.length s)%nat = false <-> s = "".
Proof.
  destruct s; cbn; split; intros H; try discriminate; reflexivity.
Qed.

(** [readUIPassword], source by source. *)
Lemma readUIPassword_direct env cfg st :
  strings.TrimSpace (Config.UIPassword cfg) <> "" ->
  readUIPassword env cfg st
    = (st, Ok (Config.with_UIPassword
                 (strings.TrimSpace (Config.UIPassword cfg)) cfg)).
Proof.
  intros Hpw. unfold readUIPassword.
  apply length_pos_nonempty in Hpw. now rewrite Hpw.
Qed.

Lemma readUIPassword_file env cfg st :
  strings.TrimSpace (Config.UIPassword cfg) = "" ->
  strings.TrimSpace (Config.UIPasswordFile cfg) <> "" ->
  readUIPassword env cfg st
    = (st, match ReadFile (strings.TrimSpace (Config.UIPasswordFile cfg)) st with
           | Some content =>
               Ok (Config.with_UIPassword (strings.TrimSpace content) cfg)
           | None => Err (FileUnreadable (Config.UIPasswordFile cfg))
           end).
Proof.
  intros Hpw Hfile. unfold readUIPassword.
  apply length_pos_false in Hpw. apply length_pos_nonempty in Hfile.
  rewrite Hpw, Hfile. now destruct (ReadFile _ st).
Qed.

Lemma readUIPassword_env env cfg st :
  strings.TrimSpace (Config.UIPassword cfg) = "" ->
  strings.TrimSpace (Config.UIPasswordFile cfg) = "" ->
  strings.TrimSpace (Config.UIPasswordEnv cfg) <> "" ->
  let content := Getenv env (strings.TrimSpace (Config.UIPasswordEnv cfg)) in
  readUIPassword env cfg st
    = (st, if decide (content = "")
           then Err (EnvVarEmpty (Config.UIPasswordEnv cfg))
           else Ok (Config.with_UIPassword (strings.TrimSpace content) cfg)).
Proof.
  intros Hpw Hfile Hvar content. unfold readUIPassword. fold content.
  apply length_pos_false in Hpw, Hfile. apply length_pos_nonempty in Hvar.
  rewrite Hpw, Hfile, Hvar.
  destruct (decide (content = "")) as [Hempty | Hset].
  - apply length_zero_empty in Hempty. now rewrite Hempty.
  - destruct (String.length content =? 0)%nat eqn:Hlen; [| reflexivity].
    apply length_zero_empty in Hlen. contradiction.
Qed.

Lemma readUIPassword_none env cfg st :
  strings.TrimSpace (Config.UIPassword cfg) = "" ->
  strings.TrimSpace (Config.UIPasswordFile cfg) = "" ->
  strings.TrimSpace (Config.UIPasswordEnv cfg) = "" ->
  readUIPassword env cfg st = (st, Err NoCredentialConfigured).
Proof.
  intros Hpw Hfile Hvar. unfold readUIPassword.
  apply length_pos_false in Hpw, Hfile, Hvar. now rewrite Hpw, Hfile, Hvar.
Qed.

(** C2, as amended: the first source whose setting (the direct value, the
    file name, the variable name) is not blank once trimmed is the one
    consulted, and no other: the password is what that source yields,
    trimmed, and a file that cannot be read or an empty variable is an
    error and not a reason to go on to the next source. *)
Theorem readUIPassword_priority env cfg st :
  let pw := strings.TrimSpace (Config.UIPassword cfg) in
  let file := strings.TrimSpace (Config.UIPasswordFile cfg) in
  let var := strings.TrimSpace (Config.UIPasswordEnv cfg) in
  (pw <> "" ->
     readUIPassword env cfg st = (st, Ok (Config.with_UIPassword pw cfg))) /\
  (pw = "" -> file <> "" ->
     forall content, ReadFile file st = Some content ->
     readUIPassword env cfg st
       = (st, Ok (Config.with_UIPassword (strings.TrimSpace content) cfg))) /\
  (pw = "" -> file <> "" -> ReadFile file st = None ->
     readUIPassword env cfg st
       = (st, Err (FileUnreadable (Config.UIPasswordFile cfg)))) /\
  (pw = "" -> file = "" -> var <> "" -> Getenv env var <> "" ->
     readUIPassword env cfg st
       = (st, Ok (Config.with_UIPassword
                    (strings.TrimSpace (Getenv env var)) cfg))) /\
  (pw = "" -> file = "" -> var <> "" -> Getenv env var = "" ->
     readUIPassword env cfg st
       = (st, Err (EnvVarEmpty (Config.UIPasswordEnv cfg)))) /\
  (pw = "" -> file = "" -> var = "" ->
     readUIPassword env cfg st = (st, Err NoCredentialConfigured)).
Proof.
  cbv zeta. repeat split.
  - apply readUIPassword_direct.
  - intros Hpw Hfile content Hread.
    now rewrite readUIPassword_file, Hread.
  - intros Hpw Hfile Hread. now rewrite readUIPassword_file, Hread.
  - intros Hpw Hfile Hvar Hset. rewrite readUIPassword_env by assumption.
    cbv zeta. destruct (decide _); [contradiction | reflexivity].
  - intros Hpw Hfile Hvar Hempty. rewrite readUIPassword_env by assumption.
    cbv zeta. destruct (decide _); [reflexivity | contradiction].
  - apply readUIPassword_none.
Qed.

(** [loadAndValidateConfig] from the UI password on, when everything before
    it has gone well. *)
Lemma loadAndValidateConfig_from_password env st0 pre st1 cfg1 st cfg :
  flagsParse env (defaultConfig env) = (pre, None) ->
  lnd.ShowVersion (Config.Lnd pre) = false ->
  loadConfigFile env pre (usageMessage env) st0 = (st1, Ok cfg1) ->
  prepareLetsEncrypt env cfg1 st1 = (st, Ok cfg) ->
  loadAndValidateConfig env st0 =
    match readUIPassword env cfg st with
    | (st', Ok cfg') =>
        if (String.length (Config.UIPassword cfg') <? uiPasswordMinLength)%nat
        then (st', Err CredentialTooWeak)
        else validateSubservers env cfg' st'
    | (st', Err e) => (st', Err (CouldNotReadUIPassword e))
    | (st', Panic p) => (st', Panic p)
    end.
Proof.
  intros Hflags Hver Hload Hprep.
  unfold loadAndValidateConfig. rewrite Hflags, Hver.
  unfold bind at 1. rewrite Hload.
  unfold bind at 1. rewrite Hprep.
  unfold bind at 1, wrapErr.
  destruct (readUIPassword env cfg st) as [st' [cfg' | e | p]];
    try reflexivity.
  destruct (_ <? _)%nat; reflexivity.
Qed.

(** C7, as amended: with no direct value and no file named, a named
    variable that is unset or empty is [EnvVarEmpty]; one that holds only
    white space is not: its trimmed, empty value becomes the password, and
    the length check of [loadAndValidateConfig], which comes next, ends the
    run with [CredentialTooWeak]. *)
Theorem readUIPassword_env_empty env cfg st :
  strings.TrimSpace (Config.UIPassword cfg) = "" ->
  strings.TrimSpace (Config.UIPasswordFile cfg) = "" ->
  strings.TrimSpace (Config.UIPasswordEnv cfg) <> "" ->
  let value := environ env !! strings.TrimSpace (Config.UIPasswordEnv cfg) in
  (value = None \/ value = Some "" ->
     readUIPassword env cfg st
       = (st, Err (EnvVarEmpty (Config.UIPasswordEnv cfg)))) /\
  (forall v, value = Some v -> v <> "" -> strings.TrimSpace v = "" ->
     readUIPassword env cfg st = (st, Ok (Config.with_UIPassword "" cfg)) /\
     forall st0 pre st1 cfg1,
       flagsParse env (defaultConfig env) = (pre, None) ->
       lnd.ShowVersion (Config.Lnd pre) = false ->
       loadConfigFile env pre (usageMessage env) st0 = (st1, Ok cfg1) ->
       prepareLetsEncrypt env cfg1 st1 = (st, Ok cfg) ->
       loadAndValidateConfig env st0 = (st, Err CredentialTooWeak)).
Proof.
  intros Hpw Hfile Hvar value. subst value.
  assert (Hblank : forall v,
            environ env !! strings.TrimSpace (Config.UIPasswordEnv cfg) = Some v ->
            v <> "" -> strings.TrimSpace v = "" ->
            readUIPassword env cfg st
              = (st, Ok (Config.with_UIPassword "" cfg))).
  { intros v Hv Hne Hblank.
    rewrite readUIPassword_env by assumption. cbv zeta. unfold Getenv.
    rewrite Hv. change (default "" (Some v)) with v.
    destruct (decide (v = "")); [contradiction |]. now rewrite Hblank. }
  split.
  - rewrite readUIPassword_env by assumption. cbv zeta. unfold Getenv.
    intros [-> | ->]; reflexivity.
  - intros v Hv Hne Htrim. split; [now apply (Hblank v) |].
    intros st0 pre st1 cfg1 Hflags Hver Hload Hprep.
    rewrite (loadAndValidateConfig_from_password _ _ _ _ _ _ _
               Hflags Hver Hload Hprep).
    rewrite (Hblank v Hv Hne Htrim). reflexivity.
Qed.

(** [readUIPassword] leaves a trimmed password behind. *)
Lemma readUIPassword_trimmed env cfg st st' cfg' :
  readUIPassword env cfg st = (st', Ok cfg') ->
  exists raw, Config.UIPassword cfg' = strings.TrimSpace raw.
Proof.
  unfold readUIPassword, ret, fail. intros H.
  repeat case_match; simplify_eq; cbn; eauto.
Qed.

(** Nothing after the length check reports a weak password. *)
Lemma validateSubservers_not_weak env cfg st :
  snd (validateSubservers env cfg st) <> Err CredentialTooWeak.
Proof.
  unfold validateSubservers, ret, fail.
  repeat case_match; cbn; discriminate.
Qed.

(** A string has no more characters than bytes. *)
Lemma characters_le_length (s : string) : characters s <= String.length s.
Proof.
  induction s as [| c s IH]; [reflexivity |].
  cbn [characters String.length]. destruct (isContinuationByte c); lia.
Qed.

(** C8, as amended: the length that is checked is the number of bytes.  When
    resolution gets as far as a UI password, a password of fewer than 8
    bytes (after the trimming [readUIPassword] does) ends it with
    [CredentialTooWeak]; one of exactly 8 bytes, and so one of 8 characters
    or more, passes on to the checks that follow, none of which is
    [CredentialTooWeak]. *)
Theorem password_length_check env st pre st1 cfg1 st2 cfg2 st3 cfg3 :
  flagsParse env (defaultConfig env) = (pre, None) ->
  lnd.ShowVersion (Config.Lnd pre) = false ->
  loadConfigFile env pre (usageMessage env) st = (st1, Ok cfg1) ->
  prepareLetsEncrypt env cfg1 st1 = (st2, Ok cfg2) ->
  readUIPassword env cfg2 st2 = (st3, Ok cfg3) ->
  (exists raw, Config.UIPassword cfg3 = strings.TrimSpace raw) /\
  (String.length (Config.UIPassword cfg3) < 8 ->
     loadAndValidateConfig env st = (st3, Err CredentialTooWeak)) /\
  (String.length (Config.UIPassword cfg3) = 8 ->
     loadAndValidateConfig env st = validateSubservers env cfg3 st3 /\
     snd (loadAndValidateConfig env st) <> Err CredentialTooWeak) /\
  (8 <= characters (Config.UIPassword cfg3) ->
     loadAndValidateConfig env st = validateSubservers env cfg3 st3 /\
     snd (loadAndValidateConfig env st) <> Err CredentialTooWeak).
Proof.
  intros Hflags Hver Hload Hprep Hread.
  assert (Hrun : loadAndValidateConfig env st =
                 if (String.length (Config.UIPassword cfg3)
                     <? uiPasswordMinLength)%nat
                 then (st3, Err CredentialTooWeak)
                 else validateSubservers env cfg3 st3).
  { rewrite (loadAndValidateConfig_from_password _ _ _ _ _ _ _
               Hflags Hver Hload Hprep).
    now rewrite Hread. }
  assert (Hpass : 8 <= String.length (Config.UIPassword cfg3) ->
            loadAndValidateConfig env st = validateSubservers env cfg3 st3 /\
            snd (loadAndValidateConfig env st) <> Err CredentialTooWeak).
  { intros Hlen.
    assert (Hge : (String.length (Config.UIPassword cfg3)
                   <? uiPasswordMinLength)%nat = false)
      by (apply Nat.ltb_ge; exact Hlen).
    rewrite Hrun, Hge. split; [reflexivity |].
    apply validateSubservers_not_weak. }
  split; [eapply readUIPassword_trimmed; eassumption |].
  split; [| split].
  - intros Hlen. rewrite Hrun.
    apply Nat.ltb_lt in Hlen. unfold uiPasswordMinLength. now rewrite Hlen.
  - intros Hlen. apply Hpass. lia.
  - intros Hlen. apply Hpass.
    pose proof (characters_le_length (Config.UIPassword cfg3)). lia.
Qed.

(** ** The self-signed certificate of the remote mode *)

Lemma buildTLSConfigForHttp2_remote env config st :
  Config.LetsEncrypt config = false ->
  Config.LndMode config = ModeRemote ->
  let certPath := RemoteConfig.LitTLSCertPath (Config.Remote config) in
  let keyPath := RemoteConfig.LitTLSKeyPath (Config.Remote config) in
  buildTLSConfigForHttp2 env config st =
    if negb (FileExists certPath st) && negb (FileExists keyPath st) then
      let called :=
        {| files := files st;
           events := events st
             ++ [GenCertPairCalled defaultSelfSignedCertOrganization
                   certPath keyPath] |} in
      match certGenerate env defaultSelfSignedCertOrganization with
      | inr msg => (called, Err (CertGenerationFailed msg))
      | inl (certBytes, keyBytes) =>
          let st' := WriteFile keyPath keyBytes
                       (WriteFile certPath certBytes called) in
          (st', tlsConfigOfLoaded env (LoadCert env certPath keyPath st'))
      end
    else (st, tlsConfigOfLoaded env (LoadCert env certPath keyPath st)).
Proof.
  intros Hle Hmode certPath keyPath.
  unfold buildTLSConfigForHttp2. rewrite Hle.
  destruct (decide (Config.LndMode config = ModeRemote)); [| contradiction].
  fold certPath keyPath.
  unfold bind, loadTLSConfig, GenCertPair, tlsConfigOfLoaded, fail, ret.
  destruct (negb (FileExists certPath st) && negb (FileExists keyPath st)).
  - destruct (certGenerate env _) as [[certBytes keyBytes] | msg];
      [| reflexivity].
    cbv zeta. destruct (LoadCert env certPath keyPath _); [| reflexivity].
    destruct (TlsConfigWithHttp2Enabled env _); reflexivity.
  - destruct (LoadCert env certPath keyPath st); [| reflexivity].
    destruct (TlsConfigWithHttp2Enabled env _); reflexivity.
Qed.

Lemma FileExists_false name st :
  FileExists name st = false <-> files st !! name = None.
Proof.
  unfold FileExists. destruct (files st !! name); split; congruence.
Qed.

(** C5: in the remote mode without Let's Encrypt, the files on disk change
    only when neither the certificate nor the key was there, and then by the
    two fresh files; when either was there, nothing is written and the
    result is the pair on disk, loaded as it is; in no case does a file that
    was there change. *)
Theorem self_signed_never_overwrites env config st st' r :
  Config.LetsEncrypt config = false ->
  Config.LndMode config = ModeRemote ->
  buildTLSConfigForHttp2 env config st = (st', r) ->
  let certPath := RemoteConfig.LitTLSCertPath (Config.Remote config) in
  let keyPath := RemoteConfig.LitTLSKeyPath (Config.Remote config) in
  (files st' <> files st ->
     files st !! certPath = None /\ files st !! keyPath = None /\
     exists certBytes keyBytes,
       certGenerate env defaultSelfSignedCertOrganization
         = inl (certBytes, keyBytes) /\
       files st' = <[keyPath := Regular keyBytes]>
                     (<[certPath := Regular certBytes]> (files st))) /\
  (FileExists certPath st = true \/ FileExists keyPath st = true ->
     st' = st /\ r = tlsConfigOfLoaded env (LoadCert env certPath keyPath st)) /\
  (forall name node,
     files st !! name = Some node -> files st' !! name = Some node).
Proof.
  intros Hle Hmode Hrun certPath keyPath.
  rewrite (buildTLSConfigForHttp2_remote env config st Hle Hmode) in Hrun.
  fold certPath keyPath in Hrun.
  destruct (FileExists certPath st) eqn:Hcert;
    destruct (FileExists keyPath st) eqn:Hkey; cbn in Hrun;
    try (injection Hrun as <- <-;
         repeat split; try congruence; intros [? | ?]; reflexivity).
  apply FileExists_false in Hcert, Hkey.
  destruct (certGenerate env _) as [[certBytes keyBytes] | msg] eqn:Hgen.
  - injection Hrun as <- <-. split; [| split].
    + intros _. repeat split; try assumption.
      exists certBytes, keyBytes. split; reflexivity.
    + intros [? | ?]; discriminate.
    + intros name node Hname. cbn.
      rewrite !lookup_insert_ne; [assumption | congruence | congruence].
  - injection Hrun as <- <-. split; [| split].
    + cbn [files]. congruence.
    + intros [? | ?]; discriminate.
    + trivial.
Qed.

(** ** The deferred warning about the config file *)

Lemma noWarn_nil : noWarn [].
Proof. intros msg []. Qed.

Lemma noWarn_app (evs1 evs2 : list Event) : noWarn evs1 -> noWarn evs2 -> noWarn (evs1 ++ evs2).
Proof.
  intros H1 H2 msg Hin. apply in_app_or in Hin as [Hin | Hin];
    [eapply H1 | eapply H2]; eassumption.
Qed.

Lemma quiet_pure {A} (r : result A) : quiet (fun s => (s, r)).
Proof.
  intros st st' r' [= <- <-]. exists []. split;
    [now rewrite app_nil_r | apply noWarn_nil].
Qed.

Lemma quiet_bind {A B} (m : M A) (f : A -> M B) :
  quiet m -> (forall a, quiet (f a)) -> quiet (bind m f).
Proof.
  intros Hm Hf st st' r. unfold bind.
  destruct (m st) as [s1 [a | e | p]] eqn:Hrun;
    destruct (Hm _ _ _ Hrun) as (evs1 & Hevs1 & Hq1).
  - intros Hrun2. destruct (Hf a _ _ _ Hrun2) as (evs2 & Hevs2 & Hq2).
    exists (evs1 ++ evs2). split; [| now apply noWarn_app].
    now rewrite Hevs2, Hevs1, app_assoc.
  - intros [= <- <-]. eauto.
  - intros [= <- <-]. eauto.
Qed.

Lemma quiet_emit ev : (forall msg, ev <> LogWarn msg) -> quiet (emit ev).
Proof.
  intros Hev st st' r [= <- <-]. exists [ev]. split; [reflexivity |].
  intros msg [Heq | []]. now apply (Hev msg).
Qed.

Lemma quiet_makeDirectories env dir : quiet (makeDirectories env dir).
Proof.
  unfold makeDirectories. destruct (osMkdirAll env dir).
  - apply quiet_bind; [apply quiet_emit; discriminate |].
    intros _. apply (quiet_pure (Err _)).
  - apply quiet_emit; discriminate.
Qed.

Lemma quiet_validateRemoteModeConfig env cfg :
  quiet (validateRemoteModeConfig env cfg).
Proof.
  unfold validateRemoteModeConfig.
  destruct (lndclient.ChainParams _); [apply (quiet_pure (Err _)) |].
  destruct (decide (_ /\ _)); [apply (quiet_pure (Err _)) |].
  apply quiet_bind; [apply quiet_makeDirectories | intros _].
  apply quiet_bind; [apply quiet_makeDirectories | intros _].
  apply quiet_bind; [apply quiet_emit; discriminate | intros _].
  destruct (InitLogRotator env _ _ _); [apply (quiet_pure (Err _)) |].
  destruct (ParseAndSetDebugLevels env _); [apply (quiet_pure (Err _)) |].
  apply (quiet_pure (Ok _)).
Qed.

Lemma quiet_validateLndMode env cfg usage :
  quiet (validateLndMode env cfg usage).
Proof.
  unfold validateLndMode.
  destruct (decide (_ = ModeIntegrated)).
  - apply quiet_bind; [apply quiet_emit; discriminate | intros _].
    destruct (lndValidateConfig env _ _); [| apply (quiet_pure (Err _))].
    apply quiet_bind; [apply quiet_pure | intros network].
    apply (quiet_pure (Ok _)).
  - destruct (decide (_ = ModeRemote));
      [apply quiet_validateRemoteModeConfig | apply (quiet_pure (Err _))].
Qed.

(** The warning is the last event of a successful [loadConfigFile], and
    there is none in a failed one. *)
Lemma loadConfigFile_warning_last env pre usage st st' r :
  loadConfigFile env pre usage st = (st', r) ->
  exists evs : list Event,
    events st' = events st ++ evs /\
    (forall msg, In (LogWarn msg) evs ->
       (exists cfg, r = Ok cfg) /\
       snd (flagsIniParse env (resolveConfigFilePath env pre) pre)
         = Some (IniOther msg) /\
       exists before : list Event, evs = before ++ [LogWarn msg] /\ noWarn before) /\
    (forall cfg msg,
       r = Ok cfg ->
       snd (flagsIniParse env (resolveConfigFilePath env pre) pre)
         = Some (IniOther msg) ->
       exists before : list Event, evs = before ++ [LogWarn msg] /\ noWarn before).
Proof.
  unfold loadConfigFile.
  destruct (flagsIniParse env _ pre) as [cfg0 iniErr]. cbn [snd].
  destruct iniErr as [[msg0 | msg0] |].
  - intros [= <- <-]. exists []. split; [now rewrite app_nil_r |].
    split; [intros msg [] | discriminate].
  - destruct (flagsParse env cfg0) as [cfg1 [msg1 |]].
    + intros [= <- <-]. exists []. split; [now rewrite app_nil_r |].
      split; [intros msg [] | discriminate].
    + unfold bind at 1.
      destruct (makeDirectories env _ st) as [s1 r1] eqn:Hmk.
      destruct (quiet_makeDirectories _ _ _ _ _ Hmk) as (evs1 & Hevs1 & Hq1).
      destruct r1 as [[] | e | p].
      2,3: intros [= <- <-]; exists evs1; split; [assumption |];
           split; [intros msg Hin; now apply Hq1 in Hin | discriminate].
      unfold bind at 1.
      destruct (validateLndMode env cfg1 usage s1) as [s2 r2] eqn:Hmode.
      destruct (quiet_validateLndMode _ _ _ _ _ _ Hmode)
        as (evs2 & Hevs2 & Hq2).
      assert (Hq : noWarn (evs1 ++ evs2)) by now apply noWarn_app.
      destruct r2 as [cfg | e | p].
      2,3: intros [= <- <-]; exists (evs1 ++ evs2);
           split; [now rewrite Hevs2, Hevs1, app_assoc |];
           split; [intros msg Hin; now apply Hq in Hin | discriminate].
      cbn. intros [= <- <-]. exists ((evs1 ++ evs2) ++ [LogWarn msg0]).
      split; [cbn; now rewrite Hevs2, Hevs1, !app_assoc |].
      split.
      * intros msg Hin. apply in_app_or in Hin as [Hin | Hin];
          [now apply Hq in Hin |].
        destruct Hin as [[= <-] | []].
        split; [eauto |]. split; [reflexivity |]. eauto.
      * intros cfg' msg _ [= <-]. eauto.
  - destruct (flagsParse env cfg0) as [cfg1 [msg1 |]].
    + intros [= <- <-]. exists []. split; [now rewrite app_nil_r |].
      split; [intros msg [] | discriminate].
    + intros Hrun.
      assert (Hquiet : quiet (bind (makeDirectories env
                                      (CleanAndExpandPath env (Config.LitDir pre)))
                                (fun _ => bind (validateLndMode env cfg1 usage)
                                   (fun cfg => bind (ret tt) (fun _ => ret cfg))))).
      { apply quiet_bind; [apply quiet_makeDirectories | intros _].
        apply quiet_bind; [apply quiet_validateLndMode | intros cfg].
        apply quiet_bind; [apply (quiet_pure (Ok tt)) | intros _].
        apply (quiet_pure (Ok _)). }
      destruct (Hquiet _ _ _ Hrun) as (evs & Hevs & Hq).
      exists evs. split; [assumption |].
      split; [intros msg Hin; now apply Hq in Hin | discriminate].
Qed.

Lemma quiet_wrapErr {A} (w : error -> error) (m : M A) :
  quiet m -> quiet (wrapErr w m).
Proof.
  intros Hm st st' r. unfold wrapErr.
  destruct (m st) as [s1 r1] eqn:Hrun.
  destruct (Hm _ _ _ Hrun) as (evs & Hevs & Hq).
  destruct r1; intros [= <- <-]; eauto.
Qed.

Lemma quiet_readUIPassword env cfg : quiet (readUIPassword env cfg).
Proof.
  intros st st' r. unfold readUIPassword, ret, fail. intros Hrun.
  assert (st' = st) as -> by (repeat case_match; congruence).
  exists []. split; [now rewrite app_nil_r | apply noWarn_nil].
Qed.

Lemma quiet_prepareLetsEncrypt env cfg : quiet (prepareLetsEncrypt env cfg).
Proof.
  unfold prepareLetsEncrypt.
  apply quiet_bind; [apply quiet_emit; discriminate | intros _].
  apply quiet_bind; [| intros _; apply (quiet_pure (Ok _))].
  destruct (Config.LetsEncrypt _); [| apply (quiet_pure (Ok tt))].
  destruct (decide _);
    [apply (quiet_pure (Err _)) | apply quiet_makeDirectories].
Qed.

Lemma quiet_validateSubservers env cfg : quiet (validateSubservers env cfg).
Proof.
  unfold validateSubservers.
  destruct (_ <? _)%nat; [apply (quiet_pure (Err _)) |].
  apply quiet_bind; [apply quiet_emit; discriminate | intros _].
  destruct (loopdValidate env _) as [loopCfg [msg |]];
    [apply (quiet_pure (Err _)) |].
  apply quiet_bind; [apply quiet_emit; discriminate | intros _].
  destruct (poolValidate env _) as [poolCfg [msg |]];
    [apply (quiet_pure (Err _)) |].
  apply quiet_bind; [apply quiet_emit; discriminate | intros _].
  destruct (faradayValidateConfig env _) as [frdCfg [msg |]];
    [apply (quiet_pure (Err _)) |].
  destruct (faraday.ChainConn frdCfg); [| apply (quiet_pure (Ok _))].
  apply quiet_bind; [apply quiet_emit; discriminate | intros _].
  destruct (chainNewBitcoinClient env _);
    [apply (quiet_pure (Ok _)) | apply (quiet_pure (Err _))].
Qed.

(** C3, as amended: the warning about an unreadable config file is logged
    only when [loadConfigFile] has passed all its own checks (the syntax of
    the file, the flags, the lit directory, the lnd mode), as the last thing
    [loadConfigFile] does; whatever the checks that follow it do (the UI
    password and its length, the listener count, the sub-daemons) comes
    after the warning. *)
Theorem config_file_warning_last env st st' r :
  loadAndValidateConfig env st = (st', r) ->
  exists evs : list Event,
    events st' = events st ++ evs /\
    forall msg, In (LogWarn msg) evs ->
      exists pre st1 cfg1 (before after : list Event),
        flagsParse env (defaultConfig env) = (pre, None) /\
        snd (flagsIniParse env (resolveConfigFilePath env pre) pre)
          = Some (IniOther msg) /\
        loadConfigFile env pre (usageMessage env) st = (st1, Ok cfg1) /\
        events st1 = events st ++ before ++ [LogWarn msg] /\
        noWarn before /\
        evs = before ++ [LogWarn msg] ++ after /\
        noWarn after.
Proof.
  unfold loadAndValidateConfig.
  destruct (flagsParse env (defaultConfig env)) as [pre [msg0 |]].
  { intros [= <- <-]. exists []. split; [now rewrite app_nil_r |].
    intros msg []. }
  destruct (lnd.ShowVersion _).
  { intros [= <- <-]. exists [Stdout (appName env +:+ " version "
                                        +:+ Version env +:+ " commit="
                                        +:+ Commit env)].
    split; [reflexivity |]. intros msg [Heq | []]. discriminate. }
  unfold bind at 1.
  destruct (loadConfigFile env pre (usageMessage env) st) as [st1 r1] eqn:Hload.
  destruct (loadConfigFile_warning_last _ _ _ _ _ _ Hload)
    as (evs1 & Hevs1 & Honly & Hlast).
  destruct r1 as [cfg1 | e | p].
  2,3: intros [= <- <-]; exists evs1; split; [assumption |];
       intros msg Hin; destruct (Honly msg Hin) as [[cfg Hcfg] _];
       discriminate.
  intros Hrest.
  assert (Hquiet : quiet (fun s =>
            bind (prepareLetsEncrypt env cfg1)
              (fun cfg =>
                 bind (wrapErr CouldNotReadUIPassword (readUIPassword env cfg))
                   (fun cfg =>
                      if (String.length (Config.UIPassword cfg)
                          <? uiPasswordMinLength)%nat
                      then fail CredentialTooWeak
                      else validateSubservers env cfg)) s)).
  { apply quiet_bind; [apply quiet_prepareLetsEncrypt | intros cfg].
    apply quiet_bind;
      [apply quiet_wrapErr, quiet_readUIPassword | intros cfg'].
    destruct (_ <? _)%nat;
      [apply (quiet_pure (Err _)) | apply quiet_validateSubservers]. }
  destruct (Hquiet _ _ _ Hrest) as (after & Hafter & Hqafter).
  exists (evs1 ++ after). split; [now rewrite Hafter, Hevs1, app_assoc |].
  intros msg Hin. apply in_app_or in Hin as [Hin | Hin];
    [| now apply Hqafter in Hin].
  destruct (Honly msg Hin) as (_ & Hini & before & Hbefore & Hqbefore).
  exists pre, st1, cfg1, before, after.
  repeat split; try assumption.
  - now rewrite Hevs1, Hbefore.
  - now rewrite Hbefore, <- app_assoc.
Qed.

(** ** The remote mode: macaroon directory and macaroon path *)

Lemma network_plain (n : string) :
  In n ["testnet"; "regtest"; "simnet"] -> plain n.
Proof.
  intros [<- | [<- | [<- | []]]]; repeat split; discriminate.
Qed.

(** The network stays the last element of the macaroon directory that
    [validateRemoteModeConfig] builds, whatever the data directory. *)
Lemma Join_network_last (dataDir n : string) :
  plain n ->
  filepath.lastElement
    (filepath.Join [dataDir; defaultLndChainSubDir; defaultLndChain; n]) = n.
Proof.
  intros Hn.
  assert (Hclean : exists q,
            filepath.Join [dataDir; defaultLndChainSubDir; defaultLndChain; n]
              = q +:+ "/" +:+ n).
  { cbn [filepath.Join]. destruct (decide (dataDir = "")) as [-> | Hd].
    - cbn [decide]. destruct (decide (defaultLndChainSubDir = ""));
        [discriminate |].
      change (strings.Join [defaultLndChainSubDir; defaultLndChain; n] "/")
        with ("chain/bitcoin" +:+ "/" +:+ n).
      apply Clean_append_plain; [discriminate | assumption | discriminate].
    - change (strings.Join
                [dataDir; defaultLndChainSubDir; defaultLndChain; n] "/")
        with (dataDir +:+ "/chain/bitcoin" +:+ "/" +:+ n).
      rewrite <- append_assoc.
      apply Clean_append_plain; [| assumption |].
      + destruct dataDir; [contradiction | discriminate].
      + rewrite HasPrefix_append by assumption.
        change (dataDir +:+ "/chain/bitcoin")
          with (dataDir +:+ "/" +:+ "chain/bitcoin").
        rewrite elements_append, fold_left_app. discriminate. }
  destruct Hclean as [q ->]. apply lastElement_append, Hn.
Qed.

(** What a successful [validateRemoteModeConfig] has checked and set. *)
Lemma validateRemoteModeConfig_ok env cfg st st' cfg' :
  validateRemoteModeConfig env cfg st = (st', Ok cfg') ->
  let l := Config.RemoteLnd cfg in
  lndclient.ChainParams (RemoteDaemonConfig.Network l) = None /\
  ~ (RemoteDaemonConfig.MacaroonDir l <> defaultRemoteLndMacDir env
     /\ RemoteDaemonConfig.MacaroonPath l <> "") /\
  Config.network cfg' = RemoteDaemonConfig.Network l /\
  RemoteDaemonConfig.MacaroonDir (Config.RemoteLnd cfg') =
    if decide (RemoteDaemonConfig.Network l <> defaultNetwork
               /\ RemoteDaemonConfig.MacaroonDir l = defaultRemoteLndMacDir env)
    then filepath.Join [lnd.DataDir (Config.Lnd cfg); defaultLndChainSubDir;
                        defaultLndChain; RemoteDaemonConfig.Network l]
    else RemoteDaemonConfig.MacaroonDir l.
Proof.
  unfold validateRemoteModeConfig, Config.RemoteLnd.
  destruct (lndclient.ChainParams _); [discriminate |].
  destruct (decide (_ /\ _)) as [| Hconflict]; [discriminate |].
  unfold bind at 1.
  destruct (makeDirectories env _ st) as [s1 [[] | e | p]]; try discriminate.
  unfold bind at 1.
  destruct (makeDirectories env _ s1) as [s2 [[] | e | p]]; try discriminate.
  unfold bind at 1, emit.
  destruct (InitLogRotator env _ _ _); [discriminate |].
  destruct (ParseAndSetDebugLevels env _); [discriminate |].
  intros [= <- <-]. cbv zeta. repeat split; try assumption.
  destruct (decide (RemoteDaemonConfig.Network _ <> defaultNetwork /\ _));
    destruct (decide (CleanAndExpandPath _ _ <> _)); reflexivity.
Qed.

(** C4: in the remote mode, with the macaroon directory at its default and
    one of the four networks, a successful validation leaves a macaroon
    directory whose last element is the network when the network is not
    mainnet, and the directory as it was when the network is mainnet. *)
Theorem macaroon_dir_follows_network env cfg st st' cfg' :
  let l := Config.RemoteLnd cfg in
  In (RemoteDaemonConfig.Network l) ["mainnet"; "testnet"; "regtest"; "simnet"] ->
  RemoteDaemonConfig.MacaroonDir l = defaultRemoteLndMacDir env ->
  validateRemoteModeConfig env cfg st = (st', Ok cfg') ->
  (RemoteDaemonConfig.Network l <> "mainnet" ->
     RemoteDaemonConfig.MacaroonDir (Config.RemoteLnd cfg')
       = filepath.Join [lnd.DataDir (Config.Lnd cfg); defaultLndChainSubDir;
                        defaultLndChain; RemoteDaemonConfig.Network l] /\
     filepath.lastElement (RemoteDaemonConfig.MacaroonDir (Config.RemoteLnd cfg'))
       = RemoteDaemonConfig.Network l) /\
  (RemoteDaemonConfig.Network l = "mainnet" ->
     RemoteDaemonConfig.MacaroonDir (Config.RemoteLnd cfg')
       = RemoteDaemonConfig.MacaroonDir l).
Proof.
  intros l Hnet Hdir Hrun.
  destruct (validateRemoteModeConfig_ok _ _ _ _ _ Hrun) as (_ & _ & _ & Hmac).
  fold l in Hmac. split.
  - intros Hne. rewrite Hmac.
    destruct (decide (_ /\ _)) as [_ | Hno];
      [| contradiction Hno; split; assumption].
    split; [reflexivity |]. apply Join_network_last, network_plain.
    destruct Hnet as [Heq | Hnet]; [now contradiction Hne | assumption].
  - intros Heq. rewrite Hmac.
    destruct (decide (_ /\ _)) as [[Hne _] | _]; [| reflexivity].
    contradiction.
Qed.

(** [loadConfigFile] up to the lnd mode, when both parsers and the lit
    directory raise no error. *)
Lemma loadConfigFile_reaches_mode env pre usage st cfg0 iniErr cfg :
  flagsIniParse env (resolveConfigFilePath env pre) pre = (cfg0, iniErr) ->
  (forall msg, iniErr <> Some (IniError msg)) ->
  flagsParse env cfg0 = (cfg, None) ->
  osMkdirAll env (CleanAndExpandPath env (Config.LitDir pre)) = None ->
  loadConfigFile env pre usage st =
    bind (validateLndMode env cfg usage)
      (fun cfg' =>
         bind (match iniErr with
               | Some (IniOther msg) => emit (LogWarn msg)
               | _ => ret tt
               end)
           (fun _ => ret cfg'))
      {| files := files st;
         events := events st
                   ++ [MkdirAll (CleanAndExpandPath env (Config.LitDir pre))] |}.
Proof.
  intros Hini Hsyntax Hflags Hmk. unfold loadConfigFile. rewrite Hini.
  destruct iniErr as [[msg | msg] |];
    [now contradiction (Hsyntax msg) | |];
    rewrite Hflags; unfold bind at 1, makeDirectories; rewrite Hmk;
    reflexivity.
Qed.

(** C1, as amended: with a macaroon path and a macaroon directory that is
    not the default, the remote mode fails with [ConflictingMacaroonConfig]
    once the config file and the flags are parsed, the lit directory is
    there and the network is a known one; any other mode does not look at
    the two settings and never fails with that error. *)
Theorem conflicting_macaroon_remote_only env pre usage st cfg0 iniErr cfg :
  flagsIniParse env (resolveConfigFilePath env pre) pre = (cfg0, iniErr) ->
  (forall msg, iniErr <> Some (IniError msg)) ->
  flagsParse env cfg0 = (cfg, None) ->
  osMkdirAll env (CleanAndExpandPath env (Config.LitDir pre)) = None ->
  RemoteDaemonConfig.MacaroonPath (Config.RemoteLnd cfg) <> "" ->
  RemoteDaemonConfig.MacaroonDir (Config.RemoteLnd cfg)
    <> defaultRemoteLndMacDir env ->
  (Config.LndMode cfg = ModeRemote ->
   lndclient.ChainParams (RemoteDaemonConfig.Network (Config.RemoteLnd cfg))
     = None ->
   snd (loadConfigFile env pre usage st) = Err ConflictingMacaroonConfig) /\
  (Config.LndMode cfg <> ModeRemote ->
   snd (loadConfigFile env pre usage st) <> Err ConflictingMacaroonConfig).
Proof.
  intros Hini Hsyntax Hflags Hmk Hpath Hdir.
  rewrite (loadConfigFile_reaches_mode _ _ _ _ _ _ _ Hini Hsyntax Hflags Hmk).
  split.
  - intros Hmode Hchain. unfold bind at 1, validateLndMode. rewrite Hmode.
    destruct (decide (ModeRemote = ModeIntegrated)); [discriminate |].
    destruct (decide (ModeRemote = ModeRemote)); [| contradiction].
    unfold validateRemoteModeConfig. unfold Config.RemoteLnd in *.
    rewrite Hchain.
    destruct (decide (_ /\ _)) as [_ | Hno]; [reflexivity |].
    contradiction Hno. split; assumption.
  - intros Hmode.
    unfold validateLndMode, bind, lift, getNetwork, ret, fail, emit.
    destruct (decide (Config.LndMode cfg = ModeRemote)); [contradiction |].
    repeat case_match; simplify_eq; cbn; discriminate.
Qed.

(** ** The theorems at work, and where the specification errs *)

(** C6 on a host whose lnd listens on every IPv4 interface. *)
Lemma dial_address_loopback_rewrite_witness :
  let env := Scenario.world Scenario.integratedFlags Scenario.noFile ∅
               (net.TCPAddr true "0.0.0.0:10009") in
  let c := Config.with_Lnd
             (Scenario.lndValidated (net.TCPAddr true "0.0.0.0:10009")
                Scenario.lndDefaults)
             (Scenario.integratedFlags (defaultConfig env)) in
  Config.LndMode c <> ModeRemote /\
  lndDialAddr env c = Ok "127.0.0.1:10009".
Proof.
  intros env c.
  assert (Hmode : Config.LndMode c <> ModeRemote) by discriminate.
  split; [exact Hmode |].
  destruct (dial_address_loopback_rewrite env c
              (net.TCPAddr true "0.0.0.0:10009") [] Hmode eq_refl)
    as (Hrewrite & _ & _).
  apply Hrewrite. reflexivity.
Defined.

(** C9 on a host whose lnd listens on 10.0.0.0. *)
Lemma dial_address_substring_rewrite_witness :
  let env := Scenario.world Scenario.integratedFlags Scenario.noFile ∅
               (net.TCPAddr true "10.0.0.0:10009") in
  let c := Config.with_Lnd
             (Scenario.lndValidated (net.TCPAddr true "10.0.0.0:10009")
                Scenario.lndDefaults)
             (Scenario.integratedFlags (defaultConfig env)) in
  Config.LndMode c <> ModeRemote /\
  lndDialAddr env c = Ok "1127.0.0.1:10009".
Proof.
  intros env c.
  assert (Hmode : Config.LndMode c <> ModeRemote) by discriminate.
  split; [exact Hmode |].
  destruct (dial_address_substring_rewrite env c
              (net.TCPAddr true "10.0.0.0:10009") [] Hmode eq_refl eq_refl)
    as (_ & Hrewrite & _).
  exact Hrewrite.
Defined.

(** C10 on a fresh listener. *)
Lemma Close_before_bind_panics_witness :
  let env := Scenario.world (fun c => c) Scenario.noFile ∅ Scenario.loopback in
  let l := {| addr := net.TCPAddr true "127.0.0.1:8443"; lis := None |} in
  Close l = (l, Panic NilDereference) /\
  exists li, lis (fst (Accept env l)) = Some li /\ net.closed li = false.
Proof.
  intros env l.
  destruct (Close_before_bind_panics env l) as (Hpanic & _ & _ & Hbound).
  split; [apply Hpanic | apply Hbound]; reflexivity.
Defined.

(** C1 as stated fails: in the integrated mode a macaroon path together with
    a macaroon directory of one's own is accepted, and resolution ends
    well. *)
Lemma integrated_mode_accepts_both_macaroons :
  let env := Scenario.world Scenario.integratedFlags Scenario.noFile ∅
               Scenario.loopback in
  exists cfg,
    snd (loadAndValidateConfig env Scenario.emptyState) = Ok cfg /\
    Config.LndMode cfg = ModeIntegrated /\
    RemoteDaemonConfig.MacaroonPath (Config.RemoteLnd cfg) <> "" /\
    RemoteDaemonConfig.MacaroonDir (Config.RemoteLnd cfg)
      <> defaultRemoteLndMacDir env.
Proof.
  cbv zeta. eexists. split; [vm_compute; reflexivity |].
  split; [reflexivity |]. split; intros H; vm_compute in H; discriminate.
Qed.

(** C1, as amended, on the same two flags in the remote mode. *)
Lemma conflicting_macaroon_remote_only_witness :
  let env := Scenario.world Scenario.bothMacaroons Scenario.noFile ∅
               Scenario.loopback in
  Config.LndMode (Scenario.bothMacaroons (defaultConfig env)) = ModeRemote /\
  snd (loadConfigFile env (defaultConfig env) (usageMessage env)
         Scenario.emptyState)
    = Err ConflictingMacaroonConfig.
Proof.
  intros env. split; [reflexivity |].
  refine (proj1 (conflicting_macaroon_remote_only env (defaultConfig env)
                   (usageMessage env) Scenario.emptyState (defaultConfig env)
                   Scenario.noFile (Scenario.bothMacaroons (defaultConfig env))
                   eq_refl _ eq_refl eq_refl _ _) eq_refl eq_refl).
  - intros msg. discriminate.
  - discriminate.
  - intros H. vm_compute in H. discriminate.
Defined.

(** C2 as stated fails: a named password file that holds only white space
    is not passed over for the environment variable, although the variable
    is the first source with a value that is not blank; the password
    resolved is empty. *)
Lemma blank_password_file_shadows_env :
  let env := Scenario.world (fun c => c) Scenario.noFile
               {[ "LIT_PW" := "correct horse" ]} Scenario.loopback in
  let cfg := Scenario.fileAndEnvFlags (defaultConfig env) in
  firstNonBlank (sourceValues env Scenario.blankFileState cfg)
    = Some "correct horse" /\
  readUIPassword env cfg Scenario.blankFileState
    = (Scenario.blankFileState, Ok (Config.with_UIPassword "" cfg)).
Proof. cbv zeta. split; vm_compute; reflexivity. Qed.

(** C2, as amended, on the same configuration. *)
Lemma readUIPassword_priority_witness :
  let env := Scenario.world (fun c => c) Scenario.noFile
               {[ "LIT_PW" := "correct horse" ]} Scenario.loopback in
  let cfg := Scenario.fileAndEnvFlags (defaultConfig env) in
  strings.TrimSpace (Config.UIPassword cfg) = "" /\
  strings.TrimSpace (Config.UIPasswordFile cfg) <> "" /\
  readUIPassword env cfg Scenario.blankFileState
    = (Scenario.blankFileState, Ok (Config.with_UIPassword "" cfg)).
Proof.
  intros env cfg.
  assert (Hpw : strings.TrimSpace (Config.UIPassword cfg) = "")
    by (vm_compute; reflexivity).
  assert (Hfile : strings.TrimSpace (Config.UIPasswordFile cfg) <> "")
    by (intros H; vm_compute in H; discriminate).
  split; [exact Hpw |]. split; [exact Hfile |].
  destruct (readUIPassword_priority env cfg Scenario.blankFileState)
    as (_ & Hread & _).
  apply (Hread Hpw Hfile (String " " (String "010" ""))).
  vm_compute. reflexivity.
Defined.

(** C7 as stated fails: a variable that holds three blanks is not
    [EnvVarEmpty]; [readUIPassword] returns, with an empty password. *)
Lemma blank_env_var_is_not_EnvVarEmpty :
  let env := Scenario.world (fun c => c) Scenario.noFile
               {[ "LIT_PW" := "   " ]} Scenario.loopback in
  let cfg := Config.with_UIPasswordEnv "LIT_PW" (defaultConfig env) in
  strings.TrimSpace (Config.UIPassword cfg) = "" /\
  strings.TrimSpace (Config.UIPasswordFile cfg) = "" /\
  strings.TrimSpace (Getenv env "LIT_PW") = "" /\
  readUIPassword env cfg Scenario.emptyState
    = (Scenario.emptyState, Ok (Config.with_UIPassword "" cfg)).
Proof. cbv zeta. repeat split; vm_compute; reflexivity. Qed.

(** C7, as amended, with the variable unset, and on a whole run with the
    variable holding three blanks. *)
Lemma readUIPassword_env_empty_witness :
  let unset := Scenario.world (fun c => c) Scenario.noFile ∅
                 Scenario.loopback in
  let cfg := Config.with_UIPasswordEnv "LIT_PW" (defaultConfig unset) in
  let blank := Scenario.world (Config.with_UIPasswordEnv "LIT_PW")
                 Scenario.noFile {[ "LIT_PW" := "   " ]} Scenario.loopback in
  strings.TrimSpace (Config.UIPasswordEnv cfg) <> "" /\
  readUIPassword unset cfg Scenario.emptyState
    = (Scenario.emptyState, Err (EnvVarEmpty "LIT_PW")) /\
  fst (flagsParse blank (defaultConfig blank))
    = Config.with_UIPasswordEnv "LIT_PW" (defaultConfig blank) /\
  snd (loadAndValidateConfig blank Scenario.emptyState)
    = Err CredentialTooWeak.
Proof.
  intros unset cfg blank.
  assert (Hvar : strings.TrimSpace (Config.UIPasswordEnv cfg) <> "")
    by (intros H; vm_compute in H; discriminate).
  split; [exact Hvar |]. split; [| split; [reflexivity |]].
  - refine (proj1 (readUIPassword_env_empty unset cfg Scenario.emptyState
                     _ _ Hvar) _).
    + vm_compute. reflexivity.
    + vm_compute. reflexivity.
    + left. vm_compute. reflexivity.
  - set (pre := Config.with_UIPasswordEnv "LIT_PW" (defaultConfig blank)).
    set (run1 := loadConfigFile blank pre (usageMessage blank)
                   Scenario.emptyState).
    set (cfg1 := match snd run1 with Ok c => c | _ => pre end).
    set (run2 := prepareLetsEncrypt blank cfg1 (fst run1)).
    set (cfg2 := match snd run2 with Ok c => c | _ => pre end).
    assert (Hpw : strings.TrimSpace (Config.UIPassword cfg2) = "")
      by (vm_compute; reflexivity).
    assert (Hfile : strings.TrimSpace (Config.UIPasswordFile cfg2) = "")
      by (vm_compute; reflexivity).
    assert (Hname : strings.TrimSpace (Config.UIPasswordEnv cfg2) <> "")
      by (intros H; vm_compute in H; discriminate).
    destruct (readUIPassword_env_empty blank cfg2 (fst run2) Hpw Hfile Hname)
      as [_ Hblank].
    destruct (Hblank "   ") as [_ Hrun].
    + vm_compute. reflexivity.
    + discriminate.
    + vm_compute. reflexivity.
    + rewrite (Hrun Scenario.emptyState pre (fst run1) cfg1);
        [reflexivity | reflexivity | reflexivity
        | vm_compute; reflexivity | vm_compute; reflexivity].
Defined.

(** C3 as stated fails: with no config file and no UI password, the warning
    is in the log and the fatal error about the password comes after it. *)
Lemma warning_precedes_password_error :
  let env := Scenario.world (fun c => c) Scenario.noFile ∅ Scenario.loopback in
  In (LogWarn "open /home/lit/.lit/lit.conf: no such file or directory")
     (events (fst (loadAndValidateConfig env Scenario.emptyState))) /\
  snd (loadAndValidateConfig env Scenario.emptyState)
    = Err (CouldNotReadUIPassword NoCredentialConfigured).
Proof.
  cbv zeta. split; [| vm_compute; reflexivity].
  vm_compute. do 4 right. left. reflexivity.
Qed.

(** C3, as amended, on the same run. *)
Lemma config_file_warning_last_witness :
  let env := Scenario.world (fun c => c) Scenario.noFile ∅ Scenario.loopback in
  exists st1 cfg1 (before : list Event),
    loadConfigFile env (defaultConfig env) (usageMessage env)
      Scenario.emptyState = (st1, Ok cfg1) /\
    events st1
      = before
        ++ [LogWarn "open /home/lit/.lit/lit.conf: no such file or directory"]
    /\ noWarn before.
Proof.
  intros env.
  destruct (loadAndValidateConfig env Scenario.emptyState) as [st' r] eqn:Hrun.
  destruct (config_file_warning_last env _ _ _ Hrun) as (evs & Hevs & Honly).
  assert (Hst : st' = fst (loadAndValidateConfig env Scenario.emptyState))
    by now rewrite Hrun.
  vm_compute in Hst. subst st'. cbn in Hevs. subst evs.
  destruct (Honly "open /home/lit/.lit/lit.conf: no such file or directory")
    as (pre & st1 & cfg1 & before & after & Hpre & _ & Hload & Hst1 & Hq & _).
  { do 4 right. left. reflexivity. }
  injection Hpre as <-.
  exists st1, cfg1, before. split; [exact Hload |]. split; [| exact Hq].
  rewrite Hst1. reflexivity.
Defined.

(** C8 as stated fails: a password of seven characters, each of two bytes,
    is fourteen bytes long and passes the length check; the run resolves
    with it. *)
Lemma seven_characters_pass_length_check :
  let env := Scenario.world (Config.with_UIPassword Scenario.sevenAccents)
               Scenario.noFile ∅ Scenario.loopback in
  characters Scenario.sevenAccents = 7 /\
  String.length Scenario.sevenAccents = 14 /\
  exists cfg,
    snd (loadAndValidateConfig env Scenario.emptyState) = Ok cfg /\
    Config.UIPassword cfg = Scenario.sevenAccents.
Proof.
  cbv zeta. split; [reflexivity |]. split; [reflexivity |].
  eexists. split; vm_compute; reflexivity.
Qed.

(** C8, as amended, on a password of eight bytes between blanks. *)
Lemma password_length_check_witness :
  let env := Scenario.world (Config.with_UIPassword " hunter22 ")
               Scenario.noFile ∅ Scenario.loopback in
  String.length (strings.TrimSpace " hunter22 ") = 8 /\
  snd (loadAndValidateConfig env Scenario.emptyState) <> Err CredentialTooWeak.
Proof.
  intros env. split; [vm_compute; reflexivity |].
  edestruct (password_length_check env Scenario.emptyState)
    as (_ & _ & Hpass & _).
  - reflexivity.
  - reflexivity.
  - vm_compute. reflexivity.
  - vm_compute. reflexivity.
  - vm_compute. reflexivity.
  - apply Hpass. vm_compute. reflexivity.
Defined.

(** C4 on [--remote.lnd.network=testnet]. *)
Lemma macaroon_dir_follows_network_witness :
  let env := Scenario.world Scenario.testnetFlags Scenario.noFile ∅
               Scenario.loopback in
  let cfg := Scenario.testnetFlags (defaultConfig env) in
  exists st' cfg',
    validateRemoteModeConfig env cfg Scenario.emptyState = (st', Ok cfg') /\
    RemoteDaemonConfig.MacaroonDir (Config.RemoteLnd cfg')
      = "/home/lit/.lnd/data/chain/bitcoin/testnet" /\
    filepath.lastElement
      (RemoteDaemonConfig.MacaroonDir (Config.RemoteLnd cfg')) = "testnet".
Proof.
  intros env cfg.
  destruct (validateRemoteModeConfig env cfg Scenario.emptyState)
    as [st' r] eqn:Hrun.
  assert (Hr : r = snd (validateRemoteModeConfig env cfg Scenario.emptyState))
    by now rewrite Hrun.
  vm_compute in Hr. destruct r as [cfg' | e | p]; try discriminate Hr.
  exists st', cfg'. split; [reflexivity |].
  destruct (macaroon_dir_follows_network env cfg Scenario.emptyState st' cfg')
    as [Hother _];
    [right; left; reflexivity | vm_compute; reflexivity | exact Hrun |].
  destruct Hother as [Hdir Hlast]; [discriminate |].
  split; [rewrite Hdir; vm_compute; reflexivity | exact Hlast].
Defined.

(** C5 with an operator's certificate and key on disk. *)
Lemma self_signed_never_overwrites_witness :
  let env := Scenario.world (fun c => c) Scenario.noFile ∅ Scenario.loopback in
  let config := defaultConfig env in
  Config.LetsEncrypt config = false /\
  Config.LndMode config = ModeRemote /\
  fst (buildTLSConfigForHttp2 env config Scenario.certState)
    = Scenario.certState.
Proof.
  intros env config.
  assert (Hle : Config.LetsEncrypt config = false) by reflexivity.
  assert (Hmode : Config.LndMode config = ModeRemote) by reflexivity.
  split; [exact Hle |]. split; [exact Hmode |].
  destruct (buildTLSConfigForHttp2 env config Scenario.certState)
    as [st' r] eqn:Hrun.
  destruct (self_signed_never_overwrites env config _ _ _ Hle Hmode Hrun)
    as (_ & Hkept & _).
  destruct Hkept as [Hsame _]; [left; vm_compute; reflexivity |].
  exact Hsame.
Defined.


(** * More of [config.go] *)

(** ** More facts about paths and white space *)

Lemma plain_not_rooted (n : string) :
  plain n -> strings.HasPrefix n "/" = false.
Proof.
  intros (Hel & Hne & _). destruct n as [| c n]; [reflexivity |].
  cbn [strings.HasPrefix].
  destruct (Ascii.eqb_spec "/"%char c) as [<- | Hc]; [| reflexivity].
  cbn in Hel. discriminate Hel.
Qed.

(** A plain element after a separator is the last element of the cleaned
    path, whatever comes before. *)
Lemma Clean_last_plain (p n : string) :
  plain n -> filepath.lastElement (filepath.Clean (p +:+ "/" +:+ n)) = n.
Proof.
  intros Hn. pose proof Hn as (Hel & Hne & Hdot & Hdots).
  unfold filepath.Clean.
  destruct (decide (p +:+ "/" +:+ n = "")) as [Hempty | _].
  { destruct p; discriminate. }
  rewrite elements_append, fold_left_app, Hel. cbn [fold_left].
  rewrite cleanStep_plain by assumption.
  set (kept := fold_left _ (filepath.elements p) []).
  destruct (strings.HasPrefix (p +:+ "/" +:+ n) "/"); destruct kept as [| k kept].
  - change (rev [n]) with [n]. cbn [strings.Join].
    exact (lastElement_append "" n Hel).
  - cbn [rev]. rewrite Join_snoc
      by (intros Heq; apply app_eq_nil in Heq as [_ Heq]; discriminate).
    rewrite <- append_assoc. now apply lastElement_append.
  - change (rev [n]) with [n]. cbn [strings.Join].
    unfold filepath.lastElement. now rewrite Hel.
  - cbn [rev]. rewrite Join_snoc
      by (intros Heq; apply app_eq_nil in Heq as [_ Heq]; discriminate).
    now apply lastElement_append.
Qed.

(** The last element of a directory joined with a plain file name. *)
Lemma Join_file_last (dir n : string) :
  plain n -> filepath.lastElement (filepath.Join [dir; n]) = n.
Proof.
  intros Hn. pose proof Hn as (Hel & Hne & Hdot & Hdots).
  cbn [filepath.Join]. destruct (decide (dir = "")) as [-> | Hdir].
  - destruct (decide (n = "")); [contradiction |].
    cbn [strings.Join]. unfold filepath.Clean.
    destruct (decide (n = "")); [contradiction |].
    rewrite plain_not_rooted, Hel by assumption. cbn [fold_left].
    rewrite cleanStep_plain by assumption. cbn.
    unfold filepath.lastElement. now rewrite Hel.
  - change (strings.Join [dir; n] "/") with (dir +:+ "/" +:+ n).
    now apply Clean_last_plain.
Qed.

Lemma HasPrefix_self (sub s : string) : strings.HasPrefix (sub +:+ s) sub = true.
Proof.
  induction sub as [| c sub IH]; [reflexivity |].
  change (String c sub +:+ s) with (String c (sub +:+ s)).
  cbn [strings.HasPrefix]. now rewrite Ascii.eqb_refl, IH.
Qed.

Lemma Contains_self (sub s : string) : strings.Contains (sub +:+ s) sub = true.
Proof.
  destruct (sub +:+ s) eqn:Heq; cbn [strings.Contains]; rewrite <- Heq;
    now rewrite HasPrefix_self.
Qed.

Lemma drop_self (sub s : string) : strings.drop (String.length sub) (sub +:+ s) = s.
Proof.
  induction sub as [| c sub IH]; [now destruct s |].
  change (String c sub +:+ s) with (String c (sub +:+ s)). exact IH.
Qed.

Lemma Replace1_self (sub new s : string) :
  strings.Replace1 (sub +:+ s) sub new = new +:+ s.
Proof.
  destruct (sub +:+ s) eqn:Heq; cbn [strings.Replace1]; rewrite <- Heq;
    now rewrite HasPrefix_self, drop_self.
Qed.

(** ** The connection parameters *)

(** X1: in the remote mode [lndConnectParams] hands on the RPC server as it
    is configured (no address is rewritten, a wild card neither), the
    cleaned TLS certificate path, and as macaroon the cleaned macaroon path
    when one is set, else the file [admin.macaroon] of the cleaned macaroon
    directory. *)
Theorem remote_connect_params env c :
  Config.LndMode c = ModeRemote ->
  let l := Config.RemoteLnd c in
  exists macPath,
    lndConnectParams env c
      = Ok (RemoteDaemonConfig.RPCServer l, Config.network c,
            CleanAndExpandPath env (RemoteDaemonConfig.TLSCertPath l),
            macPath) /\
    (RemoteDaemonConfig.MacaroonPath l <> "" ->
       macPath = CleanAndExpandPath env (RemoteDaemonConfig.MacaroonPath l)) /\
    (RemoteDaemonConfig.MacaroonPath l = "" ->
       macPath = filepath.Join
                   [CleanAndExpandPath env (RemoteDaemonConfig.MacaroonDir l);
                    defaultLndMacaroon] /\
       filepath.lastElement macPath = defaultLndMacaroon).
Proof.
  intros Hmode l. unfold lndConnectParams.
  destruct (decide (Config.LndMode c = ModeRemote)); [| contradiction].
  fold l. eexists. split; [reflexivity |].
  destruct (decide (RemoteDaemonConfig.MacaroonPath l <> "")) as [Hset | Hunset].
  - split; [reflexivity | contradiction].
  - split; [contradiction |]. intros _. split; [reflexivity |].
    apply Join_file_last. repeat split; discriminate.
Qed.

(** X2: [lndConnectParams] returns no error; it panics when, and only when,
    the mode is not the remote one and lnd has no RPC listener. *)
Theorem connect_params_panic env c :
  (forall e, lndConnectParams env c <> Err e) /\
  (forall p,
     lndConnectParams env c = Panic p <->
     p = IndexOutOfRange /\ Config.LndMode c <> ModeRemote /\
     lnd.RPCListeners (Config.Lnd c) = []).
Proof.
  unfold lndConnectParams.
  destruct (decide (Config.LndMode c = ModeRemote)) as [Hmode | Hmode].
  - split; [discriminate |]. intros p. split; [discriminate |].
    intros (_ & Hno & _). contradiction.
  - destruct (lnd.RPCListeners (Config.Lnd c)) as [| a rest].
    + split; [discriminate |]. intros p. split.
      * intros [= <-]. repeat split. assumption.
      * intros (-> & _). reflexivity.
    + split; [discriminate |]. intros p. split; [discriminate |].
      intros (_ & _ & Habs). discriminate.
Qed.

(** X3: in the integrated mode a listen address that starts with the IPv4
    wild card is dialled at [127.0.0.1] with whatever follows (the port)
    kept, and one that starts with the IPv6 wild card at [[::1]] likewise,
    provided what follows does not hold [0.0.0.0]. *)
Theorem wildcard_rewrite_any_port env c a rest suffix :
  Config.LndMode c <> ModeRemote ->
  lnd.RPCListeners (Config.Lnd c) = a :: rest ->
  (net.Addr_String a = "0.0.0.0" +:+ suffix ->
     lndDialAddr env c = Ok ("127.0.0.1" +:+ suffix)) /\
  (net.Addr_String a = "[::]" +:+ suffix ->
     strings.Contains suffix "0.0.0.0" = false ->
     lndDialAddr env c = Ok ("[::1]" +:+ suffix)).
Proof.
  intros Hmode Hlis.
  rewrite (lndDialAddr_integrated env c a rest Hmode Hlis).
  unfold rewriteDialAddr. split.
  - intros ->. now rewrite Contains_self, Replace1_self.
  - intros -> Hport.
    change (strings.Contains ("[::]" +:+ suffix) "0.0.0.0")
      with (strings.Contains suffix "0.0.0.0").
    now rewrite Hport, Contains_self, Replace1_self.
Qed.

(** ** The network of the integrated mode *)

Lemma getNetwork_known chain n :
  getNetwork chain = Ok n -> lndclient.ChainParams n = None.
Proof.
  unfold getNetwork. repeat case_match; intros [= <-]; reflexivity.
Qed.

(** X4: [getNetwork] takes the first flag set in the order mainnet,
    testnet, regtest, simnet: a flag decides only when all the flags before
    it are off; it fails exactly when none is set, and a network it returns
    is one lndclient knows. *)
Theorem getNetwork_first_flag chain :
  (lncfg.MainNet chain = true -> getNetwork chain = Ok "mainnet") /\
  (lncfg.MainNet chain = false -> lncfg.TestNet3 chain = true ->
     getNetwork chain = Ok "testnet") /\
  (lncfg.MainNet chain = false -> lncfg.TestNet3 chain = false ->
   lncfg.RegTest chain = true ->
     getNetwork chain = Ok "regtest") /\
  (lncfg.MainNet chain = false -> lncfg.TestNet3 chain = false ->
   lncfg.RegTest chain = false -> lncfg.SimNet chain = true ->
     getNetwork chain = Ok "simnet") /\
  (getNetwork chain = Err NoNetworkSelected <->
     lncfg.MainNet chain = false /\ lncfg.TestNet3 chain = false /\
     lncfg.RegTest chain = false /\ lncfg.SimNet chain = false) /\
  (forall n, getNetwork chain = Ok n -> lndclient.ChainParams n = None) /\
  (forall r, getNetwork chain = r ->
     r = Err NoNetworkSelected \/ exists n, r = Ok n).
Proof.
  split; [| split; [| split; [| split; [| split; [| split]]]]].
  - unfold getNetwork. now intros ->.
  - unfold getNetwork. now intros -> ->.
  - unfold getNetwork. now intros -> -> ->.
  - unfold getNetwork. now intros -> -> -> ->.
  - unfold getNetwork.
    destruct (lncfg.MainNet chain), (lncfg.TestNet3 chain),
      (lncfg.RegTest chain), (lncfg.SimNet chain);
      split; try discriminate; try (intros (? & ? & ? & ?); discriminate);
      repeat split.
  - apply getNetwork_known.
  - intros r <-. unfold getNetwork. repeat case_match; eauto.
Qed.

(** ** Directories *)

Lemma makeDirectories_ok env dir st st' :
  makeDirectories env dir st = (st', Ok tt) ->
  osMkdirAll env dir = None /\
  st' = {| files := files st; events := events st ++ [MkdirAll dir] |}.
Proof.
  unfold makeDirectories. destruct (osMkdirAll env dir).
  - unfold bind, emit, fail. discriminate.
  - intros [= <-]. split; reflexivity.
Qed.

(** X5: [makeDirectories] fails exactly when [os.MkdirAll] does; its error
    names the directory asked for and is also written to the error stream;
    the cause is the hint about the symlink exactly for a path error that
    says the path exists on a path that is a symlink; the files on disk are
    never touched. *)
Theorem makeDirectories_outcome env dir st st' r :
  makeDirectories env dir st = (st', r) ->
  files st' = files st /\
  (osMkdirAll env dir = None ->
     r = Ok tt /\ events st' = events st ++ [MkdirAll dir]) /\
  (forall err, osMkdirAll env dir = Some err ->
     exists cause,
       r = Err (DirectoryCreateFailed dir cause) /\
       events st' = events st
         ++ [Stderr ("failed to create directory " +:+ dir +:+ ": " +:+ cause)] /\
       (forall path msg link,
          err = PathError true path msg -> osReadlink env path = Some link ->
          cause = "is symlink " +:+ path +:+ " -> " +:+ link +:+ " mounted?") /\
       (forall path msg,
          err = PathError true path msg -> osReadlink env path = None ->
          cause = msg) /\
       (forall path msg, err = PathError false path msg -> cause = msg) /\
       (forall msg, err = MkdirOther msg -> cause = msg)).
Proof.
  unfold makeDirectories, bind, emit, fail.
  destruct (osMkdirAll env dir) as [err |]; intros [= <- <-].
  - split; [reflexivity |]. split; [discriminate |].
    intros err' [= <-]. eexists. split; [reflexivity |].
    split; [reflexivity |].
    repeat split.
    + intros path msg link -> ->. reflexivity.
    + intros path msg -> ->. reflexivity.
    + intros path msg ->. reflexivity.
    + intros msg ->. reflexivity.
  - split; [reflexivity |]. split; [| discriminate]. intros _.
    split; reflexivity.
Qed.

(** ** The on-demand listener, call after call *)

Lemma afterCall_addr env l c : addr (afterCall env l c) = addr l.
Proof.
  destruct c; unfold afterCall, Accept, Close.
  - destruct (lis l); [reflexivity |].
    destruct (netListen env _ _); reflexivity.
  - destruct (lis l) as [li |]; [| reflexivity].
    destruct (Listener_Close li). reflexivity.
Qed.

Lemma afterCall_bound env l c li :
  lis l = Some li ->
  exists li', lis (afterCall env l c) = Some li' /\
              net.boundNetwork li' = net.boundNetwork li /\
              net.boundAddress li' = net.boundAddress li /\
              (net.closed li' = true <->
                 net.closed li = true \/ c = CallClose).
Proof.
  intros Hli. destruct c; unfold afterCall, Accept, Close; rewrite Hli.
  - exists li. cbn [fst]. repeat split; try tauto; try assumption.
    intros [H | H]; [exact H | discriminate].
  - unfold Listener_Close. destruct (net.closed li) eqn:Hclosed; cbn [fst].
    + exists li. repeat split; tauto.
    + eexists. cbn. repeat split; eauto.
Qed.

Lemma afterCall_boundAsRequested env l c :
  boundAsRequested l -> boundAsRequested (afterCall env l c).
Proof.
  unfold boundAsRequested. intros Hinv.
  destruct (lis l) as [li |] eqn:Hli.
  - destruct (afterCall_bound env l c li Hli) as (li' & -> & Hn & Ha & _).
    rewrite afterCall_addr, Hn, Ha. exact Hinv.
  - destruct c; unfold afterCall, Accept, Close; rewrite Hli; cbn;
      [| now rewrite Hli].
    destruct (netListen env _ _); cbn; [trivial | split; reflexivity].
Qed.

(** X6: whatever [Accept] and [Close] calls are made on it, an on-demand
    listener reports the address it was made for.  [Accept] leaves a
    listener that has a socket exactly as it is: it binds no second one,
    not even when the socket is closed.  So a socket, once there, stays the
    same socket through any calls, network and address as they are, and it
    is closed at the end exactly when it was closed at the start or one of
    the calls was a [Close].  The socket of a listener that started without
    one is bound to the requested address, on [tcp4] or [tcp6] for a TCP
    address. *)
Theorem listener_calls_invariant env cs l :
  Addr (afterCalls env cs l) = Addr l /\
  (forall li, lis l = Some li -> fst (Accept env l) = l) /\
  (forall li, lis l = Some li ->
     exists li', lis (afterCalls env cs l) = Some li' /\
                 net.boundNetwork li' = net.boundNetwork li /\
                 net.boundAddress li' = net.boundAddress li /\
                 (net.closed li' = true <->
                    net.closed li = true \/ In CallClose cs)) /\
  (lis l = None ->
   forall li, lis (afterCalls env cs l) = Some li ->
     net.boundAddress li = net.Addr_String (addr l) /\
     net.boundNetwork li = parseNetwork (addr l) /\
     (forall isV4 text, addr l = net.TCPAddr isV4 text ->
        net.boundNetwork li = if isV4 then "tcp4" else "tcp6")).
Proof.
  unfold afterCalls, Addr. split; [| split; [| split]].
  - revert l. induction cs as [| c cs IH]; intros l; [reflexivity |].
    cbn [fold_left]. now rewrite IH, afterCall_addr.
  - intros li Hli. unfold Accept. now rewrite Hli.
  - revert l. induction cs as [| c cs IH]; intros l li Hli.
    + exists li. cbn [fold_left In]. repeat split; tauto.
    + cbn [fold_left In].
      destruct (afterCall_bound env l c li Hli)
        as (li1 & Hli1 & Hn1 & Ha1 & Hc1).
      destruct (IH _ _ Hli1) as (li' & Hli' & Hn & Ha & Hc).
      exists li'. split; [exact Hli' |].
      split; [congruence |]. split; [congruence |].
      rewrite Hc, Hc1. split.
      * intros [[H | H] | H]; [left; exact H | right; left; now symmetry
                              | right; right; exact H].
      * intros [H | [H | H]]; [left; left; exact H | left; right; now symmetry
                              | right; exact H].
  - intros Hnone li Hli.
    assert (Hinv : boundAsRequested (fold_left (afterCall env) cs l) /\
                   addr (fold_left (afterCall env) cs l) = addr l).
    { assert (H0 : boundAsRequested l)
        by (unfold boundAsRequested; now rewrite Hnone).
      clear Hnone Hli. revert l H0.
      induction cs as [| c cs IH]; intros l H0; [split; [exact H0 | reflexivity] |].
      cbn [fold_left].
      destruct (IH _ (afterCall_boundAsRequested env l c H0)) as [Hb Ha].
      split; [exact Hb | now rewrite Ha, afterCall_addr]. }
    destruct Hinv as [Hb Ha]. unfold boundAsRequested in Hb.
    rewrite Hli, Ha in Hb. destruct Hb as [Hn Hs].
    repeat split; try assumption.
    intros isV4 text Haddr. rewrite Hn, Haddr. now destruct isV4.
Qed.

(** ** The remote mode, in full *)

(** What a successful [validateRemoteModeConfig] returns and does. *)
Lemma validateRemoteModeConfig_success env cfg st st' cfg' :
  validateRemoteModeConfig env cfg st = (st', Ok cfg') ->
  let r := Config.Remote cfg in
  let l := RemoteConfig.Lnd r in
  let litDir := CleanAndExpandPath env (Config.LitDir cfg) in
  exists r' w,
    cfg' = Config.with_Lnd (lnd.with_LogWriter w (Config.Lnd cfg))
             (Config.with_Remote r'
                (Config.with_network (RemoteDaemonConfig.Network l) cfg)) /\
    RemoteConfig.Lnd r' =
      (if decide (RemoteDaemonConfig.Network l <> defaultNetwork
                  /\ RemoteDaemonConfig.MacaroonDir l = defaultRemoteLndMacDir env)
       then RemoteDaemonConfig.with_MacaroonDir
              (filepath.Join [lnd.DataDir (Config.Lnd cfg);
                              defaultLndChainSubDir; defaultLndChain;
                              RemoteDaemonConfig.Network l]) l
       else l) /\
    RemoteConfig.LitTLSCertPath r' =
      CleanAndExpandPath env
        (if decide (litDir <> defaultLitDir env)
         then filepath.Join [litDir; defaultTLSCertFilename]
         else RemoteConfig.LitTLSCertPath r) /\
    RemoteConfig.LitTLSKeyPath r' =
      CleanAndExpandPath env
        (if decide (litDir <> defaultLitDir env)
         then filepath.Join [litDir; defaultTLSKeyFilename]
         else RemoteConfig.LitTLSKeyPath r) /\
    RemoteConfig.LitLogDir r' =
      CleanAndExpandPath env
        (if decide (litDir <> defaultLitDir env)
         then filepath.Join [litDir; defaultLogDirname]
         else RemoteConfig.LitLogDir r) /\
    build.logFile w =
      Some (filepath.Join [RemoteConfig.LitLogDir r';
                           RemoteDaemonConfig.Network l; defaultLogFilename]) /\
    st' = {| files := files st;
             events := events st
               ++ [MkdirAll (filepath.Dir (RemoteConfig.LitTLSCertPath r'));
                   MkdirAll (filepath.Dir (RemoteConfig.LitTLSKeyPath r'));
                   InitLogRotatorCalled
                     (filepath.Join [RemoteConfig.LitLogDir r';
                                     RemoteDaemonConfig.Network l;
                                     defaultLogFilename])
                     (RemoteConfig.LitMaxLogFileSize r)
                     (RemoteConfig.LitMaxLogFiles r)] |}.
Proof.
  unfold validateRemoteModeConfig.
  destruct (lndclient.ChainParams _); [discriminate |].
  destruct (decide (_ /\ _)) as [| Hconflict]; [discriminate |].
  unfold bind at 1.
  destruct (makeDirectories env _ st) as [s1 [[] | e | p]] eqn:Hmk1;
    try discriminate.
  apply makeDirectories_ok in Hmk1 as [_ ->].
  unfold bind at 1.
  match goal with
  | |- context [makeDirectories env ?d ?s] =>
      destruct (makeDirectories env d s) as [s2 [[] | e | p]] eqn:Hmk2
  end; try discriminate.
  apply makeDirectories_ok in Hmk2 as [_ ->].
  unfold bind at 1, emit.
  destruct (InitLogRotator env _ _ _); [discriminate |].
  destruct (ParseAndSetDebugLevels env _); [discriminate |].
  intros [= <- <-]. cbv zeta. do 2 eexists.
  split; [reflexivity |].
  destruct (decide (RemoteDaemonConfig.Network _ <> defaultNetwork /\ _));
    destruct (decide (CleanAndExpandPath _ _ <> _));
    cbn [files events]; rewrite <- !app_assoc; repeat split.
Qed.


(** X8: a successful [validateRemoteModeConfig] reaches the file system
    through three calls, in this order: it creates the directory of the TLS
    certificate, then that of the TLS key, then it starts the log rotator,
    with the configured size and number of files, on the log file; the log
    directory it does not create itself, that is left to the rotator.  The
    log file is [litd.log] in a directory named after the network, under the
    log directory, and is the file of the log writer it returns. *)
Theorem remote_validation_effects env cfg st st' cfg' :
  validateRemoteModeConfig env cfg st = (st', Ok cfg') ->
  let r' := Config.Remote cfg' in
  let logPath := filepath.Join [RemoteConfig.LitLogDir r'; Config.network cfg';
                                defaultLogFilename] in
  events st' = events st
    ++ [MkdirAll (filepath.Dir (RemoteConfig.LitTLSCertPath r'));
        MkdirAll (filepath.Dir (RemoteConfig.LitTLSKeyPath r'));
        InitLogRotatorCalled logPath
          (RemoteConfig.LitMaxLogFileSize (Config.Remote cfg))
          (RemoteConfig.LitMaxLogFiles (Config.Remote cfg))] /\
  build.logFile (lnd.LogWriter (Config.Lnd cfg')) = Some logPath /\
  filepath.lastElement logPath = defaultLogFilename.
Proof.
  intros Hrun r' logPath. subst logPath.
  destruct (validateRemoteModeConfig_success _ _ _ _ _ Hrun)
    as (r0 & w & -> & _ & _ & _ & _ & Hw & ->).
  subst r'. cbv zeta. cbn. rewrite Hw.
  split; [reflexivity |]. split; [reflexivity |].
  change (filepath.Join [?a; ?b; ?c]) with (filepath.Join [a; b; c]).
  set (dir := RemoteConfig.LitLogDir r0).
  set (n := RemoteDaemonConfig.Network _).
  assert (Hplain : plain defaultLogFilename) by (repeat split; discriminate).
  cbn [filepath.Join].
  destruct (decide (dir = "")) as [_ | Hdir];
    [destruct (decide (n = "")) as [_ | Hn] |].
  - exact (Join_file_last "" defaultLogFilename Hplain).
  - change (strings.Join [n; defaultLogFilename] "/")
      with (n +:+ "/" +:+ defaultLogFilename).
    now apply Clean_last_plain.
  - change (strings.Join [dir; n; defaultLogFilename] "/")
      with (dir +:+ "/" +:+ n +:+ "/" +:+ defaultLogFilename).
    replace (dir +:+ "/" +:+ n +:+ "/" +:+ defaultLogFilename)
      with ((dir +:+ "/" +:+ n) +:+ "/" +:+ defaultLogFilename)
      by now rewrite !append_assoc.
    now apply Clean_last_plain.
Qed.

(** X9: a successful [validateRemoteModeConfig] adopts the remote network,
    which is one lndclient knows, as the network of the run; it leaves the
    mode, the UI password settings, the RPC server, the macaroon path and
    the TLS certificate path of the remote lnd as they are, and a macaroon
    directory that is not the default one as well. *)
Theorem remote_validation_keeps_settings env cfg st st' cfg' :
  validateRemoteModeConfig env cfg st = (st', Ok cfg') ->
  let l := Config.RemoteLnd cfg in
  let l' := Config.RemoteLnd cfg' in
  Config.network cfg' = RemoteDaemonConfig.Network l /\
  lndclient.ChainParams (Config.network cfg') = None /\
  RemoteDaemonConfig.Network l' = RemoteDaemonConfig.Network l /\
  RemoteDaemonConfig.RPCServer l' = RemoteDaemonConfig.RPCServer l /\
  RemoteDaemonConfig.MacaroonPath l' = RemoteDaemonConfig.MacaroonPath l /\
  RemoteDaemonConfig.TLSCertPath l' = RemoteDaemonConfig.TLSCertPath l /\
  (RemoteDaemonConfig.MacaroonDir l <> defaultRemoteLndMacDir env ->
     RemoteDaemonConfig.MacaroonDir l' = RemoteDaemonConfig.MacaroonDir l /\
     RemoteDaemonConfig.MacaroonPath l = "") /\
  Config.LndMode cfg' = Config.LndMode cfg /\
  Config.UIPassword cfg' = Config.UIPassword cfg /\
  Config.UIPasswordFile cfg' = Config.UIPasswordFile cfg /\
  Config.UIPasswordEnv cfg' = Config.UIPasswordEnv cfg.
Proof.
  intros Hrun l l'.
  destruct (validateRemoteModeConfig_ok _ _ _ _ _ Hrun)
    as (Hknown & Hconflict & Hnet & _).
  destruct (validateRemoteModeConfig_success _ _ _ _ _ Hrun)
    as (r0 & w & -> & Hl & _).
  subst l'. unfold Config.RemoteLnd in *.
  cbn [Config.Remote Config.with_Lnd Config.with_Remote Config.network
       Config.with_network Config.LndMode Config.UIPassword
       Config.UIPasswordFile Config.UIPasswordEnv].
  rewrite Hl. fold l.
  split; [reflexivity |]. split; [exact Hknown |].
  destruct (decide (RemoteDaemonConfig.Network l <> defaultNetwork /\ _))
    as [[_ Hdefault] | _];
    do 4 (split; [reflexivity |]); (split; [| repeat split]).
  - intros Hdir. contradiction.
  - intros Hdir. split; [reflexivity |].
    destruct (decide (RemoteDaemonConfig.MacaroonPath l = ""));
      [assumption | contradiction Hconflict; split; assumption].
Qed.

(** X10: after a successful [validateRemoteModeConfig] in the remote mode,
    [lndConnectParams] returns, without panic: the RPC server as
    configured, the validated network, and, when no macaroon path is set, a
    macaroon path that ends in [admin.macaroon]. *)
Theorem connect_params_after_remote_validation env cfg st st' cfg' :
  Config.LndMode cfg = ModeRemote ->
  validateRemoteModeConfig env cfg st = (st', Ok cfg') ->
  exists tlsPath macPath,
    lndConnectParams env cfg'
      = Ok (RemoteDaemonConfig.RPCServer (Config.RemoteLnd cfg),
            RemoteDaemonConfig.Network (Config.RemoteLnd cfg),
            tlsPath, macPath) /\
    lndclient.ChainParams (RemoteDaemonConfig.Network (Config.RemoteLnd cfg))
      = None /\
    (RemoteDaemonConfig.MacaroonPath (Config.RemoteLnd cfg) = "" ->
       filepath.lastElement macPath = defaultLndMacaroon).
Proof.
  intros Hmode Hrun.
  destruct (validateRemoteModeConfig_ok _ _ _ _ _ Hrun) as (Hknown & _ & Hnet & _).
  destruct (validateRemoteModeConfig_success _ _ _ _ _ Hrun)
    as (r0 & w & Hcfg & Hl & _).
  assert (Hmode' : Config.LndMode cfg' = ModeRemote) by now rewrite Hcfg.
  assert (Hrpc : RemoteDaemonConfig.RPCServer (Config.RemoteLnd cfg')
                 = RemoteDaemonConfig.RPCServer (Config.RemoteLnd cfg)).
  { rewrite Hcfg. unfold Config.RemoteLnd. cbn. rewrite Hl.
    now destruct (decide _). }
  assert (Hpath : RemoteDaemonConfig.MacaroonPath (Config.RemoteLnd cfg')
                  = RemoteDaemonConfig.MacaroonPath (Config.RemoteLnd cfg)).
  { rewrite Hcfg. unfold Config.RemoteLnd. cbn. rewrite Hl.
    now destruct (decide _). }
  unfold lndConnectParams.
  destruct (decide (Config.LndMode cfg' = ModeRemote)); [| contradiction].
  rewrite Hrpc, Hnet. do 2 eexists. split; [reflexivity |].
  split; [exact Hknown |]. intros Hunset. rewrite Hpath.
  destruct (decide (RemoteDaemonConfig.MacaroonPath _ <> ""));
    [contradiction |].
  apply Join_file_last. repeat split; discriminate.
Qed.

Lemma makeDirectories_result env dir st :
  snd (makeDirectories env dir st) = Ok tt \/
  exists cause, snd (makeDirectories env dir st)
                = Err (DirectoryCreateFailed dir cause).
Proof.
  unfold makeDirectories, bind, emit, fail.
  destruct (osMkdirAll env dir); cbn; eauto.
Qed.

(** The errors of [validateRemoteModeConfig], in the order of its checks. *)
Lemma validateRemoteModeConfig_result env cfg st :
  let l := Config.RemoteLnd cfg in
  let run := validateRemoteModeConfig env cfg st in
  match lndclient.ChainParams (RemoteDaemonConfig.Network l) with
  | Some msg => run = (st, Err (InvalidNetwork msg))
  | None =>
      if decide (RemoteDaemonConfig.MacaroonDir l <> defaultRemoteLndMacDir env
                 /\ RemoteDaemonConfig.MacaroonPath l <> "")
      then run = (st, Err ConflictingMacaroonConfig)
      else match snd run with
           | Ok _ => True
           | Err e =>
               (exists dir cause, e = DirectoryCreateFailed dir cause) \/
               (exists msg, e = LogRotationFailed msg) \/
               (exists msg, e = DebugLevelError msg)
           | Panic _ => False
           end
  end.
Proof.
  cbv zeta. unfold validateRemoteModeConfig, Config.RemoteLnd.
  destruct (lndclient.ChainParams _); [reflexivity |].
  destruct (decide (_ /\ _)); [reflexivity |].
  unfold bind at 1.
  match goal with
  | |- context [makeDirectories env ?d st] =>
      destruct (makeDirectories_result env d st) as [Hmk | [cause Hmk]];
      destruct (makeDirectories env d st) as [s1 r1]; cbn in Hmk; subst r1
  end; [| left; do 2 eexists; reflexivity].
  unfold bind at 1.
  match goal with
  | |- context [makeDirectories env ?d s1] =>
      destruct (makeDirectories_result env d s1) as [Hmk | [cause Hmk]];
      destruct (makeDirectories env d s1) as [s2 r2]; cbn in Hmk; subst r2
  end; [| left; do 2 eexists; reflexivity].
  destruct (InitLogRotator env _ _ _);
    [right; left; eexists; reflexivity |].
  destruct (ParseAndSetDebugLevels env _);
    [right; right; eexists; reflexivity |].
  exact I.
Qed.

(** X11: [validateRemoteModeConfig] checks the network first and the
    macaroon settings second, and fails on either with nothing done to the
    outside: no directory is created and the log rotator is not called.
    (Between the two checks the source assigns the network field of the
    configuration; on an error the caller drops the configuration.)  Its
    other errors are a directory that cannot be created, the log rotation
    and the debug levels; it does not panic. *)
Theorem remote_validation_error_order env cfg st :
  let l := Config.RemoteLnd cfg in
  let conflict := RemoteDaemonConfig.MacaroonDir l <> defaultRemoteLndMacDir env
                  /\ RemoteDaemonConfig.MacaroonPath l <> "" in
  (forall msg,
     lndclient.ChainParams (RemoteDaemonConfig.Network l) = Some msg ->
     validateRemoteModeConfig env cfg st = (st, Err (InvalidNetwork msg))) /\
  (lndclient.ChainParams (RemoteDaemonConfig.Network l) = None -> conflict ->
     validateRemoteModeConfig env cfg st = (st, Err ConflictingMacaroonConfig)) /\
  (lndclient.ChainParams (RemoteDaemonConfig.Network l) = None -> ~ conflict ->
   forall e, snd (validateRemoteModeConfig env cfg st) = Err e ->
     (exists dir cause, e = DirectoryCreateFailed dir cause) \/
     (exists msg, e = LogRotationFailed msg) \/
     (exists msg, e = DebugLevelError msg)) /\
  (forall p, snd (validateRemoteModeConfig env cfg st) <> Panic p).
Proof.
  intros l conflict. subst conflict.
  pose proof (validateRemoteModeConfig_result env cfg st) as Hres.
  cbv zeta in Hres. fold l in Hres.
  destruct (lndclient.ChainParams (RemoteDaemonConfig.Network l)) as [msg0 |].
  - split; [intros msg [= <-]; exact Hres |].
    split; [discriminate |]. split; [discriminate |].
    rewrite Hres. discriminate.
  - destruct (decide _) as [Hc | Hc].
    + split; [discriminate |]. split; [intros _ _; exact Hres |].
      split; [intros _ Hno; contradiction |]. rewrite Hres. discriminate.
    + split; [discriminate |]. split; [intros _ Hyes; contradiction |].
      split.
      * intros _ _ e He. now rewrite He in Hres.
      * intros p Hp. now rewrite Hp in Hres.
Qed.

(** X12: the defaults pass the checks of the remote mode: on
    [defaultConfig], [validateRemoteModeConfig] fails neither on the network
    nor on the macaroon settings, and when it succeeds the network is
    mainnet and the macaroon directory is the default one, which ends in
    [mainnet]. *)
Theorem defaults_pass_remote_checks env st :
  (forall msg, snd (validateRemoteModeConfig env (defaultConfig env) st)
               <> Err (InvalidNetwork msg)) /\
  snd (validateRemoteModeConfig env (defaultConfig env) st)
    <> Err ConflictingMacaroonConfig /\
  (forall st' cfg',
     validateRemoteModeConfig env (defaultConfig env) st = (st', Ok cfg') ->
     Config.network cfg' = "mainnet" /\
     RemoteDaemonConfig.MacaroonDir (Config.RemoteLnd cfg')
       = defaultRemoteLndMacDir env /\
     filepath.lastElement (RemoteDaemonConfig.MacaroonDir (Config.RemoteLnd cfg'))
       = "mainnet").
Proof.
  pose proof (validateRemoteModeConfig_result env (defaultConfig env) st) as Hres.
  cbv zeta in Hres.
  change (lndclient.ChainParams
            (RemoteDaemonConfig.Network (Config.RemoteLnd (defaultConfig env))))
    with (@None string) in Hres.
  cbv iota in Hres.
  destruct (decide (_ /\ _)) as [[Hne _] | _]; [now contradiction Hne |].
  split; [| split].
  - intros msg Habs. rewrite Habs in Hres.
    destruct Hres as [(? & ? & ?) | [[? ?] | [? ?]]]; discriminate.
  - intros Habs. rewrite Habs in Hres.
    destruct Hres as [(? & ? & ?) | [[? ?] | [? ?]]]; discriminate.
  - intros st' cfg' Hrun.
    destruct (validateRemoteModeConfig_ok _ _ _ _ _ Hrun) as (_ & _ & Hnet & Hmac).
    split; [exact Hnet |].
    assert (Hdir : RemoteDaemonConfig.MacaroonDir (Config.RemoteLnd cfg')
                   = defaultRemoteLndMacDir env).
    { rewrite Hmac. destruct (decide (_ /\ _)) as [[Hne _] | _];
        [now contradiction Hne | reflexivity]. }
    split; [exact Hdir |]. rewrite Hdir.
    apply Join_network_last. repeat split; discriminate.
Qed.

(** ** Loading the configuration *)

(** X13: resolution ends before it creates a directory or logs anything
    when the first pass over the flags fails, when the config file has a
    syntax error, and when the second pass over the flags fails (also with
    the config file absent: its warning is not logged); the version flag
    ends it after one line on the standard output. *)
Theorem parse_errors_leave_no_trace env st :
  (forall pre msg,
     flagsParse env (defaultConfig env) = (pre, Some msg) ->
     loadAndValidateConfig env st = (st, Err (ErrParsingFlags msg))) /\
  (forall pre,
     flagsParse env (defaultConfig env) = (pre, None) ->
     lnd.ShowVersion (Config.Lnd pre) = true ->
     exists line,
       loadAndValidateConfig env st
         = ({| files := files st; events := events st ++ [Stdout line] |},
            Err RequestedExit)) /\
  (forall pre usage cfg0 msg,
     flagsIniParse env (resolveConfigFilePath env pre) pre
       = (cfg0, Some (IniError msg)) ->
     loadConfigFile env pre usage st = (st, Err (ConfigSyntaxError msg))) /\
  (forall pre usage cfg0 iniErr cfg msg,
     flagsIniParse env (resolveConfigFilePath env pre) pre = (cfg0, iniErr) ->
     (forall m, iniErr <> Some (IniError m)) ->
     flagsParse env cfg0 = (cfg, Some msg) ->
     loadConfigFile env pre usage st = (st, Err (FlagsError msg))).
Proof.
  split; [| split; [| split]].
  - intros pre msg Hflags. unfold loadAndValidateConfig. now rewrite Hflags.
  - intros pre Hflags Hver. unfold loadAndValidateConfig.
    rewrite Hflags, Hver. eexists. reflexivity.
  - intros pre usage cfg0 msg Hini. unfold loadConfigFile. now rewrite Hini.
  - intros pre usage cfg0 iniErr cfg msg Hini Hsyntax Hflags.
    unfold loadConfigFile. rewrite Hini.
    destruct iniErr as [[m | m] |];
      [now contradiction (Hsyntax m) | |]; now rewrite Hflags.
Qed.

(** X14: a mode that is neither [integrated] nor [remote] fails with
    [InvalidMode] and the mode as given, after the lit directory has been
    created; the warning about the config file is not logged. *)
Theorem invalid_mode_after_lit_dir env pre usage st cfg0 iniErr cfg :
  flagsIniParse env (resolveConfigFilePath env pre) pre = (cfg0, iniErr) ->
  (forall msg, iniErr <> Some (IniError msg)) ->
  flagsParse env cfg0 = (cfg, None) ->
  osMkdirAll env (CleanAndExpandPath env (Config.LitDir pre)) = None ->
  Config.LndMode cfg <> ModeIntegrated ->
  Config.LndMode cfg <> ModeRemote ->
  loadConfigFile env pre usage st
    = ({| files := files st;
          events := events st
            ++ [MkdirAll (CleanAndExpandPath env (Config.LitDir pre))] |},
       Err (InvalidMode (Config.LndMode cfg))).
Proof.
  intros Hini Hsyntax Hflags Hmk Hint Hrem.
  rewrite (loadConfigFile_reaches_mode _ _ _ _ _ _ _ Hini Hsyntax Hflags Hmk).
  unfold bind at 1, validateLndMode.
  destruct (decide (Config.LndMode cfg = ModeIntegrated)); [contradiction |].
  destruct (decide (Config.LndMode cfg = ModeRemote)); [contradiction |].
  reflexivity.
Qed.

(** X15: the integrated mode does not look at the remote settings: with
    other remote settings [validateLndMode] has the same outcome, and
    returns the same configuration but for those settings, which it hands
    back as they are (an unknown remote network or conflicting macaroon
    settings among them). *)
Theorem integrated_ignores_remote env cfg usage st remote :
  Config.LndMode cfg = ModeIntegrated ->
  validateLndMode env (Config.with_Remote remote cfg) usage st =
    match validateLndMode env cfg usage st with
    | (st', Ok cfg') => (st', Ok (Config.with_Remote remote cfg'))
    | other => other
    end.
Proof.
  intros Hmode. unfold validateLndMode.
  change (Config.LndMode (Config.with_Remote remote cfg))
    with (Config.LndMode cfg).
  change (Config.Lnd (Config.with_Remote remote cfg)) with (Config.Lnd cfg).
  destruct (decide (Config.LndMode cfg = ModeIntegrated)); [| contradiction].
  destruct (lndValidateConfig env _ _) as [lndCfg | msg]; [| reflexivity].
  unfold bind, lift, ret. destruct (getNetwork _); reflexivity.
Qed.

(** X16: in the integrated mode the one thing [validateLndMode] does to the
    outside is to call [lnd.ValidateConfig], once and with the usage message,
    whatever comes of it.  It fails only with the error of that call or
    with [NoNetworkSelected]; when it succeeds, lnd's part of the
    configuration is the validated one, the network is the one its flags
    select and one lndclient knows, and nothing else in the configuration
    changes. *)
Theorem integrated_mode_outcome env cfg usage st st' r :
  Config.LndMode cfg = ModeIntegrated ->
  validateLndMode env cfg usage st = (st', r) ->
  events st' = events st ++ [LndValidateCalled usage] /\
  match r with
  | Ok cfg' =>
      exists lndCfg,
        lndValidateConfig env (Config.Lnd cfg) usage = inl lndCfg /\
        getNetwork (lnd.Bitcoin lndCfg) = Ok (Config.network cfg') /\
        lndclient.ChainParams (Config.network cfg') = None /\
        cfg' = Config.with_network (Config.network cfg')
                 (Config.with_Lnd lndCfg cfg)
  | Err e =>
      (exists msg, lndValidateConfig env (Config.Lnd cfg) usage = inr msg
                   /\ e = LndValidateError msg) \/
      e = NoNetworkSelected
  | Panic _ => False
  end.
Proof.
  intros Hmode. unfold validateLndMode.
  destruct (decide (Config.LndMode cfg = ModeIntegrated)) as [_ | Hno];
    [| contradiction].
  unfold bind at 1, emit.
  destruct (lndValidateConfig env _ _) as [lndCfg | msg].
  - unfold bind, lift, ret.
    destruct (getNetwork (lnd.Bitcoin lndCfg)) as [n | err | p] eqn:Hnet;
      intros [= <- <-]; (split; [reflexivity |]).
    + exists lndCfg. repeat split; try assumption.
      eapply getNetwork_known, Hnet.
    + right. unfold getNetwork in Hnet. repeat case_match; congruence.
    + unfold getNetwork in Hnet. repeat case_match; discriminate.
  - intros [= <- <-]. split; [reflexivity |]. left. eauto.
Qed.

(** ** Trimming and the UI password *)

Lemma isPrefixOf_app (pat p q : list ascii) :
  strings.isPrefixOf pat p = true -> strings.isPrefixOf pat (p ++ q) = true.
Proof.
  revert p. induction pat as [| a pat IH]; intros p; [reflexivity |].
  destruct p as [| b p]; [discriminate |]. cbn.
  intros H. apply andb_prop in H as [-> Hrest]. cbn. now apply IH.
Qed.

Lemma spaceWidth_nil runes : strings.spaceWidth runes [] = 0%nat.
Proof.
  unfold strings.spaceWidth.
  destruct (find _ runes) as [pat |] eqn:Hfind; [| reflexivity].
  apply find_some in Hfind as [_ Hpat]. now destruct pat.
Qed.

Lemma spaceWidth_prefix runes (p q : list ascii) :
  strings.spaceWidth runes (p ++ q) = 0%nat -> strings.spaceWidth runes p = 0%nat.
Proof.
  unfold strings.spaceWidth.
  induction runes as [| r runes IH]; [reflexivity |]. cbn [find].
  destruct (strings.isPrefixOf r p) eqn:Hp.
  - now rewrite (isPrefixOf_app r p q Hp).
  - destruct (strings.isPrefixOf r (p ++ q)) eqn:Hpq; [| exact IH].
    intros Hlen. destruct r; [| discriminate]. discriminate Hp.
Qed.

Lemma trimLeft_trimmed runes k l :
  strings.spaceWidth runes (strings.trimLeft runes k l) = 0%nat.
Proof.
  revert k. induction l as [| c l IH]; intros k; [apply spaceWidth_nil |].
  cbn [strings.trimLeft]. destruct k as [| k]; [| apply IH].
  destruct (strings.spaceWidth runes (c :: l)) eqn:Hw; [exact Hw | apply IH].
Qed.

Lemma trimLeft_fixed runes l :
  strings.spaceWidth runes l = 0%nat -> strings.trimLeft runes 0 l = l.
Proof. intros Hw. destruct l; [reflexivity |]. cbn. now rewrite Hw. Qed.

Lemma trimLeft_suffix runes k l :
  exists pre, l = pre ++ strings.trimLeft runes k l.
Proof.
  revert k. induction l as [| c l IH]; intros k; [now exists [] |].
  cbn [strings.trimLeft]. destruct k as [| k].
  - destruct (strings.spaceWidth runes (c :: l)); [now exists [] |].
    destruct (IH n) as [pre Hpre]. exists (c :: pre). cbn. now f_equal.
  - destruct (IH k) as [pre Hpre]. exists (c :: pre). cbn. now f_equal.
Qed.

(** Trimming what is trimmed changes nothing. *)
Lemma TrimSpace_idempotent (s : string) :
  strings.TrimSpace (strings.TrimSpace s) = strings.TrimSpace s.
Proof.
  unfold strings.TrimSpace. rewrite list_ascii_of_string_of_list_ascii.
  set (L := strings.spaceRunes). set (R := map (@rev ascii) L).
  set (y := strings.trimLeft L 0 (list_ascii_of_string s)).
  set (z := rev (strings.trimLeft R 0 (rev y))).
  assert (Hz : strings.trimLeft L 0 z = z).
  { apply trimLeft_fixed.
    destruct (trimLeft_suffix R 0 (rev y)) as [pre Hpre].
    apply (spaceWidth_prefix L z (rev pre)).
    replace (z ++ rev pre) with y; [apply trimLeft_trimmed |].
    subst z. rewrite <- rev_app_distr, <- Hpre. symmetry. apply rev_involutive. }
  rewrite Hz. subst z. rewrite rev_involutive.
  now rewrite (trimLeft_fixed R _ (trimLeft_trimmed R 0 (rev y))).
Qed.

(** X17: [readUIPassword] can be run again on what it returned: the password
    it has resolved is resolved to itself, from whichever source it came. *)
Theorem readUIPassword_idempotent env cfg st st' cfg' :
  readUIPassword env cfg st = (st', Ok cfg') ->
  readUIPassword env cfg' st' = (st', Ok cfg') /\
  strings.TrimSpace (Config.UIPassword cfg') = Config.UIPassword cfg'.
Proof.
  intros Hrun.
  assert (Hshape : st' = st /\ exists raw,
            cfg' = Config.with_UIPassword (strings.TrimSpace raw) cfg /\
            (strings.TrimSpace (Config.UIPassword cfg) <> "" ->
               raw = Config.UIPassword cfg)).
  { unfold readUIPassword, ret, fail in Hrun.
    destruct (0 <? _)%nat eqn:Hpw in Hrun.
    - injection Hrun as <- <-. split; [reflexivity |]. eauto.
    - apply length_pos_false in Hpw.
      repeat case_match; simplify_eq; (split; [reflexivity |]);
        eexists; (split; [reflexivity |]); intros Hne; contradiction. }
  destruct Hshape as (-> & raw & -> & Hraw).
  split; [| apply TrimSpace_idempotent].
  destruct (decide (strings.TrimSpace raw = "")) as [Hblank | Hset].
  - (* the source yields a blank: it is consulted again *)
    assert (Hpw : strings.TrimSpace (Config.UIPassword cfg) = "").
    { destruct (decide (strings.TrimSpace (Config.UIPassword cfg) = ""))
        as [| Hne]; [assumption |].
      now rewrite <- (Hraw Hne). }
    rewrite <- Hrun, Hblank. apply length_pos_false in Hpw.
    unfold readUIPassword.
    change (Config.UIPassword (Config.with_UIPassword "" cfg)) with "".
    change (strings.TrimSpace "") with "". rewrite Hpw. reflexivity.
  - rewrite readUIPassword_direct;
      cbn [Config.UIPassword Config.with_UIPassword];
      rewrite TrimSpace_idempotent; [reflexivity | assumption].
Qed.

(** ** What a resolved configuration is *)

Lemma validateLndMode_ok env cfg usage st st' cfg' :
  validateLndMode env cfg usage st = (st', Ok cfg') ->
  (Config.LndMode cfg' = ModeIntegrated \/ Config.LndMode cfg' = ModeRemote) /\
  lndclient.ChainParams (Config.network cfg') = None.
Proof.
  unfold validateLndMode.
  destruct (decide (Config.LndMode cfg = ModeIntegrated)) as [Hint | _].
  - destruct (lndValidateConfig env _ _) as [lndCfg | msg]; [| discriminate].
    unfold bind, lift, ret.
    destruct (getNetwork (lnd.Bitcoin lndCfg)) as [n | e | p] eqn:Hnet;
      try discriminate.
    intros [= <- <-]. split; [now left |].
    eapply getNetwork_known, Hnet.
  - destruct (decide (Config.LndMode cfg = ModeRemote)) as [Hrem | _];
      [| discriminate].
    intros Hrun.
    destruct (validateRemoteModeConfig_ok _ _ _ _ _ Hrun)
      as (Hknown & _ & Hnet & _).
    destruct (validateRemoteModeConfig_success _ _ _ _ _ Hrun)
      as (r0 & w & Hcfg & _).
    split; [right; now rewrite Hcfg | now rewrite Hnet].
Qed.

Lemma loadConfigFile_ok env pre usage st st1 cfg1 :
  loadConfigFile env pre usage st = (st1, Ok cfg1) ->
  (Config.LndMode cfg1 = ModeIntegrated \/ Config.LndMode cfg1 = ModeRemote) /\
  lndclient.ChainParams (Config.network cfg1) = None.
Proof.
  unfold loadConfigFile.
  destruct (flagsIniParse env _ pre) as [cfg0 iniErr].
  assert (Hrest : forall cfg s,
            bind (validateLndMode env cfg usage)
              (fun cfg' =>
                 bind (match iniErr with
                       | Some (IniOther msg) => emit (LogWarn msg)
                       | _ => ret tt
                       end)
                   (fun _ => ret cfg')) s = (st1, Ok cfg1) ->
            (Config.LndMode cfg1 = ModeIntegrated
             \/ Config.LndMode cfg1 = ModeRemote) /\
            lndclient.ChainParams (Config.network cfg1) = None).
  { intros cfg s. unfold bind at 1.
    destruct (validateLndMode env cfg usage s) as [s2 [cfg2 | e | p]] eqn:Hmode;
      try discriminate.
    intros Hend.
    assert (cfg1 = cfg2) as ->
      by (destruct iniErr as [[m | m] |]; now injection Hend).
    eapply validateLndMode_ok, Hmode. }
  destruct iniErr as [[msg | msg] |]; [discriminate | |];
    destruct (flagsParse env cfg0) as [cfg [msg' |]]; try discriminate;
    unfold bind at 1;
    destruct (makeDirectories env _ st) as [s1 [[] | e | p]];
    try discriminate; apply Hrest.
Qed.

Lemma prepareLetsEncrypt_ok env cfg st st' cfg' :
  prepareLetsEncrypt env cfg st = (st', Ok cfg') ->
  (exists dir, cfg' = Config.with_LetsEncryptDir dir cfg) /\
  (Config.LetsEncrypt cfg = true -> Config.LetsEncryptHost cfg <> "").
Proof.
  unfold prepareLetsEncrypt. unfold bind at 1, emit. unfold bind at 1.
  match goal with
  | |- context [if decide ?P then ?a else ?b] =>
      destruct (decide P)
  end.
  all: cbn [Config.LetsEncrypt Config.LetsEncryptHost
            Config.with_LetsEncryptDir].
  all: destruct (Config.LetsEncrypt cfg);
    [destruct (decide (Config.LetsEncryptHost cfg = "")) as [| Hhost];
       [discriminate |]
    |].
  all: try (destruct (makeDirectories env _ _) as [s1 [[] | e | p]];
            try discriminate).
  all: intros [= <- <-]; split; eauto; discriminate.
Qed.

Lemma readUIPassword_ok env cfg st st' cfg' :
  readUIPassword env cfg st = (st', Ok cfg') ->
  exists raw, cfg' = Config.with_UIPassword (strings.TrimSpace raw) cfg.
Proof.
  unfold readUIPassword, ret, fail. intros Hrun.
  repeat case_match; simplify_eq; eauto.
Qed.

Lemma validateSubservers_ok env cfg st st' cfg' :
  validateSubservers env cfg st = (st', Ok cfg') ->
  List.length (lnd.RPCListeners (Config.Lnd cfg)) <= 1 /\
  exists loopCfg poolCfg frdCfg rpcCfg,
    cfg' = Config.with_faradayRpcConfig rpcCfg
             (Config.with_Faraday frdCfg
                (Config.with_Pool poolCfg (Config.with_Loop loopCfg cfg))).
Proof.
  unfold validateSubservers, bind, emit, ret, fail.
  destruct (1 <? _)%nat eqn:Hlen; [discriminate |].
  apply Nat.ltb_ge in Hlen. intros Hrun. split; [exact Hlen |].
  repeat case_match; simplify_eq; do 4 eexists; reflexivity.
Qed.

(** X18: a configuration that [loadAndValidateConfig] returns has one of
    the two modes, a network lndclient knows, a UI password of at least 8
    bytes without white space around it, at most one RPC listener of lnd
    and, if Let's Encrypt is on, a host for it, so that
    [buildTLSConfigForHttp2] cannot miss one. *)
Theorem resolved_config_is_valid env st st' cfg :
  loadAndValidateConfig env st = (st', Ok cfg) ->
  (Config.LndMode cfg = ModeIntegrated \/ Config.LndMode cfg = ModeRemote) /\
  lndclient.ChainParams (Config.network cfg) = None /\
  uiPasswordMinLength <= String.length (Config.UIPassword cfg) /\
  strings.TrimSpace (Config.UIPassword cfg) = Config.UIPassword cfg /\
  List.length (lnd.RPCListeners (Config.Lnd cfg)) <= 1 /\
  (Config.LetsEncrypt cfg = true -> Config.LetsEncryptHost cfg <> "") /\
  (forall st0, snd (buildTLSConfigForHttp2 env cfg st0) <> Err MissingACMEHost).
Proof.
  unfold loadAndValidateConfig.
  destruct (flagsParse env (defaultConfig env)) as [pre [msg |]];
    [discriminate |].
  destruct (lnd.ShowVersion _); [discriminate |].
  unfold bind at 1.
  destruct (loadConfigFile env pre _ st) as [st1 [cfg1 | e | p]] eqn:Hload;
    try discriminate.
  unfold bind at 1.
  destruct (prepareLetsEncrypt env cfg1 st1) as [st2 [cfg2 | e | p]] eqn:Hprep;
    try discriminate.
  unfold bind at 1, wrapErr.
  destruct (readUIPassword env cfg2 st2) as [st3 [cfg3 | e | p]] eqn:Hread;
    try discriminate.
  destruct (_ <? _)%nat eqn:Hlen; [discriminate |].
  apply Nat.ltb_ge in Hlen. intros Hsub.
  destruct (loadConfigFile_ok _ _ _ _ _ _ Hload) as [Hmode Hnet].
  destruct (prepareLetsEncrypt_ok _ _ _ _ _ Hprep) as [[dir ->] Hhost].
  destruct (readUIPassword_ok _ _ _ _ _ Hread) as [raw ->].
  destruct (validateSubservers_ok _ _ _ _ _ Hsub)
    as (Hlis & loopCfg & poolCfg & frdCfg & rpcCfg & ->).
  assert (Hle : Config.LetsEncrypt cfg1 = true -> Config.LetsEncryptHost cfg1 <> "")
    by exact Hhost.
  repeat split; try assumption.
  - apply TrimSpace_idempotent.
  - intros st0. unfold buildTLSConfigForHttp2.
    cbn [Config.LetsEncrypt Config.LetsEncryptHost Config.with_faradayRpcConfig
         Config.with_Faraday Config.with_Pool Config.with_Loop
         Config.with_UIPassword Config.with_LetsEncryptDir].
    unfold bind, loadTLSConfig, emit, ret, fail.
    destruct (Config.LetsEncrypt cfg1).
    + destruct (decide (Config.LetsEncryptHost cfg1 = "")) as [Hno | _];
        [now contradiction (Hle eq_refl) |].
      destruct (TlsConfigWithHttp2Enabled env _); cbn; discriminate.
    + repeat case_match; simplify_eq; cbn; discriminate.
Qed.

(** ** More of the TLS configuration *)

(** X19: with Let's Encrypt on, whatever the mode, [buildTLSConfigForHttp2]
    reads and writes no certificate file: without a host it fails with
    [MissingACMEHost] and does nothing; with one it logs two lines, starts
    the challenge listener on the configured address and hands to the
    HTTP/2 set-up a configuration without certificate, whose only cipher
    suite is the one it adds and whose certificates come from the manager
    for that host and cache directory. *)
Theorem lets_encrypt_provisioning env config st :
  Config.LetsEncrypt config = true ->
  let host := Config.LetsEncryptHost config in
  let dir := Config.LetsEncryptDir config in
  (host = "" ->
     buildTLSConfigForHttp2 env config st = (st, Err MissingACMEHost)) /\
  (host <> "" ->
     buildTLSConfigForHttp2 env config st
       = ({| files := files st;
             events := events st
               ++ [LogInfo ("Setting up Let's Encrypt for server " +:+ host);
                   LogInfo ("Setting up Let's Encrypt with cache dir " +:+ dir);
                   GoListenAndServe (Config.LetsEncryptListen config) host dir] |},
          match TlsConfigWithHttp2Enabled env
                  {| tls.Certificates := [];
                     tls.CipherSuites :=
                       [tls.TLS_ECDHE_RSA_WITH_AES_128_GCM_SHA256];
                     tls.NextProtos := [];
                     tls.GetCertificate := Some (host, dir) |} with
          | inl tlsConfig => Ok tlsConfig
          | inr msg => Err (H2SetupFailed msg)
          end)).
Proof.
  intros Hle host dir. unfold buildTLSConfigForHttp2. rewrite Hle.
  fold host dir. split.
  - intros ->. reflexivity.
  - intros Hhost. destruct (decide (host = "")); [contradiction |].
    unfold bind, emit, ret, fail. cbn [files events].
    rewrite <- !app_assoc. cbn [app].
    destruct (TlsConfigWithHttp2Enabled env _); reflexivity.
Qed.

Lemma buildTLSConfigForHttp2_lnd env config st :
  Config.LetsEncrypt config = false ->
  Config.LndMode config <> ModeRemote ->
  buildTLSConfigForHttp2 env config st
    = (st, tlsConfigOfLoaded env
             (LoadCert env (lnd.TLSCertPath (Config.Lnd config))
                (lnd.TLSKeyPath (Config.Lnd config)) st)).
Proof.
  intros Hle Hmode. unfold buildTLSConfigForHttp2. rewrite Hle.
  destruct (decide (Config.LndMode config = ModeRemote)); [contradiction |].
  unfold bind, loadTLSConfig, tlsConfigOfLoaded, fail, ret.
  destruct (LoadCert env _ _ st); [| reflexivity].
  destruct (TlsConfigWithHttp2Enabled env _); reflexivity.
Qed.

(** X20: without Let's Encrypt and outside the remote mode,
    [buildTLSConfigForHttp2] generates nothing and writes nothing: it loads
    the pair of lnd, and fails with [CertLoadFailed] when the certificate or
    the key of lnd cannot be read or the two do not make a pair. *)
Theorem integrated_tls_is_lnds env config st st' r :
  Config.LetsEncrypt config = false ->
  Config.LndMode config <> ModeRemote ->
  buildTLSConfigForHttp2 env config st = (st', r) ->
  let certPath := lnd.TLSCertPath (Config.Lnd config) in
  let keyPath := lnd.TLSKeyPath (Config.Lnd config) in
  st' = st /\
  (ReadFile certPath st = None \/ ReadFile keyPath st = None ->
     exists msg, r = Err (CertLoadFailed msg)) /\
  (forall certBytes keyBytes msg,
     ReadFile certPath st = Some certBytes ->
     ReadFile keyPath st = Some keyBytes ->
     X509KeyPair env certBytes keyBytes = Some msg ->
     r = Err (CertLoadFailed msg)) /\
  (forall tlsConfig, r = Ok tlsConfig ->
     exists certBytes keyBytes,
       ReadFile certPath st = Some certBytes /\
       ReadFile keyPath st = Some keyBytes /\
       X509KeyPair env certBytes keyBytes = None /\
       TlsConfigWithHttp2Enabled env
         (tls.with_CipherSuites
            (lndCipherSuites env ++ [tls.TLS_ECDHE_RSA_WITH_AES_128_GCM_SHA256])
            (TLSConfFromCert env
               {| tls.certPEM := certBytes; tls.keyPEM := keyBytes |}))
         = inl tlsConfig).
Proof.
  intros Hle Hmode Hrun certPath keyPath.
  rewrite (buildTLSConfigForHttp2_lnd env config st Hle Hmode) in Hrun.
  fold certPath keyPath in Hrun. injection Hrun as <- <-.
  split; [reflexivity |]. unfold tlsConfigOfLoaded, LoadCert.
  split; [| split].
  - intros [Hnone | Hnone]; rewrite Hnone;
      [| destruct (ReadFile certPath st)]; eauto.
  - intros certBytes keyBytes msg -> -> ->. reflexivity.
  - intros tlsConfig.
    destruct (ReadFile certPath st) as [certBytes |]; [| discriminate].
    destruct (ReadFile keyPath st) as [keyBytes |]; [| discriminate].
    destruct (X509KeyPair env certBytes keyBytes) eqn:Hpair; [discriminate |].
    destruct (TlsConfigWithHttp2Enabled env _) eqn:Hh2; [| discriminate].
    intros [= <-]. exists certBytes, keyBytes. repeat split; assumption.
Qed.

(** X21: in the remote mode without Let's Encrypt, a run of
    [buildTLSConfigForHttp2] calls [cert.GenCertPair] exactly when neither
    file is there, and then once; a second run after one that did not fail
    to generate the pair makes no such call: it finds the pair of the
    first, leaves the disk and the trace as the first run left them and
    returns what the first returned. *)
Theorem self_signed_restart env config st st1 r :
  Config.LetsEncrypt config = false ->
  Config.LndMode config = ModeRemote ->
  buildTLSConfigForHttp2 env config st = (st1, r) ->
  (forall msg, r <> Err (CertGenerationFailed msg)) ->
  let certPath := RemoteConfig.LitTLSCertPath (Config.Remote config) in
  let keyPath := RemoteConfig.LitTLSKeyPath (Config.Remote config) in
  (FileExists certPath st = false -> FileExists keyPath st = false ->
     events st1 = events st
       ++ [GenCertPairCalled defaultSelfSignedCertOrganization
             certPath keyPath]) /\
  (FileExists certPath st = true \/ FileExists keyPath st = true ->
     events st1 = events st) /\
  buildTLSConfigForHttp2 env config st1 = (st1, r).
Proof.
  intros Hle Hmode Hrun Hgen certPath keyPath.
  rewrite (buildTLSConfigForHttp2_remote env config st Hle Hmode) in Hrun.
  rewrite (buildTLSConfigForHttp2_remote env config st1 Hle Hmode).
  cbv zeta in *. fold certPath keyPath in Hrun. fold certPath keyPath.
  destruct (FileExists certPath st) eqn:Hcert;
    destruct (FileExists keyPath st) eqn:Hkey; cbn [negb andb] in Hrun.
  1-3: injection Hrun as <- <-; rewrite Hcert, Hkey; cbn [negb andb];
       (split; [discriminate |]); split; reflexivity.
  destruct (certGenerate env _) as [[certBytes keyBytes] | msg].
  - injection Hrun as <- <-.
    split; [intros _ _; reflexivity |].
    split; [intros [H | H]; discriminate |].
    match goal with
    | |- context [FileExists keyPath ?s] =>
        assert (Hthere : FileExists keyPath s = true)
    end.
    { unfold FileExists, WriteFile. cbn [files].
      now rewrite lookup_insert_eq. }
    rewrite Hthere, andb_false_r. reflexivity.
  - injection Hrun as <- <-. now contradiction (Hgen msg).
Qed.

(** X22: in the remote mode without Let's Encrypt, when only one of the two
    files is there, nothing is generated: [buildTLSConfigForHttp2] fails
    with [CertLoadFailed] and leaves the disk as it is. *)
Theorem half_a_pair_is_not_replaced env config st :
  Config.LetsEncrypt config = false ->
  Config.LndMode config = ModeRemote ->
  let certPath := RemoteConfig.LitTLSCertPath (Config.Remote config) in
  let keyPath := RemoteConfig.LitTLSKeyPath (Config.Remote config) in
  (FileExists certPath st = true /\ FileExists keyPath st = false) \/
  (FileExists certPath st = false /\ FileExists keyPath st = true) ->
  exists msg,
    buildTLSConfigForHttp2 env config st = (st, Err (CertLoadFailed msg)).
Proof.
  intros Hle Hmode certPath keyPath Hhalf.
  rewrite (buildTLSConfigForHttp2_remote env config st Hle Hmode).
  fold certPath keyPath. unfold tlsConfigOfLoaded, LoadCert, ReadFile.
  destruct Hhalf as [[Hcert Hkey] | [Hcert Hkey]]; rewrite Hcert, Hkey;
    cbn [negb andb]; apply FileExists_false in Hcert || apply FileExists_false in Hkey.
  - rewrite Hkey. destruct (files st !! certPath) as [[] |]; eauto.
  - rewrite Hcert. eauto.
Qed.

(** ** Let's Encrypt directory and config file *)

(** X23: after setting up the loggers, [loadAndValidateConfig] resolves the
    Let's Encrypt directory: the configured one, cleaned, unless it is the
    default one under a lit directory that is not the default, in which
    case it moves into the lit directory.  Without Let's Encrypt nothing is
    created and nothing can fail; with it, a missing host fails before the
    directory is created. *)
Theorem lets_encrypt_directory env cfg st :
  let litDir := CleanAndExpandPath env (Config.LitDir cfg) in
  let given := CleanAndExpandPath env (Config.LetsEncryptDir cfg) in
  let dir := if decide (litDir <> defaultLitDir env
                        /\ given = defaultLetsEncryptDir env)
             then filepath.Join [litDir; defaultLetsEncryptSubDir]
             else given in
  let logged := events st ++ [SetupLoggers (lnd.LogWriter (Config.Lnd cfg))] in
  (given <> defaultLetsEncryptDir env -> dir = given) /\
  (Config.LetsEncrypt cfg = false ->
     prepareLetsEncrypt env cfg st
       = ({| files := files st; events := logged |},
          Ok (Config.with_LetsEncryptDir dir cfg))) /\
  (Config.LetsEncrypt cfg = true -> Config.LetsEncryptHost cfg = "" ->
     prepareLetsEncrypt env cfg st
       = ({| files := files st; events := logged |},
          Err LetsEncryptHostUnset)) /\
  (Config.LetsEncrypt cfg = true -> Config.LetsEncryptHost cfg <> "" ->
   osMkdirAll env dir = None ->
     prepareLetsEncrypt env cfg st
       = ({| files := files st; events := logged ++ [MkdirAll dir] |},
          Ok (Config.with_LetsEncryptDir dir cfg))).
Proof.
  intros litDir given dir logged. subst dir logged.
  unfold prepareLetsEncrypt. fold litDir.
  cbn [Config.LetsEncryptDir Config.with_LetsEncryptDir]. fold given.
  unfold bind at 1, emit. unfold bind at 1.
  destruct (decide (litDir <> defaultLitDir env
                    /\ given = defaultLetsEncryptDir env)) as [[_ Hgiven] | _];
    cbn [Config.LetsEncrypt Config.LetsEncryptHost Config.LetsEncryptDir
         Config.with_LetsEncryptDir].
  all: split; [try reflexivity; intros Hne; contradiction |].
  all: split; [intros ->; reflexivity |].
  all: split; [intros -> ->; reflexivity |].
  all: intros -> Hhost Hmk;
    destruct (decide (Config.LetsEncryptHost cfg = "")); [contradiction |];
    unfold makeDirectories; rewrite Hmk; reflexivity.
Qed.

(** X24: the config file [loadConfigFile] reads is the one configured,
    cleaned, whenever that is not the default one or the lit directory is
    the default one; with the default file and another lit directory it is
    [lit.conf] in that lit directory. *)
Theorem config_file_follows_lit_dir env pre :
  let litDir := CleanAndExpandPath env (Config.LitDir pre) in
  let given := CleanAndExpandPath env (Config.ConfigFile pre) in
  (given <> defaultConfigFile env -> resolveConfigFilePath env pre = given) /\
  (litDir = defaultLitDir env -> resolveConfigFilePath env pre = given) /\
  (litDir <> defaultLitDir env -> given = defaultConfigFile env ->
     resolveConfigFilePath env pre
       = filepath.Join [litDir; defaultConfigFilename] /\
     filepath.lastElement (resolveConfigFilePath env pre)
       = defaultConfigFilename).
Proof.
  intros litDir given. unfold resolveConfigFilePath. fold litDir given.
  destruct (decide (litDir <> defaultLitDir env /\ given = defaultConfigFile env))
    as [[Hdir Hfile] | Hno].
  - split; [intros Hne; contradiction |].
    split; [intros Heq; contradiction |]. intros _ _.
    split; [reflexivity |]. apply Join_file_last. repeat split; discriminate.
  - split; [reflexivity |]. split; [reflexivity |].
    intros Hdir Hfile. contradiction Hno. split; assumption.
Qed.

(** ** The sub-daemons *)

(** X25: after the UI password, [loadAndValidateConfig] first counts the
    RPC listeners of lnd: more than one fails with [TooManyListeners]
    before any sub-daemon is asked.  Then the validators of loop, pool and
    faraday are called in that order, each with the network of the run;
    the first to refuse ends the validation with its error, and those
    after it are not called.  On success the configuration holds what the
    three validators returned, the RPC configuration of faraday takes its
    directory and macaroon path from faraday's, and the bitcoin client is
    asked for exactly when faraday wants a chain connection, and otherwise
    left as it was. *)
Theorem subserver_validation env cfg st :
  let listeners := lnd.RPCListeners (Config.Lnd cfg) in
  let network := Config.network cfg in
  let loopRun := loopdValidate env
                   (loopd.with_Network network (Config.Loop cfg)) in
  let poolRun := poolValidate env
                   (pool.with_Network network (Config.Pool cfg)) in
  let frdRun := faradayValidateConfig env
                  (faraday.with_Network network (Config.Faraday cfg)) in
  let run := validateSubservers env cfg st in
  let called := fun calls => events (fst run) = events st ++ calls in
  (1 < List.length listeners ->
     snd run = Err TooManyListeners /\ called []) /\
  (List.length listeners <= 1 -> forall msg,
     snd loopRun = Some msg ->
     snd run = Err (LoopValidateError msg) /\
     called [LoopValidateCalled network]) /\
  (List.length listeners <= 1 -> snd loopRun = None -> forall msg,
     snd poolRun = Some msg ->
     snd run = Err (PoolValidateError msg) /\
     called [LoopValidateCalled network; PoolValidateCalled network]) /\
  (List.length listeners <= 1 -> snd loopRun = None -> snd poolRun = None ->
   forall msg,
     snd frdRun = Some msg ->
     snd run = Err (FaradayValidateError msg) /\
     called [LoopValidateCalled network; PoolValidateCalled network;
             FaradayValidateCalled network]) /\
  (forall cfg', snd run = Ok cfg' ->
     Config.Loop cfg' = fst loopRun /\
     Config.Pool cfg' = fst poolRun /\
     Config.Faraday cfg' = fst frdRun /\
     frdrpc.FaradayDir (Config.faradayRpcConfig cfg')
       = faraday.FaradayDir (fst frdRun) /\
     frdrpc.MacaroonPath (Config.faradayRpcConfig cfg')
       = faraday.MacaroonPath (fst frdRun) /\
     (faraday.ChainConn (fst frdRun) = false ->
        frdrpc.BitcoinClient (Config.faradayRpcConfig cfg')
          = frdrpc.BitcoinClient (Config.faradayRpcConfig cfg)) /\
     called ([LoopValidateCalled network; PoolValidateCalled network;
              FaradayValidateCalled network]
             ++ if faraday.ChainConn (fst frdRun)
                then [NewBitcoinClientCalled (faraday.Bitcoin (fst frdRun))]
                else [])).
Proof.
  cbv zeta. unfold validateSubservers, bind, emit, ret, fail.
  cbn [Config.network Config.Pool Config.Faraday Config.with_Loop
       Config.with_Pool Config.with_Faraday Config.faradayRpcConfig].
  destruct (1 <? _)%nat eqn:Hlen;
    [apply Nat.ltb_lt in Hlen | apply Nat.ltb_ge in Hlen].
  2: destruct (loopdValidate env _) as [loopCfg [loopErr |]].
  3: destruct (poolValidate env _) as [poolCfg [poolErr |]].
  4: destruct (faradayValidateConfig env _) as [frdCfg [frdErr |]].
  5: destruct (faraday.ChainConn frdCfg) eqn:Hconn;
       [destruct (chainNewBitcoinClient env _) |].
  all: cbn [fst snd events]; rewrite <- ?app_assoc, ?app_nil_r;
    cbn [app]; repeat split; intros; simplify_eq;
    try reflexivity; try lia; try congruence.
  all: rewrite Hconn; reflexivity.
Qed.

(** ** The store of the web application *)

(** X26: [init] of the application store makes its calls in the order
    settings, channels, swaps, balances.  Its promise is fulfilled exactly
    when every call succeeds, and then all four were made and
    [initialized] is set.  Otherwise it is rejected with the reason of the
    first call that fails, the calls after that one are not made and
    [initialized] is left as it was.  What the constructor stored is never
    changed. *)
Theorem store_init_outcome children s :
  let run := AppStore.init children s in
  (snd run = AppStore.Fulfilled <->
     Forall (fun c => AppStore.outcome children c = AppStore.Fulfilled)
            AppStore.initCalls) /\
  (snd run = AppStore.Fulfilled ->
     AppStore.initialized (fst run) = true /\
     AppStore.called (fst run) = AppStore.called s ++ AppStore.initCalls) /\
  (forall reason, snd run = AppStore.Rejected reason ->
     AppStore.initialized (fst run) = AppStore.initialized s /\
     exists before c,
       AppStore.called (fst run) = AppStore.called s ++ before ++ [c] /\
       (before ++ [c]) `prefix_of` AppStore.initCalls /\
       Forall (fun b => AppStore.outcome children b = AppStore.Fulfilled)
              before /\
       AppStore.outcome children c = AppStore.Rejected reason) /\
  AppStore.api (fst run) = AppStore.api s /\
  AppStore.log (fst run) = AppStore.log s /\
  AppStore.storage (fst run) = AppStore.storage s.
Proof.
  cbv zeta. unfold AppStore.init, AppStore.initCalls.
  rewrite !Forall_cons, Forall_nil. cbn [AppStore.outcome].
  destruct (AppStore.settingsStore_init children) eqn:Hset;
    [destruct (AppStore.channelStore_fetchChannels children) eqn:Hchan;
       [destruct (AppStore.swapStore_fetchSwaps children) eqn:Hswap;
          [destruct (AppStore.nodeStore_fetchBalances children) eqn:Hbal
          | ] | ] | ];
    cbn [fst snd AppStore.called AppStore.initialized AppStore.api
         AppStore.log AppStore.storage AppStore.afterCall
         AppStore.setInitialized];
    rewrite <- ?app_assoc; cbn [app].
  - repeat split; intros; simplify_eq.
  - repeat split; intros; simplify_eq; try tauto.
    exists [AppStore.SettingsInit; AppStore.FetchChannels; AppStore.FetchSwaps],
           AppStore.FetchBalances.
    split; [reflexivity |]. split; [by eexists |].
    split; [repeat constructor |];
      cbn [AppStore.outcome]; rewrite ?Hset; done.
  - repeat split; intros; simplify_eq; try tauto.
    exists [AppStore.SettingsInit; AppStore.FetchChannels], AppStore.FetchSwaps.
    split; [reflexivity |]. split; [by eexists |].
    split; [repeat constructor |];
      cbn [AppStore.outcome]; rewrite ?Hset; done.
  - repeat split; intros; simplify_eq; try tauto.
    exists [AppStore.SettingsInit], AppStore.FetchChannels.
    split; [reflexivity |]. split; [by eexists |].
    split; [repeat constructor |];
      cbn [AppStore.outcome]; rewrite ?Hset; done.
  - repeat split; intros; simplify_eq; try tauto.
    exists [], AppStore.SettingsInit.
    split; [reflexivity |]. split; [by eexists |].
    split; [constructor |].
    cbn [AppStore.outcome]; rewrite ?Hset; done.
Qed.

(** ** The further theorems at work *)

(** X1 on the defaults. *)
Lemma remote_connect_params_witness :
  let env := Scenario.plainHost in
  let c := defaultConfig env in
  Config.LndMode c = ModeRemote /\
  exists macPath,
    lndConnectParams env c
      = Ok ("localhost:10009", "", "/home/lit/.lnd/tls.cert", macPath) /\
    filepath.lastElement macPath = "admin.macaroon".
Proof.
  intros env c. split; [reflexivity |].
  destruct (remote_connect_params env c eq_refl) as (macPath & Hrun & _ & Hdir).
  exists macPath. split; [exact Hrun |]. now apply Hdir.
Defined.

(** X2 on the integrated mode before lnd has a listener. *)
Lemma connect_params_panic_witness :
  let env := Scenario.plainHost in
  let c := Config.with_LndMode ModeIntegrated (defaultConfig env) in
  Config.LndMode c <> ModeRemote /\
  lnd.RPCListeners (Config.Lnd c) = [] /\
  lndConnectParams env c = Panic IndexOutOfRange.
Proof.
  intros env c.
  assert (Hmode : Config.LndMode c <> ModeRemote) by discriminate.
  split; [exact Hmode |]. split; [reflexivity |].
  apply (proj2 (connect_params_panic env c) IndexOutOfRange).
  split; [reflexivity |]. split; [exact Hmode | reflexivity].
Defined.

(** X3 on a listener on every interface, port 9735. *)
Lemma wildcard_rewrite_any_port_witness :
  let env := Scenario.plainHost in
  let a := net.TCPAddr true "0.0.0.0:9735" in
  let c := Config.with_Lnd (Scenario.lndValidated a Scenario.lndDefaults)
             (Config.with_LndMode ModeIntegrated (defaultConfig env)) in
  Config.LndMode c <> ModeRemote /\
  lndDialAddr env c = Ok "127.0.0.1:9735".
Proof.
  intros env a c.
  assert (Hmode : Config.LndMode c <> ModeRemote) by discriminate.
  split; [exact Hmode |].
  destruct (wildcard_rewrite_any_port env c a [] ":9735" Hmode eq_refl)
    as [Hv4 _].
  apply Hv4. reflexivity.
Defined.

(** X4 with the flags of regtest and simnet both set. *)
Lemma getNetwork_first_flag_witness :
  let chain := {| lncfg.MainNet := false; lncfg.TestNet3 := false;
                  lncfg.RegTest := true; lncfg.SimNet := true |} in
  getNetwork chain = Ok "regtest" /\
  lndclient.ChainParams "regtest" = None.
Proof.
  intros chain.
  destruct (getNetwork_first_flag chain)
    as (_ & _ & Hregtest & _ & _ & Hknown & _).
  pose proof (Hregtest eq_refl eq_refl eq_refl) as Hnet.
  split; [exact Hnet |].
  exact (Hknown "regtest" Hnet).
Defined.

(** X5 on a lit directory that links to a volume that is not mounted. *)
Lemma makeDirectories_outcome_witness :
  let env := Scenario.unmounted in
  osMkdirAll env "/home/lit/.lit"
    = Some (PathError true "/home/lit/.lit" "mkdir /home/lit/.lit: file exists") /\
  snd (makeDirectories env "/home/lit/.lit" Scenario.emptyState)
    = Err (DirectoryCreateFailed "/home/lit/.lit"
             "is symlink /home/lit/.lit -> /mnt/lit mounted?").
Proof.
  intros env. split; [reflexivity |].
  destruct (makeDirectories env "/home/lit/.lit" Scenario.emptyState)
    as [st' r] eqn:Hrun.
  destruct (makeDirectories_outcome env _ _ _ _ Hrun) as (_ & _ & Hfail).
  destruct (Hfail _ eq_refl) as (cause & -> & _ & Hlink & _).
  cbn [snd]. now rewrite (Hlink _ _ "/mnt/lit" eq_refl eq_refl).
Defined.

(** X6 on a fresh listener that is accepted on, closed and accepted on
    again: the socket of the first [Accept] is still the one, closed. *)
Lemma listener_calls_invariant_witness :
  let env := Scenario.plainHost in
  let l := {| addr := net.TCPAddr true "127.0.0.1:8443"; lis := None |} in
  let l1 := afterCalls env [CallAccept] l in
  let l' := afterCalls env [CallClose; CallAccept] l1 in
  lis l = None /\
  Addr l1 = net.TCPAddr true "127.0.0.1:8443" /\
  exists li, lis l1 = Some li /\ net.boundNetwork li = "tcp4" /\
             net.boundAddress li = "127.0.0.1:8443" /\
             net.closed li = false /\
             exists li', lis l' = Some li' /\
                         net.boundAddress li' = "127.0.0.1:8443" /\
                         net.closed li' = true.
Proof.
  intros env l l1 l'.
  destruct (listener_calls_invariant env [CallAccept] l)
    as (Haddr & _ & _ & Hfresh).
  split; [reflexivity |]. split; [exact Haddr |].
  destruct (lis l1) as [li |] eqn:Hli; [| vm_compute in Hli; discriminate].
  exists li. split; [reflexivity |].
  destruct (Hfresh eq_refl li Hli) as (Ha & _ & Htcp).
  split; [exact (Htcp true "127.0.0.1:8443" eq_refl) |].
  split; [exact Ha |].
  split; [vm_compute in Hli; now injection Hli as <- |].
  destruct (listener_calls_invariant env [CallClose; CallAccept] l1)
    as (_ & _ & Hkept & _).
  destruct (Hkept li Hli) as (li' & Hli' & _ & Ha' & Hclosed).
  exists li'. split; [exact Hli' |].
  split; [rewrite Ha', Ha; reflexivity |].
  apply Hclosed. right. left. reflexivity.
Defined.

(** A run of [validateRemoteModeConfig] that succeeds, opened up. *)
Ltac open_remote_run env cfg st' cfg' Hrun :=
  destruct (validateRemoteModeConfig env cfg Scenario.emptyState)
    as [st' r] eqn:Hrun;
  let Hr := fresh "Hr" in
  assert (Hr : r = snd (validateRemoteModeConfig env cfg Scenario.emptyState))
    by (now rewrite Hrun);
  vm_compute in Hr;
  destruct r as [cfg' | e | p]; try discriminate Hr; clear Hr.


(** X8 on the defaults. *)
Lemma remote_validation_effects_witness :
  let env := Scenario.plainHost in
  exists st' cfg',
    validateRemoteModeConfig env (defaultConfig env) Scenario.emptyState
      = (st', Ok cfg') /\
    events st'
      = [MkdirAll "/home/lit/.lit"; MkdirAll "/home/lit/.lit";
         InitLogRotatorCalled "/home/lit/.lit/logs/mainnet/litd.log" 10 3] /\
    build.logFile (lnd.LogWriter (Config.Lnd cfg'))
      = Some "/home/lit/.lit/logs/mainnet/litd.log".
Proof.
  intros env. open_remote_run env (defaultConfig env) st' cfg' Hrun.
  exists st', cfg'. split; [reflexivity |].
  pose proof (remote_validation_effects env _ _ _ _ Hrun) as Heffects.
  cbv zeta in Heffects. destruct Heffects as (Hevents & Hlog & _).
  assert (Hcfg : Ok cfg' = snd (validateRemoteModeConfig env (defaultConfig env)
                                  Scenario.emptyState)) by now rewrite Hrun.
  vm_compute in Hcfg. injection Hcfg as ->.
  rewrite Hevents, Hlog. split; vm_compute; reflexivity.
Defined.

(** X9 on a macaroon directory of one's own, on testnet. *)
Lemma remote_validation_keeps_settings_witness :
  let flags c :=
    Config.with_Remote
      (RemoteConfig.with_Lnd
         (RemoteDaemonConfig.with_MacaroonDir "/srv/lnd/macaroons"
            (RemoteDaemonConfig.with_Network "testnet" (Config.RemoteLnd c)))
         (Config.Remote c)) c in
  let env := Scenario.world flags Scenario.noFile ∅ Scenario.loopback in
  let cfg := flags (defaultConfig env) in
  exists st' cfg',
    validateRemoteModeConfig env cfg Scenario.emptyState = (st', Ok cfg') /\
    Config.network cfg' = "testnet" /\
    RemoteDaemonConfig.MacaroonDir (Config.RemoteLnd cfg') = "/srv/lnd/macaroons".
Proof.
  intros flags env cfg. open_remote_run env cfg st' cfg' Hrun.
  exists st', cfg'. split; [reflexivity |].
  destruct (remote_validation_keeps_settings env cfg _ _ _ Hrun)
    as (Hnet & _ & _ & _ & _ & _ & Hdir & _).
  split; [exact Hnet |].
  destruct Hdir as [-> _]; [| reflexivity].
  intros H. vm_compute in H. discriminate.
Defined.

(** X10 on [--remote.lnd.network=testnet]. *)
Lemma connect_params_after_remote_validation_witness :
  let env := Scenario.world Scenario.testnetFlags Scenario.noFile ∅
               Scenario.loopback in
  let cfg := Scenario.testnetFlags (defaultConfig env) in
  exists st' cfg' tlsPath macPath,
    validateRemoteModeConfig env cfg Scenario.emptyState = (st', Ok cfg') /\
    lndConnectParams env cfg'
      = Ok ("localhost:10009", "testnet", tlsPath, macPath) /\
    filepath.lastElement macPath = "admin.macaroon".
Proof.
  intros env cfg. open_remote_run env cfg st' cfg' Hrun.
  destruct (connect_params_after_remote_validation env cfg _ _ _ eq_refl Hrun)
    as (tlsPath & macPath & Hparams & _ & Hmac).
  exists st', cfg', tlsPath, macPath. split; [reflexivity |].
  split; [exact Hparams | now apply Hmac].
Defined.

(** X11 on [--remote.lnd.network=signet]. *)
Lemma remote_validation_error_order_witness :
  let env := Scenario.world Scenario.signetFlags Scenario.noFile ∅
               Scenario.loopback in
  let cfg := Scenario.signetFlags (defaultConfig env) in
  lndclient.ChainParams (RemoteDaemonConfig.Network (Config.RemoteLnd cfg))
    = Some "unknown network" /\
  validateRemoteModeConfig env cfg Scenario.emptyState
    = (Scenario.emptyState, Err (InvalidNetwork "unknown network")).
Proof.
  intros env cfg. split; [reflexivity |].
  destruct (remote_validation_error_order env cfg Scenario.emptyState)
    as (Hnet & _).
  now apply Hnet.
Defined.

(** X12 on the plain host. *)
Lemma defaults_pass_remote_checks_witness :
  let env := Scenario.plainHost in
  exists st' cfg',
    validateRemoteModeConfig env (defaultConfig env) Scenario.emptyState
      = (st', Ok cfg') /\
    Config.network cfg' = "mainnet" /\
    filepath.lastElement (RemoteDaemonConfig.MacaroonDir (Config.RemoteLnd cfg'))
      = "mainnet".
Proof.
  intros env. open_remote_run env (defaultConfig env) st' cfg' Hrun.
  exists st', cfg'. split; [reflexivity |].
  destruct (defaults_pass_remote_checks env Scenario.emptyState) as (_ & _ & Hok).
  destruct (Hok _ _ Hrun) as (Hnet & _ & Hlast). split; assumption.
Defined.

(** X13 on a flag go-flags does not know. *)
Lemma parse_errors_leave_no_trace_witness :
  let env := Scenario.unknownFlag in
  loadAndValidateConfig env Scenario.emptyState
    = (Scenario.emptyState, Err (ErrParsingFlags "unknown flag `colour'")).
Proof.
  intros env.
  destruct (parse_errors_leave_no_trace env Scenario.emptyState) as (Hfirst & _).
  exact (Hfirst (defaultConfig env) _ eq_refl).
Defined.

(** X14 on [--lnd-mode=hybrid], with no config file. *)
Lemma invalid_mode_after_lit_dir_witness :
  let env := Scenario.world Scenario.hybridFlags Scenario.noFile ∅
               Scenario.loopback in
  loadConfigFile env (defaultConfig env) (usageMessage env) Scenario.emptyState
    = ({| files := ∅; events := [MkdirAll "/home/lit/.lit"] |},
       Err (InvalidMode "hybrid")).
Proof.
  intros env.
  refine (invalid_mode_after_lit_dir env (defaultConfig env) (usageMessage env)
            Scenario.emptyState (defaultConfig env) Scenario.noFile
            (Scenario.hybridFlags (defaultConfig env))
            eq_refl _ eq_refl eq_refl _ _).
  - intros msg. discriminate.
  - discriminate.
  - discriminate.
Defined.

(** X15 on the integrated mode with an unknown remote network. *)
Lemma integrated_ignores_remote_witness :
  let env := Scenario.world Scenario.integratedFlags Scenario.noFile ∅
               Scenario.loopback in
  let cfg := Scenario.integratedFlags (defaultConfig env) in
  let remote := Config.Remote (Scenario.signetFlags cfg) in
  Config.LndMode cfg = ModeIntegrated /\
  exists cfg',
    snd (validateLndMode env (Config.with_Remote remote cfg) (usageMessage env)
           Scenario.emptyState) = Ok cfg' /\
    RemoteDaemonConfig.Network (Config.RemoteLnd cfg') = "signet".
Proof.
  intros env cfg remote. split; [reflexivity |].
  rewrite (integrated_ignores_remote env cfg (usageMessage env)
             Scenario.emptyState remote eq_refl).
  destruct (validateLndMode env cfg (usageMessage env) Scenario.emptyState)
    as [st' r] eqn:Hrun.
  assert (Hr : r = snd (validateLndMode env cfg (usageMessage env)
                          Scenario.emptyState)) by now rewrite Hrun.
  vm_compute in Hr. destruct r as [cfg' | e | p]; try discriminate Hr.
  eexists. split; reflexivity.
Defined.

(** X16 on the integrated mode. *)
Lemma integrated_mode_outcome_witness :
  let env := Scenario.world Scenario.integratedFlags Scenario.noFile ∅
               Scenario.loopback in
  let cfg := Scenario.integratedFlags (defaultConfig env) in
  exists st' cfg',
    validateLndMode env cfg (usageMessage env) Scenario.emptyState
      = (st', Ok cfg') /\
    events st' = [LndValidateCalled "Use litd -h to show usage"] /\
    Config.network cfg' = "mainnet".
Proof.
  intros env cfg.
  destruct (validateLndMode env cfg (usageMessage env) Scenario.emptyState)
    as [st' r] eqn:Hrun.
  destruct (integrated_mode_outcome env cfg _ _ _ _ eq_refl Hrun)
    as [Hevents Hr].
  assert (Hval : r = snd (validateLndMode env cfg (usageMessage env)
                            Scenario.emptyState)) by now rewrite Hrun.
  vm_compute in Hval. destruct r as [cfg' | e | p]; try discriminate Hval.
  exists st', cfg'. split; [reflexivity |].
  split; [rewrite Hevents; vm_compute; reflexivity |].
  now injection Hval as ->.
Defined.

(** X17 on a password between blanks. *)
Lemma readUIPassword_idempotent_witness :
  let env := Scenario.plainHost in
  let cfg := Config.with_UIPassword " hunter22 " (defaultConfig env) in
  let cfg' := Config.with_UIPassword "hunter22" (defaultConfig env) in
  readUIPassword env cfg Scenario.emptyState = (Scenario.emptyState, Ok cfg') /\
  readUIPassword env cfg' Scenario.emptyState = (Scenario.emptyState, Ok cfg').
Proof.
  intros env cfg cfg'.
  assert (Hrun : readUIPassword env cfg Scenario.emptyState
                 = (Scenario.emptyState, Ok cfg')) by (vm_compute; reflexivity).
  split; [exact Hrun |].
  exact (proj1 (readUIPassword_idempotent env cfg _ _ _ Hrun)).
Defined.

(** X18 on [--uipassword=...] with everything else at its default. *)
Lemma resolved_config_is_valid_witness :
  let env := Scenario.world (Config.with_UIPassword "correct horse")
               Scenario.noFile ∅ Scenario.loopback in
  exists st' cfg,
    loadAndValidateConfig env Scenario.emptyState = (st', Ok cfg) /\
    Config.LndMode cfg = ModeRemote /\
    8 <= String.length (Config.UIPassword cfg).
Proof.
  intros env.
  destruct (loadAndValidateConfig env Scenario.emptyState) as [st' r] eqn:Hrun.
  assert (Hr : r = snd (loadAndValidateConfig env Scenario.emptyState))
    by now rewrite Hrun.
  vm_compute in Hr. destruct r as [cfg | e | p]; try discriminate Hr.
  exists st', cfg. split; [reflexivity |].
  destruct (resolved_config_is_valid env _ _ _ Hrun) as (_ & _ & Hlen & _).
  split; [now injection Hr as -> | exact Hlen].
Defined.

(** X19 on [--letsencrypt --letsencrypthost=lit.example.org], with the
    operator's pair on disk. *)
Lemma lets_encrypt_provisioning_witness :
  let env := Scenario.plainHost in
  let config := Scenario.letsEncryptFlags (defaultConfig env) in
  Config.LetsEncrypt config = true /\
  Config.LetsEncryptHost config <> "" /\
  files (fst (buildTLSConfigForHttp2 env config Scenario.certState))
    = files Scenario.certState.
Proof.
  intros env config.
  assert (Hhost : Config.LetsEncryptHost config <> "") by discriminate.
  split; [reflexivity |]. split; [exact Hhost |].
  destruct (lets_encrypt_provisioning env config Scenario.certState eq_refl)
    as [_ Hrun].
  now rewrite (Hrun Hhost).
Defined.

(** X20 on the integrated mode with the pair of lnd on disk. *)
Lemma integrated_tls_is_lnds_witness :
  let env := Scenario.plainHost in
  let config := Config.with_LndMode ModeIntegrated (defaultConfig env) in
  Config.LndMode config <> ModeRemote /\
  exists tlsConfig,
    buildTLSConfigForHttp2 env config Scenario.lndCertState
      = (Scenario.lndCertState, Ok tlsConfig) /\
    tls.Certificates tlsConfig
      = [{| tls.certPEM := "LND CERTIFICATE"; tls.keyPEM := "LND KEY" |}].
Proof.
  intros env config.
  assert (Hmode : Config.LndMode config <> ModeRemote) by discriminate.
  split; [exact Hmode |].
  destruct (buildTLSConfigForHttp2 env config Scenario.lndCertState)
    as [st' r] eqn:Hrun.
  destruct (integrated_tls_is_lnds env config _ _ _ eq_refl Hmode Hrun)
    as (-> & _).
  assert (Hr : r = snd (buildTLSConfigForHttp2 env config Scenario.lndCertState))
    by now rewrite Hrun.
  vm_compute in Hr. subst r. eexists. split; reflexivity.
Defined.

(** X21 on a first start with no pair on disk. *)
Lemma self_signed_restart_witness :
  let env := Scenario.plainHost in
  let config := defaultConfig env in
  let first := buildTLSConfigForHttp2 env config Scenario.emptyState in
  FileExists "/home/lit/.lit/tls.cert" Scenario.emptyState = false /\
  FileExists "/home/lit/.lit/tls.cert" (fst first) = true /\
  events (fst first)
    = [GenCertPairCalled "litd autogenerated cert" "/home/lit/.lit/tls.cert"
         "/home/lit/.lit/tls.key"] /\
  buildTLSConfigForHttp2 env config (fst first) = first.
Proof.
  intros env config first. split; [reflexivity |].
  split; [vm_compute; reflexivity |].
  subst first.
  destruct (buildTLSConfigForHttp2 env config Scenario.emptyState)
    as [st1 r] eqn:Hrun.
  assert (Hr : r = snd (buildTLSConfigForHttp2 env config Scenario.emptyState))
    by now rewrite Hrun.
  vm_compute in Hr. subst r.
  pose proof (self_signed_restart env config Scenario.emptyState st1 _
                eq_refl eq_refl Hrun) as Hrestart.
  cbv zeta in Hrestart.
  destruct Hrestart as (Hcalled & _ & Hsecond); [discriminate |].
  split; [exact (Hcalled eq_refl eq_refl) | exact Hsecond].
Defined.

(** X22 on a certificate without its key. *)
Lemma half_a_pair_is_not_replaced_witness :
  let env := Scenario.plainHost in
  let config := defaultConfig env in
  FileExists "/home/lit/.lit/tls.cert" Scenario.halfPairState = true /\
  FileExists "/home/lit/.lit/tls.key" Scenario.halfPairState = false /\
  exists msg,
    buildTLSConfigForHttp2 env config Scenario.halfPairState
      = (Scenario.halfPairState, Err (CertLoadFailed msg)).
Proof.
  intros env config.
  assert (Hcert : FileExists "/home/lit/.lit/tls.cert" Scenario.halfPairState
                  = true) by (vm_compute; reflexivity).
  assert (Hkey : FileExists "/home/lit/.lit/tls.key" Scenario.halfPairState
                 = false) by (vm_compute; reflexivity).
  split; [exact Hcert |]. split; [exact Hkey |].
  apply (half_a_pair_is_not_replaced env config Scenario.halfPairState
           eq_refl eq_refl).
  left. split; [exact Hcert | exact Hkey].
Defined.

(** X23 on [--lit-dir=/srv/lit] without Let's Encrypt. *)
Lemma lets_encrypt_directory_witness :
  let env := Scenario.world Scenario.litDirFlags Scenario.noFile ∅
               Scenario.loopback in
  let cfg := Scenario.litDirFlags (defaultConfig env) in
  Config.LetsEncrypt cfg = false /\
  snd (prepareLetsEncrypt env cfg Scenario.emptyState)
    = Ok (Config.with_LetsEncryptDir "/srv/lit/letsencrypt" cfg).
Proof.
  intros env cfg. split; [reflexivity |].
  destruct (lets_encrypt_directory env cfg Scenario.emptyState)
    as (_ & Hoff & _).
  rewrite (Hoff eq_refl). vm_compute. reflexivity.
Defined.

(** X24 on [--lit-dir=/srv/lit]. *)
Lemma config_file_follows_lit_dir_witness :
  let env := Scenario.world Scenario.litDirFlags Scenario.noFile ∅
               Scenario.loopback in
  let pre := Scenario.litDirFlags (defaultConfig env) in
  CleanAndExpandPath env (Config.LitDir pre) <> defaultLitDir env /\
  resolveConfigFilePath env pre = "/srv/lit/lit.conf".
Proof.
  intros env pre.
  assert (Hdir : CleanAndExpandPath env (Config.LitDir pre) <> defaultLitDir env)
    by (intros H; vm_compute in H; discriminate).
  split; [exact Hdir |].
  destruct (config_file_follows_lit_dir env pre) as (_ & _ & Hmoved).
  destruct (Hmoved Hdir) as [-> _]; vm_compute; reflexivity.
Defined.

(** X25 on lnd with two RPC listeners. *)
Lemma subserver_validation_witness :
  let env := Scenario.plainHost in
  let cfg :=
    Config.with_Lnd
      {| lnd.ShowVersion := false; lnd.DataDir := "/home/lit/.lnd/data";
         lnd.TLSCertPath := "/home/lit/.lnd/tls.cert";
         lnd.TLSKeyPath := "/home/lit/.lnd/tls.key";
         lnd.AdminMacPath := "";
         lnd.RPCListeners := [net.TCPAddr true "127.0.0.1:10009";
                              net.TCPAddr true "10.0.0.7:10009"];
         lnd.Bitcoin := lnd.Bitcoin Scenario.lndDefaults;
         lnd.LogWriter := build.NewRotatingLogWriter |}
      (defaultConfig env) in
  1 < List.length (lnd.RPCListeners (Config.Lnd cfg)) /\
  snd (validateSubservers env cfg Scenario.emptyState) = Err TooManyListeners /\
  events (fst (validateSubservers env cfg Scenario.emptyState)) = [].
Proof.
  intros env cfg.
  assert (Hlen : 1 < List.length (lnd.RPCListeners (Config.Lnd cfg)))
    by (cbn; lia).
  split; [exact Hlen |].
  destruct (subserver_validation env cfg Scenario.emptyState) as (Hmany & _).
  exact (Hmany Hlen).
Defined.

(** X26 on a node whose swaps cannot be fetched. *)
Lemma store_init_outcome_witness :
  let children :=
    {| AppStore.settingsStore_init := AppStore.Returns;
       AppStore.channelStore_fetchChannels := AppStore.Fulfilled;
       AppStore.swapStore_fetchSwaps := AppStore.Rejected "loop is down";
       AppStore.nodeStore_fetchBalances := AppStore.Fulfilled |} in
  let s := AppStore.constructor "lnd" "loop" "localStorage" "actionLog" in
  snd (AppStore.init children s) = AppStore.Rejected "loop is down" /\
  AppStore.initialized (fst (AppStore.init children s)) = false.
Proof.
  intros children s.
  assert (Hrun : snd (AppStore.init children s)
                 = AppStore.Rejected "loop is down") by reflexivity.
  split; [exact Hrun |].
  destruct (store_init_outcome children s) as (_ & _ & Hkeep & _).
  exact (proj1 (Hkeep _ Hrun)).
Defined.
